(** * Exchange Task Creator: the iCalendar codec and the task form

    A shallow embedding of the parts of [aTask1.81.py] that read and write
    iCalendar text and that create and update tasks, with the properties of
    the specification stated over it.

    Conventions of the model.
    - A Python [str] is a Rocq [string].  The character classes used by
      [str.strip], [str.isdigit] and [int] are those Python gives to the
      128 ASCII code points; text outside ASCII is carried as its bytes
      and belongs to no class.  Where a statement depends on a class for
      text that is not fixed, it is made for ASCII text ([ascii_text]).
    - A Python [int] is a [Z].
    - A [dict] with string keys and string values is a [gmap string string].
    - A task is a record; references to task objects are indices into an
      object store, so that the alias between [self.tasks] and
      [self.editing_task] is visible.
    - An exception is a value of [exn]; code that may raise returns a
      [result].
    - The clock and the identifier generator are arguments: [now], [today],
      [stamp] and [uid] stand for what [datetime.now()] and [uuid.uuid4()]
      give, already formatted.
    - [strftime] prints the year as the C library of Linux does, without
      zeros in front.  [int] refuses a text of more than 4300 digits, as
      the interpreter does; [str] of an integer is used within that limit
      ([within_digit_limit]).
    - Files are opened and written without error; widgets are left out, and
      a message box is recorded in the list [dialogs]. *)

From Stdlib Require Import String Ascii ZArith List Lia Bool.
From stdpp Require Import base option list gmap strings.

Local Open Scope string_scope.
Local Open Scope Z_scope.

(** ** The Python primitives the program uses *)

Module Py.

(** Exceptions that the modelled code can raise. *)
Inductive exn : Type :=
| ValueError
| KeyError
| IndexError
| AttributeError.

Inductive result (A : Type) : Type :=
| Return (a : A)
| Raise (e : exn).
Arguments Return {A} a.
Arguments Raise {A} e.

Definition bind {A B} (r : result A) (k : A -> result B) : result B :=
  match r with
  | Return a => k a
  | Raise e => Raise e
  end.

Definition of_option {A} (e : exn) (o : option A) : result A :=
  match o with
  | Some a => Return a
  | None => Raise e
  end.

#[global] Instance result_ret : MRet result := @Return.
#[global] Instance result_bind : MBind result := fun A B k r => bind r k.

(** [try: body / except: handler] for a body without other effects. *)
Definition try_except {A} (body : result A) (handler : A) : A :=
  match body with
  | Return a => a
  | Raise _ => handler
  end.

(** Truth value of a string: [if s:] holds for a non-empty string. *)
Definition truthy (s : string) : bool :=
  match s with
  | EmptyString => false
  | String _ _ => true
  end.

Definition code (c : ascii) : N := N_of_ascii c.

(** White space for [str.strip()]: TAB, LF, VT, FF, CR, FS, GS, RS, US and
    the space. *)
Definition is_space (c : ascii) : bool :=
  ((9 <=? code c) && (code c <=? 13) || (28 <=? code c) && (code c <=? 32))%N.

(** White space for [int()]: the C [isspace] class. *)
Definition is_c_space (c : ascii) : bool :=
  ((9 <=? code c) && (code c <=? 13) || (code c =? 32))%N.

Definition is_digit (c : ascii) : bool :=
  ((48 <=? code c) && (code c <=? 57))%N.

Definition digit_value (c : ascii) : Z := Z.of_N (code c) - 48.

Fixpoint lstrip (s : string) : string :=
  match s with
  | EmptyString => EmptyString
  | String c s' => if is_space c then lstrip s' else s
  end.

Fixpoint rstrip (s : string) : string :=
  match s with
  | EmptyString => EmptyString
  | String c s' =>
      match rstrip s' with
      | EmptyString => if is_space c then EmptyString else String c EmptyString
      | r => String c r
      end
  end.

(** [s.strip()] *)
Definition strip (s : string) : string := rstrip (lstrip s).

(** [s.startswith(p)] *)
Definition startswith (p s : string) : bool := String.prefix p s.

(** [sub in s] *)
Fixpoint contains (sub s : string) : bool :=
  String.prefix sub s ||
  match s with
  | EmptyString => false
  | String _ s' => contains sub s'
  end.

Fixpoint drop (n : nat) (s : string) : string :=
  match n, s with
  | O, _ => s
  | S _, EmptyString => EmptyString
  | S n', String _ s' => drop n' s'
  end.

(** The text before and after the first occurrence of [sep], if any. *)
Fixpoint cut (sep s : string) : option (string * string) :=
  if String.prefix sep s then Some (EmptyString, drop (String.length sep) s)
  else match s with
       | EmptyString => None
       | String c s' =>
           match cut sep s' with
           | Some (a, b) => Some (String c a, b)
           | None => None
           end
       end.

Fixpoint split_fuel (fuel : nat) (sep s : string) : list string :=
  match fuel with
  | O => [s]
  | S fuel' =>
      match cut sep s with
      | None => [s]
      | Some (a, b) => a :: split_fuel fuel' sep b
      end
  end.

(** [s.split(sep)] for a non-empty [sep].  Every cut consumes at least one
    character, so [length s] cuts are enough. *)
Definition split (sep s : string) : list string :=
  split_fuel (String.length s) sep s.

(** [s.split(sep, 1)] *)
Definition split1 (sep s : string) : list string :=
  match cut sep s with
  | None => [s]
  | Some (a, b) => [a; b]
  end.

(** [sep.join(l)] *)
Definition join (sep : string) (l : list string) : string :=
  String.concat sep l.

(** [s.replace(old, new)] for a non-empty [old]: the pieces between the
    occurrences of [old], glued with [new]. *)
Definition replace (old new s : string) : string :=
  join new (split old s).

(** [l[i]] *)
Definition index {A} (l : list A) (i : nat) : result A :=
  of_option IndexError (l !! i).

Fixpoint all_chars (p : ascii -> bool) (s : string) : bool :=
  match s with
  | EmptyString => true
  | String c s' => p c && all_chars p s'
  end.

(** No character of [s] is [c]. *)
Definition lacks (c : ascii) (s : string) : bool :=
  all_chars (fun x => negb (Ascii.eqb x c)) s.

(** [s.isdigit()] *)
Definition isdigit (s : string) : bool := truthy s && all_chars is_digit s.

(** [s] is [n] decimal digits. *)
Definition digits (n : nat) (s : string) : bool :=
  (String.length s =? n)%nat && all_chars is_digit s.

(** [s[i:j]] for [0 <= i <= j] *)
Definition slice (i j : nat) (s : string) : string :=
  String.substring i (j - i) s.

(** *** [int(s)]

    Optional white space, an optional sign, decimal digits in which single
    underscores may separate digits, optional white space. *)

Fixpoint int_digits (acc : Z) (s : string) : option Z :=
  match s with
  | EmptyString => Some acc
  | String c s' =>
      if is_digit c then int_digits (10 * acc + digit_value c) s'
      else if Ascii.eqb c "_" then
        match s' with
        | String d s'' =>
            if is_digit d then int_digits (10 * acc + digit_value d) s''
            else None
        | EmptyString => None
        end
      else if is_c_space c && all_chars is_c_space s' then Some acc
      else None
  end.

Definition int_unsigned (s : string) : option Z :=
  match s with
  | String c s' => if is_digit c then int_digits (digit_value c) s' else None
  | EmptyString => None
  end.

Fixpoint skip_c_space (s : string) : string :=
  match s with
  | EmptyString => EmptyString
  | String c s' => if is_c_space c then skip_c_space s' else s
  end.

(** The number of decimal digits in the text. *)
Fixpoint count_digits (s : string) : N :=
  match s with
  | EmptyString => 0%N
  | String c s' => if is_digit c then (1 + count_digits s')%N else count_digits s'
  end.

(** [sys.int_info.default_max_str_digits] *)
Definition max_str_digits : N := 4300%N.

(** A text with more digits than the limit is refused like one that is no
    number: both end in [ValueError]. *)
Definition int_opt (s : string) : option Z :=
  if (max_str_digits <? count_digits s)%N then None
  else match skip_c_space s with
       | String "+" s' => int_unsigned s'
       | String "-" s' => Z.opp <$> int_unsigned s'
       | s' => int_unsigned s'
       end.

Definition int (s : string) : result Z := of_option ValueError (int_opt s).

(** *** [str(n)] for an integer *)

Definition digit_char (d : Z) : ascii := ascii_of_N (Z.to_N (48 + d)).

Fixpoint str_digits (fuel : nat) (n : Z) (acc : string) : string :=
  match fuel with
  | O => acc
  | S fuel' =>
      let acc' := String (digit_char (n mod 10)) acc in
      if n <? 10 then acc' else str_digits fuel' (n / 10) acc'
  end.

Definition str_nonneg (n : Z) : string :=
  str_digits (S (Z.to_nat (Z.log2 n))) n EmptyString.

Definition str (n : Z) : string :=
  if n <? 0 then String "-" (str_nonneg (- n)) else str_nonneg n.

(** The integer has no more digits than [str] and the formatting of an
    f-string print without [ValueError]. *)
Definition within_digit_limit (n : Z) : bool :=
  negb (max_str_digits <? count_digits (str n))%N.

(** Every character of the text is one of the 128 ASCII code points. *)
Definition ascii_text (s : string) : bool :=
  all_chars (fun c => (code c <? 128)%N) s.

(** [s.zfill(w)]: zeros are put in front, after the sign if there is one. *)
Fixpoint zeros (n : nat) (s : string) : string :=
  match n with
  | O => s
  | S n' => String "0" (zeros n' s)
  end.

Definition zfill (w : nat) (s : string) : string :=
  match s with
  | String c s' =>
      if Ascii.eqb c "+" || Ascii.eqb c "-"
      then String c (zeros (w - String.length s) s')
      else zeros (w - String.length s) s
  | EmptyString => zeros w s
  end.

Definition TAB : string := String "009"%char EmptyString.
Definition LF : string := String "010"%char EmptyString.
Definition CR : string := String "013"%char EmptyString.

(** What [f.read()] returns for a file opened in text mode with the default
    [newline]: the line ends [CR LF] and [CR] of the file are read as [LF]. *)
Definition read_text (file : string) : string :=
  replace CR LF (replace (CR +:+ LF) LF file).

End Py.


Import Py.

(** ** Vocabulary mappers *)

(** [dict.get(key, default)] on a dictionary of strings. *)
Definition dict_get (d : gmap string string) (key default_value : string) : string :=
  default default_value (d !! key).

Definition convert_ics_priority (priority_str : string) : string :=
  try_except
    (priority ← int priority_str;
     if priority <=? 3 then mret "High"
     else if priority <=? 6 then mret "Medium"
     else if priority <=? 9 then mret "Low"
     else mret "None")
    "None".

Definition ics_status_map : gmap string string :=
  list_to_map
    [("NEEDS-ACTION", "Not Started");
     ("IN-PROCESS", "In Progress");
     ("COMPLETED", "Completed");
     ("CANCELLED", "Deferred")].

Definition convert_ics_status (status_str : string) : string :=
  dict_get ics_status_map status_str "Not Started".

Definition priority_map : gmap string string :=
  list_to_map [("High", "1"); ("Medium", "5"); ("Low", "9"); ("None", "0")].

Definition get_ics_priority (priority : string) : string :=
  dict_get priority_map priority "0".

Definition status_map : gmap string string :=
  list_to_map
    [("Not Started", "NEEDS-ACTION");
     ("In Progress", "IN-PROCESS");
     ("Completed", "COMPLETED");
     ("Waiting", "NEEDS-ACTION");
     ("Deferred", "CANCELLED")].

Definition get_ics_status (status : string) : string :=
  dict_get status_map status "NEEDS-ACTION".

(** ** Dates *)

(** [f"{d[:4]}-{d[4:6]}-{d[6:8]}"] *)
Definition dashed (d : string) : string :=
  slice 0 4 d +:+ "-" +:+ slice 4 6 d +:+ "-" +:+ slice 6 8 d.

(** The body of the [try] of [convert_ics_date]: [Return None] when it falls
    through to the final [return ""]. *)
Definition convert_ics_date_body (date_str : string) : result (option string) :=
  date_str ← (if contains "VALUE=DATE:" date_str
              then index (split "VALUE=DATE:" date_str) 1
              else if contains ":" date_str
                   then index (split ":" date_str) 1
                   else mret date_str);
  date_str ← (if contains "T" date_str
              then index (split "T" date_str) 0
              else mret date_str);
  if (String.length date_str =? 8)%nat && isdigit date_str
  then mret (Some (dashed date_str))
  else mret None.

Definition convert_ics_date (date_str : string) : string :=
  if negb (truthy date_str) then ""
  else default "" (try_except (convert_ics_date_body date_str) None).

(** The shape of an ICS date in the words of the specification: an optional
    prefix that ends at a colon, a token of eight digits, an optional time
    that starts with [T]. *)
Definition ics_date_shape (s : string) : Prop :=
  exists prefix token time,
    s = prefix +:+ token +:+ time
    /\ (prefix = "" \/ exists key, prefix = key +:+ ":")
    /\ digits 8 token = true
    /\ (time = "" \/ exists r, time = "T" +:+ r).

(** The token in the words of the amended claim: the text behind the first
    [VALUE=DATE:] as far as the next one, or else behind the first colon as
    far as the next one, or else the whole text; of that, what comes before
    the first [T]. *)
Definition until_next (sep s : string) : string :=
  match cut sep s with
  | Some (a, _) => a
  | None => s
  end.

Definition date_piece (s : string) : string :=
  match cut "VALUE=DATE:" s with
  | Some (_, rest) => until_next "VALUE=DATE:" rest
  | None =>
      match cut ":" s with
      | Some (_, rest) => until_next ":" rest
      | None => s
      end
  end.

Definition date_token (s : string) : string := until_next "T" (date_piece s).

(** A test for that shape: [at_start] tells whether a token may start
    here. *)
Definition token_here (s : string) : bool :=
  digits 8 (String.substring 0 8 s)
  && match drop 8 s with
     | EmptyString => true
     | String c _ => Ascii.eqb c "T"
     end.

Fixpoint shape_from (at_start : bool) (s : string) : bool :=
  (at_start && token_here s)
  || match s with
     | EmptyString => false
     | String c s' => shape_from (Ascii.eqb c ":") s'
     end.

(** ** Tasks *)

(** The value of [repeat_settings]: a dictionary with the keys
    [frequency], [end_type], [count] and [end_date]; [None] is an absent
    key. *)
Record RepeatSettings : Type := {
  frequency : option string;
  end_type : option string;
  count : option Z;
  end_date : option string
}.

(** A task dictionary.  Tasks made by the ICS importer carry no [project]
    key. *)
Record Task : Type := {
  id : Z;
  subject : string;
  project : option string;
  priority : string;
  status : string;
  progress : Z;
  start_date : string;
  due_date : string;
  due_date_type : string;
  reminder : bool;
  reminder_date : string;
  reminder_time : string;
  repeat_settings : option RepeatSettings;
  category : string;
  owner : string;
  location : string;
  description : string;
  created_date : string
}.

(** The task objects and [self.tasks], a list of references to them. *)
Record Store : Type := {
  heap : list Task;
  tasks : list nat
}.

(** [self.tasks.append(task)] for a new task object *)
Definition append_task (task : Task) (s : Store) : Store :=
  {| heap := heap s ++ [task]; tasks := tasks s ++ [length (heap s)] |}.

(** The tasks that [self.tasks] refers to, in order. *)
Definition task_values (s : Store) : list Task :=
  omap (fun r => heap s !! r) (tasks s).

(** ** The ICS block parser *)

Record ParserState : Type := {
  items : list (gmap string string);
  current_item : gmap string string;
  in_item : bool;
  item_type : option string
}.

Definition parser_init : ParserState :=
  {| items := []; current_item := ∅; in_item := false; item_type := None |}.

(** One turn of the loop over [content.split('\n')].  An appended block is
    never written to again: after [END] no key is stored until a [BEGIN]
    binds [current_item] to a new dictionary, so the blocks are values.
    The line holds a colon where it is split, so the split has two parts. *)
Definition parse_line (st : ParserState) (line : string) : ParserState :=
  let line := strip line in
  if String.eqb line "BEGIN:VTODO" then
    {| items := items st; in_item := true; item_type := Some "VTODO";
       current_item := {["type" := "VTODO"]} |}
  else if String.eqb line "BEGIN:VEVENT" then
    {| items := items st; in_item := true; item_type := Some "VEVENT";
       current_item := {["type" := "VEVENT"]} |}
  else if String.eqb line "END:VTODO" || String.eqb line "END:VEVENT" then
    {| items := if bool_decide (current_item st = ∅) then items st
                else items st ++ [current_item st];
       in_item := false; item_type := None;
       current_item := current_item st |}
  else if in_item st && contains ":" line then
    if startswith " " line || startswith TAB line then st
    else
      match split1 ":" line with
      | [key; value] =>
          let key := if contains ";" key then default key (split ";" key !! 0%nat)
                     else key in
          {| items := items st; in_item := in_item st; item_type := item_type st;
             current_item := <[key := value]> (current_item st) |}
      | _ => st
      end
  else st.

Definition parse_blocks (content : string) : list (gmap string string) :=
  items (fold_left parse_line (split LF content) parser_init).

(** ** Import *)

Definition calendar_mark : string :=
  String "240"%char (String "159"%char (String "147"%char (String "133"%char " "))).

(** The task dictionary built from one block; [n] is [len(self.tasks)] and
    [now] the formatted clock reading. *)
Definition task_of_item (n : nat) (now : string) (item : gmap string string) : result Task :=
  let subject := dict_get item "SUMMARY" "Imported Task" in
  let subject := if bool_decide (item !! "type" = Some "VEVENT")
                 then calendar_mark +:+ subject else subject in
  progress ← int (dict_get item "PERCENT-COMPLETE" "0");
  mret {|
    id := Z.of_nat n + 1;
    subject := subject;
    project := None;
    priority := convert_ics_priority (dict_get item "PRIORITY" "0");
    status := convert_ics_status (dict_get item "STATUS" "NEEDS-ACTION");
    progress := progress;
    start_date := convert_ics_date (dict_get item "DTSTART" "");
    due_date := convert_ics_date
                  (if truthy (dict_get item "DUE" "") then dict_get item "DUE" ""
                   else dict_get item "DTEND" "");
    due_date_type := "Custom";
    reminder := false;
    reminder_date := "";
    reminder_time := "";
    repeat_settings := None;
    category := dict_get item "CATEGORIES" "";
    owner := if truthy (dict_get item "ORGANIZER" "")
             then replace "mailto:" "" (dict_get item "ORGANIZER" "") else "";
    location := dict_get item "LOCATION" "";
    description := replace "\;" ";" (replace "\," ","
                     (replace "\n" LF (dict_get item "DESCRIPTION" "")));
    created_date := now
  |}.

(** The loop over [items]: [now k] is the clock reading for the [k]-th
    block.  The tasks appended before an exception stay in the store. *)
Fixpoint convert_items (now : nat -> string) (k : nat) (l : list (gmap string string))
    (s : Store) (imported_count : nat) : Store * result nat :=
  match l with
  | [] => (s, Return imported_count)
  | item :: l' =>
      match task_of_item (length (tasks s)) (now k) item with
      | Raise e => (s, Raise e)
      | Return task =>
          convert_items now (S k) l' (append_task task s) (S imported_count)
      end
  end.

(** [import_from_ics] on a file that can be opened and holds the text
    [file]: the new store and the returned flag. *)
Definition import_from_ics (now : nat -> string) (file : string) (s : Store)
    : Store * bool :=
  let content := read_text file in
  let '(s', r) := convert_items now 0 (parse_blocks content) s 0 in
  (s', try_except (imported_count ← r; mret (0 <? imported_count)%nat) false).

(** ** Calendar dates *)

(** What [datetime.strptime] returns, with the time of day that
    [datetime.replace] may set. *)
Record datetime : Type := {
  year : Z;
  month : Z;
  day : Z;
  hour : Z;
  minute : Z
}.

Definition is_leap (y : Z) : bool :=
  (y mod 4 =? 0) && (negb (y mod 100 =? 0) || (y mod 400 =? 0)).

Definition days_in_month (y m : Z) : Z :=
  if m =? 2 then (if is_leap y then 29 else 28)
  else if (m =? 4) || (m =? 6) || (m =? 9) || (m =? 11) then 30
  else 31.

Definition char_in (lo hi : ascii) (c : ascii) : bool :=
  ((code lo <=? code c) && (code c <=? code hi))%N.

(** [%m]: the pattern [1[0-2]|0[1-9]|[1-9]], here followed by a dash. *)
Definition parse_month_dash (s : string) : option (Z * string) :=
  match s with
  | String a (String b (String "-" r)) =>
      if (Ascii.eqb a "1" && char_in "0" "2" b) || (Ascii.eqb a "0" && char_in "1" "9" b)
      then Some (10 * digit_value a + digit_value b, r)
      else None
  | String a (String "-" r) =>
      if char_in "1" "9" a then Some (digit_value a, r) else None
  | _ => None
  end.

(** [%d]: the pattern [3[01]|[12]\d|0[1-9]|[1-9]| [1-9]], here at the end
    of the text. *)
Definition parse_day_end (s : string) : option Z :=
  match s with
  | String a (String b EmptyString) =>
      if (Ascii.eqb a "3" && char_in "0" "1" b)
         || (char_in "1" "2" a && is_digit b)
         || (Ascii.eqb a "0" && char_in "1" "9" b)
      then Some (10 * digit_value a + digit_value b)
      else if Ascii.eqb a " " && char_in "1" "9" b then Some (digit_value b)
      else None
  | String a EmptyString =>
      if char_in "1" "9" a then Some (digit_value a) else None
  | _ => None
  end.

(** [datetime.strptime(s, "%Y-%m-%d")]; [None] stands for [ValueError]. *)
Definition strptime_ymd (s : string) : option datetime :=
  match s with
  | String y1 (String y2 (String y3 (String y4 (String "-" r)))) =>
      if is_digit y1 && is_digit y2 && is_digit y3 && is_digit y4 then
        '(m, r') ← parse_month_dash r;
        d ← parse_day_end r';
        let y := 1000 * digit_value y1 + 100 * digit_value y2
                 + 10 * digit_value y3 + digit_value y4 in
        if (1 <=? y) && (d <=? days_in_month y m)
        then Some {| year := y; month := m; day := d; hour := 0; minute := 0 |}
        else None
      else None
  | _ => None
  end.

(** [%Y%m%d]: the C library prints the year as it is, so a year below 1000
    has fewer than four digits; month and day have two. *)
Definition ymd_compact (d : datetime) : string :=
  str (year d) +:+ zfill 2 (str (month d)) +:+ zfill 2 (str (day d)).

(** [d.strftime('%Y%m%dT235959Z')] *)
Definition strftime_until (d : datetime) : string :=
  ymd_compact d +:+ "T235959Z".

(** [d.strftime('%Y%m%dT%H%M%SZ')]; the seconds are never set. *)
Definition strftime_stamp (d : datetime) : string :=
  ymd_compact d +:+ "T" +:+ zfill 2 (str (hour d)) +:+ zfill 2 (str (minute d))
  +:+ "00Z".

(** [d.strftime("%Y-%m-%d")], the year again without zeros in front *)
Definition strftime_iso (d : datetime) : string :=
  str (year d) +:+ "-" +:+ zfill 2 (str (month d)) +:+ "-"
  +:+ zfill 2 (str (day d)).

(** [d.replace(hour=h, minute=m)] *)
Definition replace_time (d : datetime) (h m : Z) : result datetime :=
  if (0 <=? h) && (h <=? 23) && (0 <=? m) && (m <=? 59)
  then Return {| year := year d; month := month d; day := day d;
                 hour := h; minute := m |}
  else Raise ValueError.

(** ** The recurrence rule *)

Definition frequency_map : gmap string string :=
  list_to_map
    [("Daily", "DAILY"); ("Weekly", "WEEKLY"); ("Monthly", "MONTHLY");
     ("Yearly", "YEARLY")].

(** [not repeat_settings] for a dictionary: it has no key. *)
Definition settings_empty (rs : RepeatSettings) : bool :=
  match frequency rs, end_type rs, count rs, end_date rs with
  | None, None, None, None => true
  | _, _, _, _ => false
  end.

Definition settings_falsy (repeat_settings : option RepeatSettings) : bool :=
  match repeat_settings with
  | None => true
  | Some rs => settings_empty rs
  end.

(** [generate_rrule]: [Return None] is the Python [None]. *)
Definition generate_rrule (repeat_settings : option RepeatSettings)
    : result (option string) :=
  match repeat_settings with
  | None => Return None
  | Some rs =>
      if settings_empty rs || bool_decide (frequency rs = Some "None")
      then Return None
      else
        f ← of_option KeyError (frequency rs);
        match frequency_map !! f with
        | None => Return None
        | Some freq =>
            let rrule_parts := ["FREQ=" +:+ freq] in
            let end_type := default "Never" (end_type rs) in
            let rrule_parts :=
              if String.eqb end_type "After X occurrences"
                 && match count rs with Some n => negb (n =? 0) | None => false end
              then (rrule_parts ++ ["COUNT=" +:+ str (default 0 (count rs))])%list
              else if String.eqb end_type "Until date"
                      && truthy (default "" (end_date rs))
              then match strptime_ymd (default "" (end_date rs)) with
                   | Some end_date =>
                       (rrule_parts ++ ["UNTIL=" +:+ strftime_until end_date])%list
                   | None => rrule_parts
                   end
              else rrule_parts in
            Return (Some (join ";" rrule_parts))
        end
  end.

(** ** The ICS block writer *)

Definition format_task_name_with_project (task_subject project : string) : string :=
  if truthy project && negb (String.eqb project "None")
  then "[" +:+ project +:+ "] " +:+ task_subject
  else task_subject.

(** The lines that the [try] block of the reminder leaves in [ics_content].
    An exception ends the block where it is raised; the lines appended
    before it stay. *)
Definition reminder_lines (task : Task) : list string :=
  match strptime_ymd (reminder_date task) with
  | None => []
  | Some reminder_datetime =>
      match (if truthy (reminder_time task)
             then
               let time_parts := split ":" (reminder_time task) in
               h ← index time_parts 0 ≫= int;
               m ← index time_parts 1 ≫= int;
               replace_time reminder_datetime h m
             else Return reminder_datetime) with
      | Raise _ => []
      | Return reminder_datetime =>
          let alarm :=
            ["BEGIN:VALARM";
             "ACTION:DISPLAY";
             "DESCRIPTION:Reminder: " +:+ subject task;
             "TRIGGER;VALUE=DATE-TIME:" +:+ strftime_stamp reminder_datetime] in
          match (if negb (settings_falsy (repeat_settings task))
                 then generate_rrule (repeat_settings task)
                 else Return None) with
          | Raise _ => alarm
          | Return repeat_rule =>
              (alarm
               ++ match repeat_rule with
                  | Some rule => if truthy rule then ["RRULE:" +:+ rule] else []
                  | None => []
                  end
               ++ ["END:VALARM"])%list
          end
      end
  end.

(** The lines of one [VTODO]; [uid] and [stamp] are the fresh identifier and
    the formatted clock reading. *)
Definition task_lines (uid stamp : string) (task : Task) : list string :=
  let task_display_name :=
    format_task_name_with_project (subject task) (default "" (project task)) in
  (["BEGIN:VTODO";
    "UID:" +:+ uid;
    "SUMMARY:" +:+ task_display_name;
    "PRIORITY:" +:+ get_ics_priority (priority task);
    "STATUS:" +:+ get_ics_status (status task);
    "PERCENT-COMPLETE:" +:+ str (progress task);
    "DTSTAMP:" +:+ stamp]
   ++ (if truthy (start_date task)
       then ["DTSTART;VALUE=DATE:" +:+ replace "-" "" (start_date task)] else [])
   ++ (if truthy (due_date task)
       then ["DUE;VALUE=DATE:" +:+ replace "-" "" (due_date task)] else [])
   ++ (if reminder task && truthy (reminder_date task)
       then reminder_lines task else [])
   ++ (if truthy (category task) then ["CATEGORIES:" +:+ category task] else [])
   ++ (if truthy (location task) then ["LOCATION:" +:+ location task] else [])
   ++ (if truthy (description task)
       then ["DESCRIPTION:" +:+ replace ";" "\;" (replace "," "\,"
                                 (replace LF "\n" (description task)))]
       else [])
   ++ ["END:VTODO"])%list.

Fixpoint tasks_lines (uid stamp : nat -> string) (k : nat) (l : list Task) : list string :=
  match l with
  | [] => []
  | task :: l' => (task_lines (uid k) (stamp k) task ++ tasks_lines uid stamp (S k) l')%list
  end.

(** [generate_ics_file]: the text handed to [f.write], which is the text of
    the file where the line end is [LF].  [uid k] and [stamp k] are the
    identifier drawn and the clock read for the [k]-th task. *)
Definition generate_ics_file (uid stamp : nat -> string) (l : list Task) : string :=
  join LF
    (["BEGIN:VCALENDAR"; "VERSION:2.0";
      "PRODID:-//Exchange Task Creator//Enhanced//EN"]
     ++ tasks_lines uid stamp 0 l
     ++ ["END:VCALENDAR"])%list.

(** ** The task form and the application state *)

(** The values held by the form's variables and by the description box. *)
Record Form : Type := {
  subject_var : string;
  priority_var : string;
  status_var : string;
  progress_var : Z;
  start_date_var : string;
  custom_start_date_var : string;
  due_date_var : string;
  custom_due_date_var : string;
  reminder_var : bool;
  reminder_date_var : string;
  reminder_hour_var : string;
  reminder_minute_var : string;
  repeat_frequency_var : string;
  repeat_end_var : string;
  repeat_count_var : string;
  repeat_end_date_var : string;
  project_var : string;
  category_var : string;
  owner_var : string;
  location_var : string;
  description_text : string
}.

(** The four JSON files; [None] is a file that does not exist. *)
Record Disk : Type := {
  tasks_json : option (list Task);
  categories_json : option (list string);
  projects_json : option (list string);
  locations_json : option (list string)
}.

Inductive dialog : Type :=
| showerror (title message : string)
| showinfo (title message : string).

Record App : Type := {
  store : Store;
  categories : list string;
  locations : list string;
  projects : list string;
  task_list_visible : bool;
  editing_task : option nat;
  start_options : gmap string (option datetime);
  due_options : gmap string (option datetime);
  form : Form;
  disk : Disk;
  dialogs : list dialog
}.

Definition set_store (v : Store) (a : App) : App :=
  {| store := v; categories := categories a; locations := locations a;
     projects := projects a; task_list_visible := task_list_visible a;
     editing_task := editing_task a; start_options := start_options a;
     due_options := due_options a; form := form a; disk := disk a;
     dialogs := dialogs a |}.

Definition set_categories (v : list string) (a : App) : App :=
  {| store := store a; categories := v; locations := locations a;
     projects := projects a; task_list_visible := task_list_visible a;
     editing_task := editing_task a; start_options := start_options a;
     due_options := due_options a; form := form a; disk := disk a;
     dialogs := dialogs a |}.

Definition set_locations (v : list string) (a : App) : App :=
  {| store := store a; categories := categories a; locations := v;
     projects := projects a; task_list_visible := task_list_visible a;
     editing_task := editing_task a; start_options := start_options a;
     due_options := due_options a; form := form a; disk := disk a;
     dialogs := dialogs a |}.

Definition set_projects (v : list string) (a : App) : App :=
  {| store := store a; categories := categories a; locations := locations a;
     projects := v; task_list_visible := task_list_visible a;
     editing_task := editing_task a; start_options := start_options a;
     due_options := due_options a; form := form a; disk := disk a;
     dialogs := dialogs a |}.

Definition set_task_list_visible (v : bool) (a : App) : App :=
  {| store := store a; categories := categories a; locations := locations a;
     projects := projects a; task_list_visible := v;
     editing_task := editing_task a; start_options := start_options a;
     due_options := due_options a; form := form a; disk := disk a;
     dialogs := dialogs a |}.

Definition set_editing_task (v : option nat) (a : App) : App :=
  {| store := store a; categories := categories a; locations := locations a;
     projects := projects a; task_list_visible := task_list_visible a;
     editing_task := v; start_options := start_options a;
     due_options := due_options a; form := form a; disk := disk a;
     dialogs := dialogs a |}.

Definition set_form (v : Form) (a : App) : App :=
  {| store := store a; categories := categories a; locations := locations a;
     projects := projects a; task_list_visible := task_list_visible a;
     editing_task := editing_task a; start_options := start_options a;
     due_options := due_options a; form := v; disk := disk a;
     dialogs := dialogs a |}.

Definition set_disk (v : Disk) (a : App) : App :=
  {| store := store a; categories := categories a; locations := locations a;
     projects := projects a; task_list_visible := task_list_visible a;
     editing_task := editing_task a; start_options := start_options a;
     due_options := due_options a; form := form a; disk := v;
     dialogs := dialogs a |}.

(** [messagebox.showerror] and [messagebox.showinfo]: the dialog is recorded. *)
Definition show (d : dialog) (a : App) : App :=
  {| store := store a; categories := categories a; locations := locations a;
     projects := projects a; task_list_visible := task_list_visible a;
     editing_task := editing_task a; start_options := start_options a;
     due_options := due_options a; form := form a; disk := disk a;
     dialogs := dialogs a ++ [d] |}.

(** [auto_save_tasks]: [tasks.json] receives the current tasks. *)
Definition auto_save_tasks (a : App) : App :=
  set_disk {| tasks_json := Some (task_values (store a));
              categories_json := categories_json (disk a);
              projects_json := projects_json (disk a);
              locations_json := locations_json (disk a) |} a.

Definition save_categories (a : App) : App :=
  set_disk {| tasks_json := tasks_json (disk a);
              categories_json := Some (categories a);
              projects_json := projects_json (disk a);
              locations_json := locations_json (disk a) |} a.

Definition save_projects (a : App) : App :=
  set_disk {| tasks_json := tasks_json (disk a);
              categories_json := categories_json (disk a);
              projects_json := Some (projects a);
              locations_json := locations_json (disk a) |} a.

Definition save_locations (a : App) : App :=
  set_disk {| tasks_json := tasks_json (disk a);
              categories_json := categories_json (disk a);
              projects_json := projects_json (disk a);
              locations_json := Some (locations a) |} a.

(** [l.sort()] on a list of strings *)
Fixpoint sort_insert (x : string) (l : list string) : list string :=
  match l with
  | [] => [x]
  | y :: l' => if String.leb x y then x :: l else y :: sort_insert x l'
  end.

Definition sort (l : list string) : list string := foldr sort_insert [] l.

(** [x in l] *)
Definition member (x : string) (l : list string) : bool :=
  existsb (String.eqb x) l.

Definition placeholder : string := "-- Select Category --".

Definition get_reminder_time_string (f : Form) : string :=
  if negb (reminder_var f) then ""
  else zfill 2 (reminder_hour_var f) +:+ ":" +:+ zfill 2 (reminder_minute_var f).

(** [toggle_task_list], as far as the state goes. *)
Definition toggle_task_list (a : App) : App :=
  set_task_list_visible (negb (task_list_visible a)) a.

Section Form.

(** [datetime.strptime(s, "%b %d, %Y")]: the month names are those of the
    process locale, so the parser is a parameter. *)
Variable strptime_display : string -> option datetime.

Definition convert_display_to_iso (display_date : string) : string :=
  match strptime_display display_date with
  | Some date_obj => strftime_iso date_obj
  | None => ""
  end.

(** [get_actual_start_date] and [get_actual_due_date], over the table of
    dated options of the drop-down. *)
Definition get_actual_date (options : gmap string (option datetime))
    (selected custom : string) : string :=
  if String.eqb selected "None" then ""
  else if String.eqb selected "Custom" then convert_display_to_iso custom
  else match options !! selected with
       | Some (Some date_obj) => strftime_iso date_obj
       | _ => ""
       end.

Definition get_actual_start_date (a : App) : string :=
  get_actual_date (start_options a) (start_date_var (form a))
    (custom_start_date_var (form a)).

Definition get_actual_due_date (a : App) : string :=
  get_actual_date (due_options a) (due_date_var (form a))
    (custom_due_date_var (form a)).

Definition get_repeat_settings (f : Form) : result (option RepeatSettings) :=
  if negb (reminder_var f) || String.eqb (repeat_frequency_var f) "None"
  then Return None
  else if String.eqb (repeat_end_var f) "After X occurrences" then
    n ← int (repeat_count_var f);
    mret (Some {| frequency := Some (repeat_frequency_var f);
                  end_type := Some (repeat_end_var f);
                  count := Some n; end_date := None |})
  else if String.eqb (repeat_end_var f) "Until date" then
    mret (Some {| frequency := Some (repeat_frequency_var f);
                  end_type := Some (repeat_end_var f);
                  count := None;
                  end_date := Some (convert_display_to_iso (repeat_end_date_var f)) |})
  else
    mret (Some {| frequency := Some (repeat_frequency_var f);
                  end_type := Some (repeat_end_var f);
                  count := None; end_date := None |}).

(** The sixteen entries that [create_task] and [update_task] both read from
    the form. *)
Record TaskEntries : Type := {
  e_subject : string;
  e_project : string;
  e_priority : string;
  e_status : string;
  e_progress : Z;
  e_start_date : string;
  e_due_date : string;
  e_due_date_type : string;
  e_reminder : bool;
  e_reminder_date : string;
  e_reminder_time : string;
  e_repeat_settings : option RepeatSettings;
  e_category : string;
  e_owner : string;
  e_location : string;
  e_description : string
}.

Definition form_entries (a : App) (category project location : string)
    : result TaskEntries :=
  let f := form a in
  rs ← get_repeat_settings f;
  mret {|
    e_subject := strip (subject_var f);
    e_project := if String.eqb project "None" then "" else project;
    e_priority := priority_var f;
    e_status := status_var f;
    e_progress := progress_var f;
    e_start_date := get_actual_start_date a;
    e_due_date := get_actual_due_date a;
    e_due_date_type := due_date_var f;
    e_reminder := reminder_var f;
    e_reminder_date := if reminder_var f
                       then convert_display_to_iso (reminder_date_var f) else "";
    e_reminder_time := get_reminder_time_string f;
    e_repeat_settings := rs;
    e_category := category;
    e_owner := strip (owner_var f);
    e_location := location;
    e_description := strip (description_text f)
  |}.

(** The dictionary literal of [create_task]: the entries with [id] and
    [created_date]. *)
Definition new_task (task_id : Z) (e : TaskEntries) (created : string) : Task :=
  {| id := task_id;
     subject := e_subject e; project := Some (e_project e);
     priority := e_priority e; status := e_status e; progress := e_progress e;
     start_date := e_start_date e; due_date := e_due_date e;
     due_date_type := e_due_date_type e; reminder := e_reminder e;
     reminder_date := e_reminder_date e; reminder_time := e_reminder_time e;
     repeat_settings := e_repeat_settings e; category := e_category e;
     owner := e_owner e; location := e_location e;
     description := e_description e;
     created_date := created |}.

(** [task.update({...})] with the sixteen entries: each key of the argument
    is stored in the task, the other keys of the task stay. *)
Definition dict_update (task : Task) (e : TaskEntries) : Task :=
  {| id := id task;
     subject := e_subject e; project := Some (e_project e);
     priority := e_priority e; status := e_status e; progress := e_progress e;
     start_date := e_start_date e; due_date := e_due_date e;
     due_date_type := e_due_date_type e; reminder := e_reminder e;
     reminder_date := e_reminder_date e; reminder_time := e_reminder_time e;
     repeat_settings := e_repeat_settings e; category := e_category e;
     owner := e_owner e; location := e_location e;
     description := e_description e;
     created_date := created_date task |}.

(** The form after [clear_form] has reset it; [today] is the clock reading
    in display format. *)
Definition cleared_form (today : string) : Form :=
  {| subject_var := ""; priority_var := "None"; status_var := "Not Started";
     progress_var := 0;
     start_date_var := "None"; custom_start_date_var := today;
     due_date_var := "None"; custom_due_date_var := today;
     reminder_var := false; reminder_date_var := today;
     reminder_hour_var := "09"; reminder_minute_var := "00";
     repeat_frequency_var := "None"; repeat_end_var := "Never";
     repeat_count_var := "5"; repeat_end_date_var := today;
     project_var := "None"; category_var := placeholder;
     owner_var := ""; location_var := ""; description_text := "" |}.

(** [exit_edit_mode] sets [editing_task] to [None] and calls [clear_form],
    which then resets the fields; [clear_form] in edit mode only calls
    [exit_edit_mode]. *)
Definition exit_edit_mode (today : string) (a : App) : App :=
  set_form (cleared_form today) (set_editing_task None a).

Definition clear_form (today : string) (a : App) : App :=
  match editing_task a with
  | Some _ => exit_edit_mode today a
  | None => set_form (cleared_form today) a
  end.

(** The three blocks that add a new category, project and location to the
    managed lists and save the list. *)
Definition handle_new_category (category : string) (a : App) : App :=
  if truthy category && negb (member category (categories a))
  then save_categories (set_categories (sort (categories a ++ [category])) a)
  else a.

Definition handle_new_project (project : string) (a : App) : App :=
  if truthy project && negb (String.eqb project "None")
     && negb (member project (projects a))
  then save_projects (set_projects (sort (projects a ++ [project])) a)
  else a.

Definition handle_new_location (location : string) (a : App) : App :=
  if truthy location && negb (member location (locations a))
  then save_locations (set_locations (sort (locations a ++ [location])) a)
  else a.

(** [create_task]: the state it leaves and how it ends.  [now] and [today]
    are readings of the clock in the two formats used. *)
Definition create_task (now today : string) (a : App) : App * result unit :=
  if negb (truthy (strip (subject_var (form a)))) then
    (show (showerror "Error" "Task name is required!") a, Return tt)
  else
    let category := strip (category_var (form a)) in
    if negb (truthy category) || String.eqb category placeholder then
      (show (showerror "Error" "Please select a category for this task!") a,
       Return tt)
    else
      let a := handle_new_category category a in
      let project := strip (project_var (form a)) in
      let a := handle_new_project project a in
      let location := strip (location_var (form a)) in
      let a := handle_new_location location a in
      match form_entries a category project location with
      | Raise e => (a, Raise e)
      | Return entries =>
          let task := new_task (Z.of_nat (length (tasks (store a))) + 1) entries now in
          let a := set_store (append_task task (store a)) a in
          let a := auto_save_tasks a in
          let a := if negb (task_list_visible a) then toggle_task_list a else a in
          let a := show (showinfo "Success"
                     ("Task '" +:+ subject task +:+ "' created and saved successfully!")) a in
          (clear_form today a, Return tt)
      end.

(** [update_task].  The attribute [update] is looked up on
    [self.editing_task] before the argument is built, so in create mode the
    call ends in [AttributeError].  File writes are taken to succeed. *)
Definition update_task (today : string) (a : App) : App * result unit :=
  if negb (truthy (strip (subject_var (form a)))) then
    (show (showerror "Error" "Task name is required!") a, Return tt)
  else
    let category := strip (category_var (form a)) in
    if negb (truthy category) || String.eqb category placeholder then
      (show (showerror "Error" "Please select a category for this task!") a,
       Return tt)
    else
      let a := handle_new_category category a in
      let project := strip (project_var (form a)) in
      let a := handle_new_project project a in
      let location := strip (location_var (form a)) in
      let a := handle_new_location location a in
      match editing_task a ≫= (fun r => (fun t => (r, t)) <$> heap (store a) !! r) with
      | None => (a, Raise AttributeError)
      | Some (r, old) =>
          match form_entries a category project location with
          | Raise e => (a, Raise e)
          | Return entries =>
              let task := dict_update old entries in
              let a := set_store {| heap := <[r := task]> (heap (store a));
                                    tasks := tasks (store a) |} a in
              let a := auto_save_tasks a in
              let a := show (showinfo "Success"
                         ("Task '" +:+ subject task +:+ "' updated successfully!")) a in
              (exit_edit_mode today a, Return tt)
          end
      end.

Definition create_or_update_task (now today : string) (a : App) : App * result unit :=
  match editing_task a with
  | Some _ => update_task today a
  | None => create_task now today a
  end.

End Form.

(** ** Property lines

    The lines between [BEGIN] and [END] seen as pairs of a name and a
    value, for the statements about what a written block parses to. *)

(** The text holds neither a line feed nor a carriage return. *)
Definition one_line (s : string) : bool := lacks "010" s && lacks "013" s.

Definition render (p : string * string) : string := p.1 +:+ ":" +:+ p.2.

(** The key under which the parser stores a line named [name]. *)
Definition base_key (name : string) : string :=
  if contains ";" name then default name (split ";" name !! 0%nat) else name.

(** The four lines that open or close a block. *)
Definition is_marker (line : string) : bool :=
  String.eqb line "BEGIN:VTODO" || String.eqb line "BEGIN:VEVENT"
  || String.eqb line "END:VTODO" || String.eqb line "END:VEVENT".

(** A name without white space and colon, on a line that is no marker. *)
Definition prop_ok (p : string * string) : bool :=
  all_chars (fun c => negb (is_space c) && negb (Ascii.eqb c ":")) p.1
  && negb (is_marker (p.1 +:+ ":" +:+ rstrip p.2)).

Definition store_prop (m : gmap string string) (p : string * string)
    : gmap string string :=
  <[base_key p.1 := rstrip p.2]> m.

(** The value that the last line stored under [key] has, if any. *)
Fixpoint last_value (key : string) (l : list (string * string)) : option string :=
  match l with
  | [] => None
  | p :: l' =>
      match last_value key l' with
      | Some v => Some v
      | None => if String.eqb (base_key p.1) key then Some (rstrip p.2) else None
      end
  end.

(** ** Scenarios

    The texts, settings and states on which the statements below are
    evaluated. *)

Definition folded_file : string :=
  join LF ["BEGIN:VTODO";
           "SUMMARY:Report";
           " SUMMARY:Changed";
           TAB +:+ "X-NOTE:folded";
           "END:VTODO"].

Definition bad_percent_file : string :=
  join LF ["BEGIN:VTODO";
           "SUMMARY:Report";
           "PERCENT-COMPLETE:half";
           "END:VTODO"].

Definition double_end_file : string :=
  join LF ["BEGIN:VTODO";
           "SUMMARY:Report";
           "END:VTODO";
           "END:VTODO"].

Definition report_task (task_id : Z) (created : string) : Task :=
  {| id := task_id; subject := "Report"; project := None;
     priority := "High"; status := "Not Started"; progress := 0;
     start_date := ""; due_date := ""; due_date_type := "Custom";
     reminder := false; reminder_date := ""; reminder_time := "";
     repeat_settings := None; category := ""; owner := ""; location := "";
     description := ""; created_date := created |}.

Definition weekly_five : RepeatSettings :=
  {| frequency := Some "Weekly"; end_type := Some "After X occurrences";
     count := Some 5; end_date := None |}.




(** A form is rejected when the stripped subject is empty, or the stripped
    category is empty or the placeholder. *)
Definition rejected (f : Form) : Prop :=
  strip (subject_var f) = "" \/ strip (category_var f) = ""
  \/ strip (category_var f) = placeholder.

Definition invoice_task : Task :=
  {| id := 1; subject := "Pay invoice"; project := None;
     priority := "High"; status := "Not Started"; progress := 0;
     start_date := ""; due_date := "2024-03-01"; due_date_type := "Custom";
     reminder := false; reminder_date := ""; reminder_time := "";
     repeat_settings := None; category := "Business"; owner := "";
     location := ""; description := "";
     created_date := "2024-02-01 09:00:00" |}.

Definition empty_disk : Disk :=
  {| tasks_json := None; categories_json := None; projects_json := None;
     locations_json := None |}.

(** One task, being edited, and a form that is still empty. *)
Definition editing_app : App :=
  {| store := {| heap := [invoice_task]; tasks := [0%nat] |};
     categories := ["Business"; "Work"]; locations := []; projects := [];
     task_list_visible := true; editing_task := Some 0%nat;
     start_options := ∅; due_options := ∅;
     form := cleared_form "Feb 01, 2024";
     disk := empty_disk; dialogs := [] |}.

(** The same state with a subject and a category entered. *)
Definition filled_app : App :=
  set_form
    {| subject_var := " Pay invoice today "; priority_var := "Low";
       status_var := "In Progress"; progress_var := 40;
       start_date_var := "None"; custom_start_date_var := "Feb 01, 2024";
       due_date_var := "None"; custom_due_date_var := "Feb 01, 2024";
       reminder_var := false; reminder_date_var := "Feb 01, 2024";
       reminder_hour_var := "09"; reminder_minute_var := "00";
       repeat_frequency_var := "None"; repeat_end_var := "Never";
       repeat_count_var := "5"; repeat_end_date_var := "Feb 01, 2024";
       project_var := "None"; category_var := "Work";
       owner_var := ""; location_var := "Office"; description_text := "" |}
    editing_app.

Definition no_display_date (s : string) : option datetime := None.

(** The task of the scenario with a reminder, a location and a description
    of two lines. *)
Definition invoice_task_with_reminder : Task :=
  {| id := 1; subject := "Pay invoice"; project := Some "";
     priority := "High"; status := "Waiting"; progress := 25;
     start_date := "2024-02-20"; due_date := "2024-03-01";
     due_date_type := "Custom";
     reminder := true; reminder_date := "2024-02-28"; reminder_time := "09:30";
     repeat_settings := Some weekly_five; category := "Business";
     owner := "Ann <ann@example.org>"; location := "Office";
     description := "Transfer by bank;" +:+ LF +:+ "keep the receipt";
     created_date := "2024-02-01 09:00:00" |}.

Definition sample_uid (k : nat) : string := "8c1f3a52-4c0e-4d7b-9f3e-5a1d2b6c7e90".
Definition sample_stamp (k : nat) : string := "20240201T090000Z".
Definition sample_now (k : nat) : string := "2024-02-02 10:00:00".

(** ** Written tasks as property lines

    The lines of [task_lines] and [reminder_lines] as pairs of a name and a
    value, and the task that the importer makes of a written task. *)

(** The escaping that the writer applies to a description, and the
    unescaping of the importer. *)
Definition escape_description (d : string) : string :=
  replace ";" "\;" (replace "," "\," (replace LF "\n" d)).

Definition unescape_description (d : string) : string :=
  replace "\;" ";" (replace "\," "," (replace "\n" LF d)).

Definition reminder_props (task : Task) : list (string * string) :=
  match strptime_ymd (reminder_date task) with
  | None => []
  | Some reminder_datetime =>
      match (if truthy (reminder_time task)
             then
               let time_parts := split ":" (reminder_time task) in
               h ← index time_parts 0 ≫= int;
               m ← index time_parts 1 ≫= int;
               replace_time reminder_datetime h m
             else Return reminder_datetime) with
      | Raise _ => []
      | Return reminder_datetime =>
          let alarm :=
            [("BEGIN", "VALARM");
             ("ACTION", "DISPLAY");
             ("DESCRIPTION", "Reminder: " +:+ subject task);
             ("TRIGGER;VALUE=DATE-TIME", strftime_stamp reminder_datetime)] in
          match (if negb (settings_falsy (repeat_settings task))
                 then generate_rrule (repeat_settings task)
                 else Return None) with
          | Raise _ => alarm
          | Return repeat_rule =>
              (alarm
               ++ match repeat_rule with
                  | Some rule => if truthy rule then [("RRULE", rule)] else []
                  | None => []
                  end
               ++ [("END", "VALARM")])%list
          end
      end
  end.

Definition task_props (uid stamp : string) (task : Task) : list (string * string) :=
  ([("UID", uid);
    ("SUMMARY", format_task_name_with_project (subject task) (default "" (project task)));
    ("PRIORITY", get_ics_priority (priority task));
    ("STATUS", get_ics_status (status task));
    ("PERCENT-COMPLETE", str (progress task));
    ("DTSTAMP", stamp)]
   ++ (if truthy (start_date task)
       then [("DTSTART;VALUE=DATE", replace "-" "" (start_date task))] else [])
   ++ (if truthy (due_date task)
       then [("DUE;VALUE=DATE", replace "-" "" (due_date task))] else [])
   ++ (if reminder task && truthy (reminder_date task)
       then reminder_props task else [])
   ++ (if truthy (category task) then [("CATEGORIES", category task)] else [])
   ++ (if truthy (location task) then [("LOCATION", location task)] else [])
   ++ (if truthy (description task)
       then [("DESCRIPTION", escape_description (description task))] else []))%list.

(** The block that the parser makes of the lines of a task. *)
Definition task_block (uid stamp : string) (task : Task) : gmap string string :=
  fold_left store_prop (task_props uid stamp task) {["type" := "VTODO"]}.

(** The fields that the writer puts on lines of their own hold no line
    break; the description holds no carriage return. *)
Definition exportable (uid stamp : string) (task : Task) : bool :=
  one_line uid && one_line stamp && one_line (subject task)
  && one_line (default "" (project task)) && one_line (start_date task)
  && one_line (due_date task) && one_line (category task)
  && one_line (location task) && lacks "013" (description task).

(** The value of the last [DESCRIPTION] line of a written task: the escaped
    description, or else the text of the alarm. *)
Definition description_value (task : Task) : string :=
  if truthy (description task) then escape_description (description task)
  else if reminder task && truthy (reminder_date task)
       then match reminder_props task with
            | [] => ""
            | _ :: _ => "Reminder: " +:+ subject task
            end
       else "".

(** The task that [import_from_ics] makes of the written form of [task]. *)
Definition reimported (n : nat) (now : string) (task : Task) : Task :=
  {| id := Z.of_nat n + 1;
     subject := rstrip (format_task_name_with_project (subject task)
                          (default "" (project task)));
     project := None;
     priority := convert_ics_priority (get_ics_priority (priority task));
     status := convert_ics_status (get_ics_status (status task));
     progress := progress task;
     start_date := convert_ics_date (rstrip (replace "-" "" (start_date task)));
     due_date := convert_ics_date (rstrip (replace "-" "" (due_date task)));
     due_date_type := "Custom";
     reminder := false; reminder_date := ""; reminder_time := "";
     repeat_settings := None;
     category := rstrip (category task);
     owner := "";
     location := rstrip (location task);
     description := unescape_description (rstrip (description_value task));
     created_date := now |}.

(** The tasks that the import makes of the written tasks of [l], one after
    the other, when [self.tasks] holds [n] tasks before; [now k] is the
    clock reading for the first of them. *)
Fixpoint reimported_from (now : nat -> string) (n k : nat) (l : list Task)
    : list Task :=
  match l with
  | [] => []
  | task :: l' => reimported n (now k) task :: reimported_from now (S n) (S k) l'
  end.

(** The texts of a task that the importer strips, measures or tests for
    digits are ASCII text, where the classes of the model are those of
    Python. *)
Definition ascii_task (task : Task) : bool :=
  ascii_text (subject task) && ascii_text (default "" (project task))
  && ascii_text (start_date task) && ascii_text (due_date task)
  && ascii_text (category task) && ascii_text (location task)
  && ascii_text (description task).

(** The blocks of the tasks of [l], the first of which is written with
    [uid k] and [stamp k], and the condition that all of them can be
    written on lines of their own. *)
Fixpoint task_blocks (uid stamp : nat -> string) (k : nat) (l : list Task)
    : list (gmap string string) :=
  match l with
  | [] => []
  | task :: l' => task_block (uid k) (stamp k) task :: task_blocks uid stamp (S k) l'
  end.

Fixpoint all_exportable (uid stamp : nat -> string) (k : nat) (l : list Task) : bool :=
  match l with
  | [] => true
  | task :: l' => exportable (uid k) (stamp k) task && all_exportable uid stamp (S k) l'
  end.

(** What the writer puts for one character of a description. *)
Definition escape_char (c : ascii) : string :=
  if Ascii.eqb c "010" then "\n"
  else if Ascii.eqb c "," then "\,"
  else if Ascii.eqb c ";" then "\;"
  else String c "".

(** ** Import from a text file *)

(** [f.readlines()]: the lines of the text, each with its line end. *)
Fixpoint readlines (s : string) : list string :=
  match s with
  | EmptyString => []
  | String c s' =>
      if Ascii.eqb c "010" then LF :: readlines s'
      else match readlines s' with
           | [] => [String c EmptyString]
           | line :: lines => String c line :: lines
           end
  end.

(** The condition of the loop and of the list comprehension on a line. *)
Definition text_line_kept (line : string) : bool :=
  truthy (strip line) && negb (startswith "#" (strip line)).

(** The dictionary literal of [import_from_text]. *)
Definition text_task (n : nat) (now line : string) : Task :=
  {| id := Z.of_nat n + 1; subject := line; project := None;
     priority := "None"; status := "Not Started"; progress := 0;
     start_date := ""; due_date := ""; due_date_type := "Custom";
     reminder := false; reminder_date := ""; reminder_time := "";
     repeat_settings := None; category := ""; owner := ""; location := "";
     description := ""; created_date := now |}.

Fixpoint import_text_lines (now : nat -> string) (k : nat) (lines : list string)
    (s : Store) : Store :=
  match lines with
  | [] => s
  | line :: lines' =>
      let line := strip line in
      if truthy line && negb (startswith "#" line)
      then import_text_lines now (S k) lines'
             (append_task (text_task (length (tasks s)) (now k) line) s)
      else import_text_lines now k lines' s
  end.

(** [import_from_text] on a file that can be opened and holds the text
    [file]; [now k] is the clock reading for the [k]-th task made. *)
Definition import_from_text (now : nat -> string) (file : string) (s : Store)
    : Store * bool :=
  let lines := readlines (read_text file) in
  (import_text_lines now 0 lines s,
   (0 <? length (filter (fun l => text_line_kept l = true) lines))%nat).

(** ** Managed lists *)

Fixpoint is_sorted (l : list string) : bool :=
  match l with
  | x :: (y :: _) as l' => String.leb x y && is_sorted l'
  | _ => true
  end.

(** [load_categories]: the defaults and the loaded names, each once, in
    order.  [sorted] of a set depends on its members only. *)
Definition load_categories (a : App) : App :=
  match categories_json (disk a) with
  | Some loaded_categories =>
      set_categories (sort (remove_dups (categories a ++ loaded_categories))) a
  | None => a
  end.

(** ** Contacts *)



(** ** Deleting tasks *)

#[global] Instance RepeatSettings_eq_dec : EqDecision RepeatSettings.
Proof. solve_decision. Defined.

#[global] Instance Task_eq_dec : EqDecision Task.
Proof. solve_decision. Defined.







(** The tasks are numbered by their place, as [create_task] and the
    imports number them when nothing has been deleted. *)
Definition numbered (s : Store) : Prop :=
  forall i r, tasks s !! i = Some r ->
    exists t, heap s !! r = Some t /\ id t = Z.of_nat i + 1.

(** ** More scenarios *)

(** A task without description whose reminder is set. *)
Definition call_task : Task :=
  {| id := 2; subject := "Call Ann"; project := Some "Home";
     priority := "Medium"; status := "In Progress"; progress := 50;
     start_date := ""; due_date := ""; due_date_type := "None";
     reminder := true; reminder_date := "2024-02-28"; reminder_time := "09:30";
     repeat_settings := None; category := "Home"; owner := ""; location := "";
     description := ""; created_date := "2024-02-01 09:05:00" |}.

(** Repeat settings as a file may hold them: an end type and no frequency. *)
Definition settings_without_frequency : RepeatSettings :=
  {| frequency := None; end_type := Some "Never"; count := None; end_date := None |}.

Definition call_task_from_file : Task :=
  {| id := 2; subject := "Call Ann"; project := Some "Home";
     priority := "Medium"; status := "In Progress"; progress := 50;
     start_date := ""; due_date := ""; due_date_type := "None";
     reminder := true; reminder_date := "2024-02-28"; reminder_time := "09:30";
     repeat_settings := Some settings_without_frequency;
     category := "Home"; owner := ""; location := "";
     description := ""; created_date := "2024-02-01 09:05:00" |}.

(** A form with a weekly reminder for the number of occurrences [count]. *)
Definition reminder_form (count : string) : Form :=
  {| subject_var := "Call Ann"; priority_var := "Medium";
     status_var := "In Progress"; progress_var := 50;
     start_date_var := "None"; custom_start_date_var := "Feb 01, 2024";
     due_date_var := "None"; custom_due_date_var := "Feb 01, 2024";
     reminder_var := true; reminder_date_var := "Feb 28, 2024";
     reminder_hour_var := "09"; reminder_minute_var := "30";
     repeat_frequency_var := "Weekly"; repeat_end_var := "After X occurrences";
     repeat_count_var := count; repeat_end_date_var := "Feb 01, 2024";
     project_var := "None"; category_var := "Home";
     owner_var := ""; location_var := ""; description_text := "" |}.

(** Two tasks numbered 1 and 2, and a form that is filled in. *)
Definition two_tasks_app : App :=
  {| store := {| heap := [invoice_task; call_task]; tasks := [0%nat; 1%nat] |};
     categories := ["Business"; "Home"; "Work"]; locations := []; projects := [];
     task_list_visible := true; editing_task := None;
     start_options := ∅; due_options := ∅;
     form := reminder_form "5";
     disk := empty_disk; dialogs := [] |}.

(** * Properties *)

(** ** The primitives *)

#[local] Arguments ascii_dec : simpl never.

Lemma prefix_nil (s : string) : String.prefix EmptyString s = true.
Proof. by destruct s. Qed.

Lemma prefix_cons (a b : ascii) (p s : string) :
  String.prefix (String a p) (String b s) = Ascii.eqb a b && String.prefix p s.
Proof.
  cbn [String.prefix]. destruct (ascii_dec a b) as [->|Hne].
  - by rewrite Ascii.eqb_refl.
  - by apply Ascii.eqb_neq in Hne as ->.
Qed.

Lemma append_cons (x : ascii) (a b : string) : String x a +:+ b = String x (a +:+ b).
Proof. reflexivity. Qed.

Lemma append_nil_l (a : string) : EmptyString +:+ a = a.
Proof. reflexivity. Qed.

Lemma append_assoc (a b c : string) : (a +:+ b) +:+ c = a +:+ (b +:+ c).
Proof. induction a as [|x a IH]; [done|]. by rewrite !append_cons, IH. Qed.

Lemma append_nil_r (a : string) : a +:+ EmptyString = a.
Proof. induction a as [|x a IH]; [done|]. by rewrite append_cons, IH. Qed.

Lemma append_length (a b : string) :
  String.length (a +:+ b) = (String.length a + String.length b)%nat.
Proof. induction a as [|x a IH]; [done|]. rewrite append_cons. simpl. by rewrite IH. Qed.

Lemma prefix_empty (a : ascii) (p : string) :
  String.prefix (String a p) EmptyString = false.
Proof. done. Qed.

Lemma all_chars_app (p : ascii -> bool) (a b : string) :
  all_chars p (a +:+ b) = all_chars p a && all_chars p b.
Proof.
  induction a as [|x a IH]; [done|].
  rewrite append_cons. simpl. by rewrite IH, andb_assoc.
Qed.

Lemma all_chars_impl (p q : ascii -> bool) (s : string) :
  (forall c, p c = true -> q c = true) ->
  all_chars p s = true -> all_chars q s = true.
Proof.
  intros Hpq. induction s as [|x s IH]; [done|]. simpl.
  intros [Hx Hs]%andb_true_iff. by rewrite (Hpq x Hx), IH.
Qed.

Lemma lacks_cons (c x : ascii) (s : string) :
  lacks c (String x s) = negb (Ascii.eqb x c) && lacks c s.
Proof. reflexivity. Qed.

Lemma lacks_app (c : ascii) (a b : string) :
  lacks c (a +:+ b) = lacks c a && lacks c b.
Proof. apply all_chars_app. Qed.

(** *** Cutting at a separator *)

Lemma prefix_drop (sep s : string) :
  String.prefix sep s = true -> s = sep +:+ drop (String.length sep) s.
Proof.
  revert s. induction sep as [|x sep IH]; intros s H; [done|].
  destruct s as [|y s]; [done|].
  rewrite prefix_cons in H. apply andb_true_iff in H as [Hx Hs].
  apply Ascii.eqb_eq in Hx as ->. rewrite append_cons. cbn [String.length drop].
  by rewrite <- IH.
Qed.

Lemma cut_sound (sep s a b : string) :
  cut sep s = Some (a, b) -> s = a +:+ sep +:+ b.
Proof.
  revert a b. induction s as [|x s IH]; intros a b; cbn [cut].
  - destruct (String.prefix sep "") eqn:Hp; [|done].
    intros [= <- <-]. by apply prefix_drop in Hp.
  - destruct (String.prefix sep (String x s)) eqn:Hp.
    + intros [= <- <-]. by apply prefix_drop in Hp.
    + destruct (cut sep s) as [[a' b']|] eqn:Hc; [|done].
      intros [= <- <-]. rewrite append_cons. f_equal. by apply IH.
Qed.

Lemma prefix_lacks (c : ascii) (sep s : string) :
  lacks c s = true -> String.prefix (String c sep) s = false.
Proof.
  destruct s as [|x s]; [done|]. rewrite lacks_cons, prefix_cons.
  intros [Hx _]%andb_true_iff. apply negb_true_iff in Hx.
  by rewrite Ascii.eqb_sym, Hx.
Qed.

Lemma cut_lacks (c : ascii) (sep s : string) :
  lacks c s = true -> cut (String c sep) s = None.
Proof.
  induction s as [|x s IH]; intros H; cbn [cut].
  - done.
  - rewrite (prefix_lacks c sep _ H). rewrite lacks_cons in H.
    apply andb_true_iff in H as [_ H]. by rewrite IH.
Qed.

Lemma contains_lacks (c : ascii) (sep s : string) :
  lacks c s = true -> contains (String c sep) s = false.
Proof.
  induction s as [|x s IH]; intros H; cbn [contains].
  - done.
  - rewrite (prefix_lacks c sep _ H). rewrite lacks_cons in H.
    apply andb_true_iff in H as [_ H]. by rewrite IH.
Qed.

Lemma cut_at (c : ascii) (a b : string) :
  lacks c a = true -> cut (String c "") (a +:+ String c b) = Some (a, b).
Proof.
  induction a as [|x a IH]; intros H.
  - rewrite append_nil_l. cbn [cut]. by rewrite prefix_cons, Ascii.eqb_refl, prefix_nil.
  - rewrite append_cons. cbn [cut]. rewrite lacks_cons in H.
    apply andb_true_iff in H as [Hx H]. apply negb_true_iff in Hx.
    by rewrite prefix_cons, Ascii.eqb_sym, Hx, (IH H).
Qed.

Lemma contains_at (c : ascii) (a b : string) :
  contains (String c "") (a +:+ String c b) = true.
Proof.
  induction a as [|x a IH].
  - rewrite append_nil_l. cbn [contains]. by rewrite prefix_cons, Ascii.eqb_refl, prefix_nil.
  - rewrite append_cons. cbn [contains]. by rewrite IH, orb_true_r.
Qed.

Lemma contains_cut (sep s : string) :
  contains sep s = true <-> is_Some (cut sep s).
Proof.
  assert (forall A, is_Some (@None A) <-> false = true) as Hnone.
  { intros A. split; [by intros [? ?] | done]. }
  induction s as [|x s IH]; cbn [contains cut].
  - destruct (String.prefix sep ""); simpl; [done|]. by rewrite Hnone.
  - destruct (String.prefix sep (String x s)); simpl; [done|].
    rewrite IH. destruct (cut sep s) as [[a b]|]; [done|].
    by rewrite !Hnone.
Qed.

(** The place of a character that occurs once. *)
Lemma app_char_inj (c : ascii) (k t a b : string) :
  lacks c k = true -> lacks c t = true ->
  a +:+ String c b = k +:+ String c t -> a = k /\ b = t.
Proof.
  revert a. induction k as [|y k IH]; intros a Hk Ht E.
  - rewrite append_nil_l in E. destruct a as [|x a].
    + rewrite append_nil_l in E. by injection E as ->.
    + rewrite append_cons in E. injection E as -> E. subst t.
      rewrite lacks_app, lacks_cons, Ascii.eqb_refl in Ht.
      by rewrite andb_false_r in Ht.
  - rewrite lacks_cons in Hk. apply andb_true_iff in Hk as [Hy Hk].
    rewrite append_cons in E. destruct a as [|x a].
    + rewrite append_nil_l in E. injection E as -> _.
      by rewrite Ascii.eqb_refl in Hy.
    + rewrite append_cons in E. injection E as -> E.
      destruct (IH a Hk Ht E) as [-> ->]. done.
Qed.

Lemma cut_length (sep s a b : string) :
  cut sep s = Some (a, b) ->
  String.length s = (String.length a + String.length sep + String.length b)%nat.
Proof.
  intros H%cut_sound. subst s. rewrite !append_length. lia.
Qed.

Lemma split_fuel_none (n : nat) (sep s : string) :
  cut sep s = None -> split_fuel n sep s = [s].
Proof. intros H. destruct n; [done|]. cbn [split_fuel]. by rewrite H. Qed.

Lemma split_two (sep s a b : string) :
  sep <> "" -> cut sep s = Some (a, b) -> cut sep b = None ->
  split sep s = [a; b].
Proof.
  intros Hsep Hc Hb. unfold split.
  pose proof (cut_length _ _ _ _ Hc) as Hl.
  destruct (String.length s) as [|n] eqn:E.
  - destruct sep; [done|]. simpl in Hl. lia.
  - cbn [split_fuel]. by rewrite Hc, split_fuel_none.
Qed.

Lemma split_head (sep s a b : string) :
  sep <> "" -> cut sep s = Some (a, b) -> split sep s !! 0%nat = Some a.
Proof.
  intros Hsep Hc. unfold split.
  pose proof (cut_length _ _ _ _ Hc) as Hl.
  destruct (String.length s) as [|n] eqn:E.
  - destruct sep; [done|]. simpl in Hl. lia.
  - cbn [split_fuel]. by rewrite Hc.
Qed.

Lemma split_none (sep s : string) : cut sep s = None -> split sep s = [s].
Proof. apply split_fuel_none. Qed.

Example strip_example : strip (" END:VTODO" +:+ TAB +:+ " ") = "END:VTODO".
Proof. reflexivity. Qed.

Example split_example : split ":" "a::b" = ["a"; ""; "b"] /\ split "XX" "aXXXb" = ["a"; "Xb"].
Proof. split; reflexivity. Qed.

Example replace_example : replace "aa" "b" "aaa" = "ba".
Proof. reflexivity. Qed.

Example int_example :
  map int_opt [" 3 "; "+3"; "-3"; "1_0"; "_1"; "1_"; "1__0"; ""; "  "; "3.0"; "007"; "- 3"; "0"]
  = [Some 3; Some 3; Some (-3); Some 10; None; None; None; None; None; None;
     Some 7; None; Some 0].
Proof. reflexivity. Qed.

Example str_example :
  map str [0; 5; 10; -42; 100; 999; 1000] = ["0"; "5"; "10"; "-42"; "100"; "999"; "1000"].
Proof. reflexivity. Qed.

Example zfill_example : map (zfill 4) ["5"; "2024"; "12345"; "-5"] = ["0005"; "2024"; "12345"; "-005"].
Proof. reflexivity. Qed.

Example strptime_example :
  map strptime_ymd ["2024-03-01"; "2024-3-1"; "2024-03- 5"; "2024-13-01"; "2024-02-30";
                    "0000-01-01"; "2024-03-011"; "20240301"; "2023-02-29"]
  = [Some {| year := 2024; month := 3; day := 1; hour := 0; minute := 0 |};
     Some {| year := 2024; month := 3; day := 1; hour := 0; minute := 0 |};
     Some {| year := 2024; month := 3; day := 5; hour := 0; minute := 0 |};
     None; None; None; None; None; None].
Proof. reflexivity. Qed.

(** ** Printing and reading integers *)

Lemma digit_char_spec (d : Z) :
  0 <= d < 10 -> is_digit (digit_char d) = true /\ digit_value (digit_char d) = d.
Proof.
  intros H.
  assert (d = 0 \/ d = 1 \/ d = 2 \/ d = 3 \/ d = 4 \/ d = 5 \/ d = 6 \/ d = 7
          \/ d = 8 \/ d = 9) as Hd by lia.
  repeat (destruct Hd as [->|Hd]; [by vm_compute|]). subst. by vm_compute.
Qed.

Lemma str_digits_app (fuel : nat) (n : Z) (acc : string) :
  str_digits fuel n acc = str_digits fuel n "" +:+ acc.
Proof.
  revert n acc. induction fuel as [|fuel IH]; intros n acc; [done|].
  cbn [str_digits]. destruct (n <? 10); [done|].
  rewrite (IH _ (String _ acc)), (IH _ (String _ "")).
  by rewrite append_assoc.
Qed.

Lemma str_digits_all_digits (fuel : nat) (n : Z) :
  all_chars is_digit (str_digits fuel n "") = true.
Proof.
  revert n. induction fuel as [|fuel IH]; intros n; [done|].
  cbn [str_digits].
  destruct (digit_char_spec (n mod 10)) as [Hd _]; [by apply Z.mod_pos_bound|].
  destruct (n <? 10); [by simpl; rewrite Hd|].
  rewrite str_digits_app, all_chars_app, IH. simpl. by rewrite Hd.
Qed.

Lemma str_digits_nonempty (fuel : nat) (n : Z) :
  truthy (str_digits (S fuel) n "") = true.
Proof.
  cbn [str_digits]. destruct (n <? 10); [done|].
  rewrite str_digits_app. by destruct (str_digits fuel (n / 10) "").
Qed.

Lemma int_digits_str_digits (fuel : nat) (n : Z) (t : string) :
  0 <= n < 10 ^ Z.of_nat fuel ->
  int_digits 0 (str_digits fuel n "" +:+ t) = int_digits n t.
Proof.
  revert n t. induction fuel as [|fuel IH]; intros n t Hn.
  - simpl in Hn. assert (n = 0) as -> by lia. done.
  - cbn [str_digits].
    destruct (digit_char_spec (n mod 10)) as [Hd Hv]; [by apply Z.mod_pos_bound|].
    destruct (n <? 10) eqn:E.
    + apply Z.ltb_lt in E. rewrite append_cons, append_nil_l. cbn [int_digits].
      rewrite Hd, Hv, Z.mod_small by lia. done.
    + apply Z.ltb_ge in E. rewrite str_digits_app, append_assoc, append_cons, append_nil_l.
      rewrite IH.
      * cbn [int_digits]. rewrite Hd, Hv. f_equal.
        pose proof (Z.div_mod n 10). lia.
      * rewrite Nat2Z.inj_succ, Z.pow_succ_r in Hn by lia.
        split; [apply Z.div_pos; lia|].
        apply Z.div_lt_upper_bound; lia.
Qed.

Lemma str_fuel_enough (n : Z) :
  0 <= n -> n < 10 ^ Z.of_nat (S (Z.to_nat (Z.log2 n))).
Proof.
  intros Hn. rewrite Nat2Z.inj_succ, Z2Nat.id by apply Z.log2_nonneg.
  destruct (Z.eq_dec n 0) as [->|Hne]; [done|].
  pose proof (Z.log2_spec n ltac:(lia)) as [_ H].
  eapply Z.lt_le_trans; [exact H|].
  apply Z.pow_le_mono_l. pose proof (Z.log2_nonneg n). lia.
Qed.

Lemma int_unsigned_digits (s : string) :
  truthy s = true -> all_chars is_digit s = true ->
  int_unsigned s = int_digits 0 s.
Proof.
  destruct s as [|c s]; [done|]. simpl. intros _ [-> _]%andb_true_iff. done.
Qed.

Lemma int_unsigned_str_nonneg (n : Z) :
  0 <= n -> int_unsigned (str_nonneg n) = Some n.
Proof.
  intros Hn. unfold str_nonneg.
  rewrite int_unsigned_digits
    by (apply str_digits_nonempty || apply str_digits_all_digits).
  rewrite <- (append_nil_r (str_digits _ _ _)).
  rewrite int_digits_str_digits; [done|].
  split; [done | by apply str_fuel_enough].
Qed.

Lemma skip_c_space_digit (c : ascii) (s : string) :
  is_digit c = true ->
  match skip_c_space (String c s) with
  | String "+" s' => int_unsigned s'
  | String "-" s' => Z.opp <$> int_unsigned s'
  | s' => int_unsigned s'
  end = int_unsigned (String c s).
Proof.
  intros Hc.
  destruct c as [[] [] [] [] [] [] [] []]; try discriminate Hc; reflexivity.
Qed.

(** [int(str(n)) == n] within the limit of digits *)
Lemma int_str (n : Z) : within_digit_limit n = true -> int_opt (str n) = Some n.
Proof.
  unfold within_digit_limit, int_opt. intros ->%negb_true_iff.
  unfold str. destruct (n <? 0) eqn:E.
  - apply Z.ltb_lt in E. cbn [skip_c_space]. simpl.
    rewrite int_unsigned_str_nonneg by lia. simpl. f_equal. lia.
  - apply Z.ltb_ge in E.
    pose proof (str_digits_nonempty (Z.to_nat (Z.log2 n)) n) as Hne.
    pose proof (str_digits_all_digits (S (Z.to_nat (Z.log2 n))) n) as Hd.
    fold (str_nonneg n) in Hne, Hd.
    pose proof (int_unsigned_str_nonneg n E) as Hi.
    destruct (str_nonneg n) as [|c s]; [done|].
    simpl in Hd. apply andb_true_iff in Hd as [Hc _].
    by rewrite skip_c_space_digit.
Qed.

Lemma str_chars (n : Z) :
  all_chars (fun c => is_digit c || Ascii.eqb c "-") (str n) = true.
Proof.
  assert (forall m, all_chars (fun c => is_digit c || Ascii.eqb c "-") (str_nonneg m) = true)
    as H.
  { intros m. eapply all_chars_impl; [|apply str_digits_all_digits].
    intros c ->. done. }
  unfold str. destruct (n <? 0); [|apply H]. simpl. apply H.
Qed.

(** ** Stripping *)

Lemma lstrip_nonspace (c : ascii) (s : string) :
  is_space c = false -> lstrip (String c s) = String c s.
Proof. intros H. simpl. by rewrite H. Qed.

Lemma rstrip_cons_nonspace (c : ascii) (s : string) :
  is_space c = false -> rstrip (String c s) = String c (rstrip s).
Proof. intros H. simpl. rewrite H. by destruct (rstrip s). Qed.

Lemma rstrip_app_nonspace (a b : string) :
  all_chars (fun c => negb (is_space c)) a = true ->
  rstrip (a +:+ b) = a +:+ rstrip b.
Proof.
  induction a as [|x a IH]; [done|]. cbn [all_chars].
  intros [Hx Ha]%andb_true_iff. apply negb_true_iff in Hx.
  rewrite !append_cons, rstrip_cons_nonspace, IH; done.
Qed.

Lemma rstrip_nonspace (s : string) :
  all_chars (fun c => negb (is_space c)) s = true -> rstrip s = s.
Proof.
  intros H. rewrite <- (append_nil_r s) at 1.
  by rewrite rstrip_app_nonspace, append_nil_r.
Qed.

(** The stripped form of a line [name:value]. *)
Lemma strip_prop (name value : string) :
  all_chars (fun c => negb (is_space c) && negb (Ascii.eqb c ":")) name = true ->
  strip (name +:+ ":" +:+ value) = name +:+ ":" +:+ rstrip value.
Proof.
  intros H.
  assert (all_chars (fun c => negb (is_space c)) name = true) as Hs.
  { eapply all_chars_impl; [|exact H]. by intros c [-> _]%andb_true_iff. }
  unfold strip.
  assert (lstrip (name +:+ ":" +:+ value) = name +:+ ":" +:+ value) as ->.
  { destruct name as [|x name]; [done|]. rewrite append_cons.
    simpl in Hs. apply andb_true_iff in Hs as [Hx _]. apply negb_true_iff in Hx.
    by apply lstrip_nonspace. }
  rewrite rstrip_app_nonspace by done.
  change (":" +:+ value) with (String ":" value).
  by rewrite rstrip_cons_nonspace.
Qed.

(** ** Joining and splitting lines *)

Lemma join_cons (sep x y : string) (l : list string) :
  join sep (x :: y :: l) = x +:+ sep +:+ join sep (y :: l).
Proof. reflexivity. Qed.

Lemma split_fuel_join (c : ascii) (lines : list string) (n : nat) :
  Forall (fun l => lacks c l = true) lines -> lines <> [] ->
  (length lines <= S n)%nat ->
  split_fuel n (String c "") (join (String c "") lines) = lines.
Proof.
  revert n. induction lines as [|x lines IH]; intros n Hl Hne Hn; [done|].
  apply Forall_cons in Hl as [Hx Hl].
  destruct lines as [|y lines].
  - apply split_fuel_none. by apply cut_lacks.
  - rewrite join_cons. destruct n as [|n]; [simpl in Hn; lia|].
    cbn [split_fuel].
    change (String c "" +:+ join (String c "") (y :: lines))
      with (String c (join (String c "") (y :: lines))).
    rewrite cut_at by done. f_equal. apply IH; [done | done | simpl in *; lia].
Qed.

Lemma join_length (sep : string) (lines : list string) :
  (length lines <= S (String.length (join (String "010" sep) lines)))%nat.
Proof.
  induction lines as [|x lines IH]; [simpl; lia|].
  destruct lines as [|y lines]; [simpl; lia|].
  rewrite join_cons, !append_length. simpl in *. lia.
Qed.

Lemma split_join (lines : list string) :
  Forall (fun l => lacks "010" l = true) lines -> lines <> [] ->
  split LF (join LF lines) = lines.
Proof.
  intros Hl Hne. unfold split, LF. apply split_fuel_join; [done | done |].
  apply join_length.
Qed.

Lemma all_chars_join (p : ascii -> bool) (sep : string) (lines : list string) :
  all_chars p sep = true -> Forall (fun l => all_chars p l = true) lines ->
  all_chars p (join sep lines) = true.
Proof.
  intros Hs. induction lines as [|x lines IH]; intros Hl; [done|].
  apply Forall_cons in Hl as [Hx Hl].
  destruct lines as [|y lines]; [done|].
  rewrite join_cons, !all_chars_app, Hx, Hs, IH; done.
Qed.

(** A split at the first occurrence, and then of the rest. *)
Lemma cut_empty (sep : string) : sep <> "" -> cut sep "" = None.
Proof. intros H. destruct sep; [done|]. cbn [cut]. by rewrite prefix_empty. Qed.

Lemma split_fuel_enough (sep : string) (n m : nat) (s : string) :
  sep <> "" -> (String.length s <= n)%nat -> (String.length s <= m)%nat ->
  split_fuel n sep s = split_fuel m sep s.
Proof.
  intros Hsep. revert m s. induction n as [|n IH]; intros m s Hn Hm.
  - destruct s; [|simpl in Hn; lia]. destruct m; [done|].
    cbn [split_fuel]. by rewrite cut_empty.
  - destruct m as [|m].
    + destruct s; [|simpl in Hm; lia]. cbn [split_fuel]. by rewrite cut_empty.
    + cbn [split_fuel]. destruct (cut sep s) as [[a b]|] eqn:Hc; [|done].
      f_equal. apply cut_length in Hc. destruct sep; [done|].
      simpl in Hc. apply IH; lia.
Qed.

Lemma split_cut (sep s a b : string) :
  sep <> "" -> cut sep s = Some (a, b) -> split sep s = a :: split sep b.
Proof.
  intros Hsep Hc. unfold split. pose proof (cut_length _ _ _ _ Hc) as Hl.
  destruct sep as [|x sep]; [done|]. simpl in Hl.
  destruct (String.length s) as [|n] eqn:E; [lia|].
  cbn [split_fuel]. rewrite Hc. f_equal. apply split_fuel_enough; [done|lia|lia].
Qed.

Lemma split_nonempty (sep s : string) : exists x l, split sep s = x :: l.
Proof.
  unfold split. destruct (String.length s); cbn [split_fuel]; [eauto|].
  destruct (cut sep s) as [[a b]|]; eauto.
Qed.

(** The second and the first piece of a split, as [date_str.split(sep)[1]]
    and [date_str.split(sep)[0]] ask for them. *)
Lemma index_split_second (sep s a rest : string) :
  sep <> "" -> cut sep s = Some (a, rest) ->
  index (split sep s) 1 = Return (until_next sep rest).
Proof.
  intros Hsep Hc. rewrite (split_cut _ _ _ _ Hsep Hc). unfold index, until_next.
  change ((a :: split sep rest) !! 1%nat) with (split sep rest !! 0%nat).
  destruct (cut sep rest) as [[a' b']|] eqn:Hr.
  - by rewrite (split_cut _ _ _ _ Hsep Hr).
  - by rewrite split_none.
Qed.

Lemma index_split_first (sep s : string) :
  sep <> "" -> index (split sep s) 0 = Return (until_next sep s).
Proof.
  intros Hsep. unfold index, until_next.
  destruct (cut sep s) as [[a b]|] eqn:Hc.
  - by rewrite (split_cut _ _ _ _ Hsep Hc).
  - by rewrite split_none.
Qed.

(** ** Replacing *)

Lemma split_fuel_all (p : ascii -> bool) (n : nat) (sep s : string) :
  all_chars p s = true ->
  Forall (fun l => all_chars p l = true) (split_fuel n sep s).
Proof.
  revert s. induction n as [|n IH]; intros s Hs; cbn [split_fuel].
  - by apply Forall_singleton.
  - destruct (cut sep s) as [[a b]|] eqn:Hc; [|by apply Forall_singleton].
    apply cut_sound in Hc. subst s. rewrite !all_chars_app in Hs.
    apply andb_true_iff in Hs as [Ha [_ Hb]%andb_true_iff].
    apply Forall_cons. split; [done | by apply IH].
Qed.

(** Replacing keeps a property that all characters of the text and of the
    new piece have. *)
Lemma replace_all_chars (p : ascii -> bool) (old new s : string) :
  all_chars p s = true -> all_chars p new = true ->
  all_chars p (replace old new s) = true.
Proof.
  intros Hs Hn. unfold replace. apply all_chars_join; [done|].
  by apply split_fuel_all.
Qed.

Lemma cut_char_lacks (c : ascii) (s : string) :
  match cut (String c "") s with
  | Some (a, _) => lacks c a = true
  | None => lacks c s = true
  end.
Proof.
  induction s as [|x s IH]; [done|]. cbn [cut].
  rewrite prefix_cons, prefix_nil, andb_true_r.
  destruct (Ascii.eqb c x) eqn:E; [done|].
  destruct (cut (String c "") s) as [[a b]|];
    rewrite lacks_cons, Ascii.eqb_sym, E; done.
Qed.

Lemma split_fuel_lacks (c : ascii) (n : nat) (s : string) :
  (String.length s <= n)%nat ->
  Forall (fun l => lacks c l = true) (split_fuel n (String c "") s).
Proof.
  revert s. induction n as [|n IH]; intros s Hn; cbn [split_fuel].
  - destruct s; [by apply Forall_singleton | simpl in Hn; lia].
  - pose proof (cut_char_lacks c s) as Hl.
    destruct (cut (String c "") s) as [[a b]|] eqn:Hc; [|by apply Forall_singleton].
    apply Forall_cons. split; [done|]. apply IH.
    apply cut_length in Hc. simpl in Hc. lia.
Qed.

(** Replacing a character by a text without it removes the character. *)
Lemma replace_lacks (c : ascii) (new s : string) :
  lacks c new = true -> lacks c (replace (String c "") new s) = true.
Proof.
  intros Hn. unfold replace. apply all_chars_join; [done|].
  by apply split_fuel_lacks.
Qed.

(** Replacing changes nothing in a text in which the first character of
    the old piece does not occur. *)
Lemma replace_absent (c : ascii) (old new s : string) :
  lacks c s = true -> replace (String c old) new s = s.
Proof.
  intros H. unfold replace. by rewrite split_none by (by apply cut_lacks).
Qed.

Lemma read_text_one_line (s : string) : lacks "013" s = true -> read_text s = s.
Proof.
  intros H. unfold read_text, CR. rewrite append_cons, append_nil_l.
  rewrite (replace_absent "013" LF LF s H).
  by rewrite (replace_absent "013" "" LF s H).
Qed.

(** ** Priorities *)

(** What [convert_ics_priority] computes: the three upper bounds are tested
    and nothing bounds the value from below. *)
Lemma convert_ics_priority_cases (s : string) :
  convert_ics_priority s =
  match int_opt s with
  | None => "None"
  | Some n => if n <=? 3 then "High" else if n <=? 6 then "Medium"
              else if n <=? 9 then "Low" else "None"
  end.
Proof.
  unfold convert_ics_priority, int. destruct (int_opt s) as [n|]; simpl; [|done].
  by repeat case_match.
Qed.

(** In the ranges 1-3, 4-6 and 7-9, above 9 and on text that is no integer
    the conversion is the one of the specification. *)
Lemma convert_ics_priority_in_range (s : string) (n : Z) :
  int_opt s = Some n ->
  (1 <= n <= 3 -> convert_ics_priority s = "High") /\
  (4 <= n <= 6 -> convert_ics_priority s = "Medium") /\
  (7 <= n <= 9 -> convert_ics_priority s = "Low") /\
  (9 < n -> convert_ics_priority s = "None").
Proof.
  intros Hs. rewrite convert_ics_priority_cases, Hs.
  repeat split; intros H; repeat case_match; try done; lia.
Qed.

Lemma convert_ics_priority_unparseable (s : string) :
  int_opt s = None -> convert_ics_priority s = "None".
Proof. intros Hs. by rewrite convert_ics_priority_cases, Hs. Qed.

Lemma convert_ics_priority_below_one (s : string) (n : Z) :
  int_opt s = Some n -> n <= 0 -> convert_ics_priority s = "High".
Proof.
  intros Hs Hn. rewrite convert_ics_priority_cases, Hs.
  case_match; [done | lia].
Qed.

(** C1.  The ICS priority ["0"] is converted to ["High"], not to ["None"]:
    the value that the exporter writes for the priority None comes back as
    High, and so does a negative priority. *)
Theorem convert_ics_priority_zero_is_high :
  convert_ics_priority "0" = "High" /\
  convert_ics_priority (get_ics_priority "None") = "High" /\
  convert_ics_priority "-1" = "High".
Proof. repeat split; reflexivity. Qed.

(** ** Statuses *)

(** C5.  Converting a status to ICS and back gives the status again for
    Not Started, In Progress, Completed and Deferred; Waiting comes back as
    Not Started. *)
Theorem status_round_trip (s : string) :
  In s ["Not Started"; "In Progress"; "Completed"; "Deferred"] ->
  convert_ics_status (get_ics_status s) = s
  /\ convert_ics_status (get_ics_status "Waiting") = "Not Started".
Proof.
  intros Hs. split; [|reflexivity].
  simpl in Hs. destruct Hs as [<-|[<-|[<-|[<-|[]]]]]; reflexivity.
Qed.

Lemma status_round_trip_witness :
  In "Deferred" ["Not Started"; "In Progress"; "Completed"; "Deferred"]
  /\ convert_ics_status (get_ics_status "Deferred") = "Deferred".
Proof.
  split; [simpl; tauto|].
  apply (status_round_trip "Deferred"). simpl; tauto.
Defined.

(** ** ICS dates *)

Lemma substring_app (a b : string) :
  String.substring 0 (String.length a) (a +:+ b) = a.
Proof.
  induction a as [|x a IH]; [by destruct b|].
  rewrite append_cons. simpl. by rewrite IH.
Qed.

Lemma drop_app (a b : string) : drop (String.length a) (a +:+ b) = b.
Proof. induction a as [|x a IH]; [done|]. by rewrite append_cons. Qed.

Lemma digits_length (n : nat) (s : string) :
  digits n s = true -> String.length s = n /\ all_chars is_digit s = true.
Proof.
  unfold digits. intros [H1 H2]%andb_true_iff. by apply Nat.eqb_eq in H1.
Qed.

Lemma token_here_app (token time : string) :
  digits 8 token = true -> time = "" \/ (exists r, time = "T" +:+ r) ->
  token_here (token +:+ time) = true.
Proof.
  intros Hd Ht. pose proof (digits_length _ _ Hd) as [Hl _].
  pose proof (substring_app token time) as H1.
  pose proof (drop_app token time) as H2. rewrite Hl in H1, H2.
  unfold token_here. rewrite H1, H2, Hd.
  by destruct Ht as [->|[r ->]].
Qed.

Lemma shape_from_prefix (prefix rest : string) (b : bool) :
  (prefix = "" -> b = true) ->
  prefix = "" \/ (exists key, prefix = key +:+ ":") ->
  token_here rest = true ->
  shape_from b (prefix +:+ rest) = true.
Proof.
  revert b. induction prefix as [|x p IH]; intros b Hb Hp Hr.
  - rewrite append_nil_l, (Hb eq_refl). destruct rest; cbn [shape_from]; by rewrite Hr.
  - rewrite append_cons. cbn [shape_from]. rewrite IH; [by rewrite orb_true_r| |  | done].
    + intros ->. destruct Hp as [|[key Hk]]; [done|].
      destruct key as [|k key]; [by injection Hk as -> |].
      rewrite append_cons in Hk. injection Hk as _ Hk. by destruct key.
    + destruct Hp as [|[key Hk]]; [done|].
      destruct key as [|k key]; [left; by injection Hk|].
      rewrite append_cons in Hk. injection Hk as _ ->. right. eauto.
Qed.

Lemma ics_date_shape_test (s : string) :
  ics_date_shape s -> shape_from true s = true.
Proof.
  intros (prefix & token & time & -> & Hp & Hd & Ht).
  apply shape_from_prefix; [done | done | by apply token_here_app].
Qed.

(** The text [DTSTART:20241225:x] is not a prefix, a token and a time, and
    yet it is converted to a date: what follows the second colon is dropped
    with the prefix. *)
Lemma convert_ics_date_second_colon :
  ~ ics_date_shape "DTSTART:20241225:x"
  /\ convert_ics_date "DTSTART:20241225:x" = "2024-12-25"
  /\ convert_ics_date "DTSTART:20241225:x" <> "".
Proof.
  split; [|split; [reflexivity | vm_compute; discriminate]].
  intros H%ics_date_shape_test. vm_compute in H. discriminate.
Qed.

Lemma cut_lacks_any (c : ascii) (sep s : string) :
  lacks c sep = false -> lacks c s = true -> cut sep s = None.
Proof.
  intros Hsep Hs. destruct (cut sep s) as [[a b]|] eqn:Hc; [|done].
  apply cut_sound in Hc. subst s.
  rewrite !lacks_app, Hsep, andb_false_r in Hs. done.
Qed.

Lemma contains_lacks_any (c : ascii) (sep s : string) :
  lacks c sep = false -> lacks c s = true -> contains sep s = false.
Proof.
  intros Hsep Hs. destruct (contains sep s) eqn:Hc; [|done].
  apply contains_cut in Hc as [? Hc]. by rewrite (cut_lacks_any c) in Hc.
Qed.

Lemma digit_lacks (c : ascii) (s : string) :
  is_digit c = false -> all_chars is_digit s = true -> lacks c s = true.
Proof.
  intros Hc. apply all_chars_impl. intros x Hx.
  destruct (Ascii.eqb_spec x c) as [->|]; [congruence | done].
Qed.

(** The pieces of a split are pieces of the text. *)
Lemma split_fuel_sub (n : nat) (sep s x : string) :
  In x (split_fuel n sep s) -> exists pre post, s = pre +:+ x +:+ post.
Proof.
  revert s. induction n as [|n IH]; intros s; cbn [split_fuel].
  - intros [<-|[]]. exists "", "". by rewrite append_nil_l, append_nil_r.
  - destruct (cut sep s) as [[a b]|] eqn:Hc.
    + apply cut_sound in Hc. subst s. intros [<-|Hx].
      * exists "", (sep +:+ b). by rewrite append_nil_l.
      * destruct (IH _ Hx) as (pre & post & ->).
        exists (a +:+ sep +:+ pre), post. by rewrite !append_assoc.
    + intros [<-|[]]. exists "", "". by rewrite append_nil_l, append_nil_r.
Qed.

Lemma index_split_sub (sep s x : string) (i : nat) :
  index (split sep s) i = Return x -> exists pre post, s = pre +:+ x +:+ post.
Proof.
  unfold index. destruct (split sep s !! i) as [y|] eqn:E; [|done].
  intros [= ->]. apply (split_fuel_sub (String.length s) sep).
  apply list_elem_of_In. by eapply list_elem_of_lookup_2.
Qed.

(** The first step of [convert_ics_date] on a text with one colon. *)
Lemma strip_date_prefix (key tail : string) :
  lacks ":" key = true -> lacks ":" tail = true ->
  let date_str := key +:+ ":" +:+ tail in
  (if contains "VALUE=DATE:" date_str
   then index (split "VALUE=DATE:" date_str) 1
   else if contains ":" date_str
        then index (split ":" date_str) 1
        else mret date_str) = Return tail.
Proof.
  intros Hk Ht date_str. subst date_str.
  change (":" +:+ tail) with (String ":" tail).
  destruct (contains "VALUE=DATE:" _) eqn:Hv.
  - apply contains_cut in Hv as [[a b] Hc].
    pose proof (cut_sound _ _ _ _ Hc) as E.
    assert (a +:+ "VALUE=DATE:" +:+ b = (a +:+ "VALUE=DATE") +:+ String ":" b) as E'
      by (by rewrite !append_assoc).
    rewrite E' in E. symmetry in E. apply app_char_inj in E as [_ ->]; [|done..].
    rewrite (split_two _ _ a tail); [done | done | done |].
    by apply (cut_lacks_any ":").
  - rewrite contains_at.
    rewrite (split_two _ _ key tail); [done | done | by apply cut_at |].
    by apply cut_lacks.
Qed.

(** The second step on a token of digits followed by nothing or by a time. *)
Lemma strip_date_time (token rest : string) :
  all_chars is_digit token = true ->
  rest = "" \/ (exists r, rest = "T" +:+ r) ->
  let date_str := token +:+ rest in
  (if contains "T" date_str
   then index (split "T" date_str) 0
   else mret date_str) = Return token.
Proof.
  intros Hd Hr date_str. subst date_str.
  assert (lacks "T" token = true) as Ht by (by apply digit_lacks).
  destruct Hr as [->|[r ->]].
  - rewrite append_nil_r, contains_lacks; done.
  - change ("T" +:+ r) with (String "T" r).
    rewrite contains_at. unfold index.
    by rewrite (split_head _ _ token r); [| | apply cut_at].
Qed.

Lemma dashed_digits (y m d : string) :
  digits 4 y = true -> digits 2 m = true -> digits 2 d = true ->
  digits 8 (y +:+ m +:+ d) = true
  /\ dashed (y +:+ m +:+ d) = y +:+ "-" +:+ m +:+ "-" +:+ d.
Proof.
  intros [Ly Hy]%digits_length [Lm Hm]%digits_length [Ld Hd]%digits_length.
  split.
  - unfold digits. rewrite !append_length, Ly, Lm, Ld, !all_chars_app, Hy, Hm, Hd. done.
  - destruct y as [|y1 [|y2 [|y3 [|y4 [|]]]]]; try done.
    destruct m as [|m1 [|m2 [|]]]; try done.
    destruct d as [|d1 [|d2 [|]]]; done.
Qed.

Lemma digits_split (token : string) :
  digits 8 token = true ->
  exists y m d, token = y +:+ m +:+ d
    /\ digits 4 y = true /\ digits 2 m = true /\ digits 2 d = true.
Proof.
  intros [L H]%digits_length.
  destruct token as [|c1 [|c2 [|c3 [|c4 [|c5 [|c6 [|c7 [|c8 [|]]]]]]]]]; try done.
  exists (String c1 (String c2 (String c3 (String c4 "")))),
         (String c5 (String c6 "")), (String c7 (String c8 "")).
  split; [done|]. unfold digits. simpl in *.
  destruct (is_digit c1), (is_digit c2), (is_digit c3), (is_digit c4),
    (is_digit c5), (is_digit c6), (is_digit c7), (is_digit c8); done.
Qed.

Lemma convert_ics_date_token (date_str token : string) (tail : string) :
  truthy date_str = true ->
  (if contains "VALUE=DATE:" date_str
   then index (split "VALUE=DATE:" date_str) 1
   else if contains ":" date_str
        then index (split ":" date_str) 1
        else mret date_str) = Return tail ->
  (if contains "T" tail then index (split "T" tail) 0 else mret tail) = Return token ->
  digits 8 token = true ->
  convert_ics_date date_str = dashed token.
Proof.
  intros Ht H1 H2 Hd. unfold convert_ics_date, convert_ics_date_body.
  rewrite Ht, H1. cbn [negb mbind result_bind bind]. rewrite H2.
  cbn [mbind result_bind bind].
  apply digits_length in Hd as [Hl Hd].
  assert (isdigit token = true) as ->.
  { unfold isdigit. rewrite Hd. by destruct token. }
  by rewrite Hl.
Qed.

Lemma sub_refl (s : string) : exists pre post, s = pre +:+ s +:+ post.
Proof. exists "", "". by rewrite append_nil_l, append_nil_r. Qed.

Lemma sub_trans (s t u : string) :
  (exists pre post, s = pre +:+ t +:+ post) ->
  (exists pre post, t = pre +:+ u +:+ post) ->
  exists pre post, s = pre +:+ u +:+ post.
Proof.
  intros (p1 & q1 & ->) (p2 & q2 & ->).
  exists (p1 +:+ p2), (q2 +:+ q1). by rewrite !append_assoc.
Qed.

(** Whatever [convert_ics_date] returns is empty or the eight digits of a
    piece of its argument with two dashes put in. *)
Lemma convert_ics_date_result (s : string) :
  convert_ics_date s = ""
  \/ exists token, digits 8 token = true
       /\ (exists pre post, s = pre +:+ token +:+ post)
       /\ convert_ics_date s = dashed token.
Proof.
  unfold convert_ics_date, convert_ics_date_body.
  destruct (truthy s); [|by left]. cbn [negb].
  destruct (if contains "VALUE=DATE:" s then _ else _) as [tail|] eqn:H1;
    [|left; reflexivity].
  cbn [mbind result_bind bind].
  destruct (if contains "T" tail then _ else _) as [token|] eqn:H2;
    [|left; reflexivity].
  cbn [mbind result_bind bind].
  destruct ((String.length token =? 8)%nat && isdigit token) eqn:Hd;
    [|left; reflexivity].
  right. exists token. split; [|split; [|done]].
  - apply andb_true_iff in Hd as [Hl Hd]. unfold digits. rewrite Hl.
    unfold isdigit in Hd. by apply andb_true_iff in Hd as [_ ->].
  - apply (sub_trans s tail token).
    + destruct (contains "VALUE=DATE:" s); [by eapply index_split_sub|].
      destruct (contains ":" s); [by eapply index_split_sub|].
      injection H1 as <-. apply sub_refl.
    + destruct (contains "T" tail); [by eapply index_split_sub|].
      injection H2 as <-. apply sub_refl.
Qed.

(** What [convert_ics_date] gives on every text: the token cut out as the
    amended claim says, with the dashes when it is eight digits, and else
    the empty string. *)
Lemma convert_ics_date_token_of (s : string) :
  convert_ics_date s
  = if digits 8 (date_token s) then dashed (date_token s) else "".
Proof.
  unfold convert_ics_date, convert_ics_date_body.
  assert ((if contains "VALUE=DATE:" s
           then index (split "VALUE=DATE:" s) 1
           else if contains ":" s then index (split ":" s) 1 else mret s)
          = Return (date_piece s)) as ->.
  { unfold date_piece.
    pose proof (contains_cut "VALUE=DATE:" s) as H1.
    pose proof (contains_cut ":" s) as H2.
    destruct (cut "VALUE=DATE:" s) as [[a rest]|] eqn:C1.
    - rewrite (proj2 H1) by eauto. by apply (index_split_second _ _ a).
    - destruct (contains "VALUE=DATE:" s); [by destruct (proj1 H1 eq_refl)|].
      destruct (cut ":" s) as [[a rest]|] eqn:C2.
      + rewrite (proj2 H2) by eauto. by apply (index_split_second _ _ a).
      + destruct (contains ":" s); [by destruct (proj1 H2 eq_refl)|]. done. }
  cbn [mbind result_bind bind].
  assert ((if contains "T" (date_piece s)
           then index (split "T" (date_piece s)) 0 else mret (date_piece s))
          = Return (date_token s)) as ->.
  { unfold date_token. pose proof (contains_cut "T" (date_piece s)) as H.
    destruct (contains "T" (date_piece s)); [by apply index_split_first|].
    unfold until_next. destruct (cut "T" (date_piece s)) as [[a b]|]; [|done].
    assert (false = true) by (apply H; eauto). done. }
  cbn [mbind result_bind bind].
  assert ((String.length (date_token s) =? 8)%nat && isdigit (date_token s)
          = digits 8 (date_token s)) as ->.
  { unfold digits, isdigit. destruct (date_token s); [done|].
    cbn [truthy andb]. done. }
  destruct s as [|c r]; [reflexivity|]. cbn [truthy negb].
  by destruct (digits 8 (date_token (String c r))).
Qed.

(** C6, amended.  A prefix [KEY:] or [KEY;VALUE=DATE:] whose key has no
    colon and a time that starts with [T] and has no colon are stripped, and
    the eight digits between them come back as [YYYY-MM-DD].  On every
    ASCII text the function cuts out one token: the text behind the first
    [VALUE=DATE:] as far as the next one (without [VALUE=DATE:], the text
    behind the first colon as far as the next one, and without a colon the
    whole text), cut at its first [T].  It returns that token with the two
    dashes when it is exactly eight digits and the empty string in every
    other case, and never raises; so text behind a second colon is dropped
    with the prefix.  [DTSTART;VALUE=DATE:20241225] and
    [DTSTART:20241225T090000] give [2024-12-25]; the empty text and
    [garbage] give the empty string. *)
Theorem convert_ics_date_amended :
  (forall key y m d rest,
      lacks ":" key = true -> lacks ":" rest = true ->
      digits 4 y = true -> digits 2 m = true -> digits 2 d = true ->
      rest = "" \/ (exists r, rest = "T" +:+ r) ->
      convert_ics_date (key +:+ ":" +:+ y +:+ m +:+ d +:+ rest)
      = y +:+ "-" +:+ m +:+ "-" +:+ d
      /\ convert_ics_date (y +:+ m +:+ d +:+ rest) = y +:+ "-" +:+ m +:+ "-" +:+ d)
  /\ (forall s, ascii_text s = true ->
        convert_ics_date s
        = if digits 8 (date_token s) then dashed (date_token s) else "")
  /\ convert_ics_date "DTSTART;VALUE=DATE:20241225" = "2024-12-25"
  /\ convert_ics_date "DTSTART:20241225T090000" = "2024-12-25"
  /\ convert_ics_date "" = ""
  /\ convert_ics_date "garbage" = "".
Proof.
  split; [|split; [|repeat split; reflexivity]].
  - intros key y m d rest Hk Hr Hy Hm Hd Ht.
    destruct (dashed_digits y m d Hy Hm Hd) as [H8 <-].
    pose proof (digits_length _ _ H8) as [L8 D8].
    assert (lacks ":" ((y +:+ m +:+ d) +:+ rest) = true) as Htail.
    { rewrite lacks_app, Hr, (digit_lacks ":"); done. }
    rewrite <- !(append_assoc y), <- !(append_assoc (y +:+ m)).
    rewrite !(append_assoc y m d).
    split.
    + apply (convert_ics_date_token _ _ ((y +:+ m +:+ d) +:+ rest)).
      * by destruct key.
      * by apply strip_date_prefix.
      * by apply strip_date_time.
      * done.
    + apply (convert_ics_date_token _ _ ((y +:+ m +:+ d) +:+ rest)).
      * destruct (y +:+ m +:+ d); done.
      * rewrite (contains_lacks_any ":"), contains_lacks; done.
      * by apply strip_date_time.
      * done.
  - intros s _. apply convert_ics_date_token_of.
Qed.

Lemma convert_ics_date_amended_witness :
  convert_ics_date ("DUE;VALUE=DATE" +:+ ":" +:+ "2024" +:+ "03" +:+ "01" +:+ "T120000Z")
  = "2024" +:+ "-" +:+ "03" +:+ "-" +:+ "01".
Proof.
  apply (proj1 convert_ics_date_amended "DUE;VALUE=DATE" "2024" "03" "01" "T120000Z");
    try reflexivity.
  right. exists "120000Z". reflexivity.
Defined.

(** ** The recurrence rule *)



(** A dictionary that has keys but no [frequency] ends in [KeyError]. *)
Lemma generate_rrule_missing_frequency (rs : RepeatSettings) :
  frequency rs = None -> settings_empty rs = false ->
  generate_rrule (Some rs) = Raise KeyError.
Proof.
  intros Hf He. unfold generate_rrule. rewrite He, Hf. reflexivity.
Qed.

(** A frequency outside the four names gives [None]. *)
Lemma generate_rrule_unknown_frequency (rs : RepeatSettings) (f : string) :
  frequency rs = Some f -> frequency_map !! f = None ->
  generate_rrule (Some rs) = Return None.
Proof.
  intros Hf HF. unfold generate_rrule. rewrite Hf.
  destruct (_ || _); [done|]. simpl. by rewrite HF.
Qed.



(** ** The block parser *)

(** The parser looks at the stripped line only. *)
Lemma lstrip_no_space (s : string) :
  startswith " " (lstrip s) = false /\ startswith TAB (lstrip s) = false.
Proof.
  induction s as [|c s IH]; [done|]. simpl.
  destruct (is_space c) eqn:Hc; [done|].
  unfold startswith, TAB. rewrite !prefix_cons.
  split.
  - destruct (Ascii.eqb_spec " " c) as [<-|]; done.
  - destruct (Ascii.eqb_spec "009" c) as [<-|]; done.
Qed.

Lemma rstrip_head (s : string) :
  rstrip s = EmptyString \/
  exists c r, s = String c r /\ exists r', rstrip s = String c r'.
Proof.
  destruct s as [|c r]; [by left|]. simpl.
  destruct (rstrip r) eqn:Hr.
  - destruct (is_space c); [by left|]. right. eauto.
  - right. eauto.
Qed.

(** The test for a continuation line never holds: after [line.strip()] no
    line starts with a space or a tab. *)
Lemma strip_no_space (s : string) :
  startswith " " (strip s) = false /\ startswith TAB (strip s) = false.
Proof.
  unfold strip. pose proof (lstrip_no_space s) as [H1 H2].
  destruct (rstrip_head (lstrip s)) as [->|(c & r & Hs & r' & ->)]; [done|].
  rewrite Hs in H1, H2. unfold startswith, TAB in *.
  rewrite !prefix_cons, !prefix_nil, !andb_true_r in *. done.
Qed.

(** C2.  A line of a block that starts with a space or a tab is not skipped:
    the line [ SUMMARY:Changed] replaces the value of [SUMMARY] and the line
    [<TAB>X-NOTE:folded] sets the key [X-NOTE]. *)
Theorem continuation_line_sets_key :
  parse_blocks (read_text folded_file)
  = [ <["X-NOTE" := "folded"]> (<["SUMMARY" := "Changed"]> {["type" := "VTODO"]}) ].
Proof. vm_compute. reflexivity. Qed.

(** ** Import *)

(** C3.  A block whose [PERCENT-COMPLETE] is no integer makes the import
    fail: no task is made from it and [import_from_ics] returns [False]. *)
Theorem import_bad_percent_fails (now : nat -> string) (s : Store) :
  import_from_ics now bad_percent_file s = (s, false).
Proof. reflexivity. Qed.

(** A block without [PERCENT-COMPLETE] gets the progress 0. *)
Lemma task_of_item_progress_default (n : nat) (now : string) (item : gmap string string) :
  item !! "PERCENT-COMPLETE" = None ->
  exists task, task_of_item n now item = Return task /\ progress task = 0.
Proof.
  intros H. unfold task_of_item, dict_get. rewrite H. simpl. eauto.
Qed.

Lemma report_item_task (n : nat) (now : string) :
  task_of_item n now (<["SUMMARY" := "Report"]> {["type" := "VTODO"]})
  = Return (report_task (Z.of_nat n + 1) now).
Proof. reflexivity. Qed.

(** C10.  A [VTODO] block followed by a second [END:VTODO] is appended
    twice, and the import makes two tasks from it that differ in [id] (and in
    the clock reading of [created_date]) only: two new task objects come
    behind the objects of the store, and [self.tasks] gets the two
    references to them behind those it had. *)
Theorem double_end_imports_block_twice (now : nat -> string) (s : Store) :
  parse_blocks (read_text double_end_file)
  = [ <["SUMMARY" := "Report"]> {["type" := "VTODO"]};
      <["SUMMARY" := "Report"]> {["type" := "VTODO"]} ]
  /\ heap (import_from_ics now double_end_file s).1
     = (heap s
        ++ [report_task (Z.of_nat (length (tasks s)) + 1) (now 0%nat);
            report_task (Z.of_nat (length (tasks s)) + 2) (now 1%nat)])%list
  /\ tasks (import_from_ics now double_end_file s).1
     = (tasks s ++ [length (heap s); S (length (heap s))])%list
  /\ (import_from_ics now double_end_file s).2 = true.
Proof.
  assert (parse_blocks (read_text double_end_file)
          = [ <["SUMMARY" := "Report"]> {["type" := "VTODO"]};
              <["SUMMARY" := "Report"]> {["type" := "VTODO"]} ]) as Hparse
    by (vm_compute; reflexivity).
  split; [exact Hparse|].
  unfold import_from_ics. rewrite Hparse.
  cbn [convert_items]. rewrite report_item_task.
  cbn [convert_items]. rewrite report_item_task.
  unfold append_task. cbn [fst snd tasks heap]. rewrite !length_app. cbn [length].
  replace (Z.of_nat (length (tasks s) + 1) + 1)
    with (Z.of_nat (length (tasks s)) + 2) by lia.
  rewrite <- !List.app_assoc. cbn [app]. rewrite Nat.add_1_r.
  repeat split; reflexivity.
Qed.

(** ** Parsing property lines *)

Lemma is_marker_false (line : string) :
  is_marker line = false ->
  String.eqb line "BEGIN:VTODO" = false /\ String.eqb line "BEGIN:VEVENT" = false
  /\ String.eqb line "END:VTODO" || String.eqb line "END:VEVENT" = false.
Proof.
  unfold is_marker. intros H.
  destruct (String.eqb line "BEGIN:VTODO"), (String.eqb line "BEGIN:VEVENT"),
    (String.eqb line "END:VTODO"), (String.eqb line "END:VEVENT"); done.
Qed.

(** Inside a block, a property line stores its value under its key. *)
Lemma parse_prop_line (st : ParserState) (p : string * string) :
  in_item st = true -> prop_ok p = true ->
  parse_line st (render p)
  = {| items := items st; current_item := store_prop (current_item st) p;
       in_item := true; item_type := item_type st |}.
Proof.
  intros Hin [Hname Hmark]%andb_true_iff. apply negb_true_iff in Hmark.
  destruct (is_marker_false _ Hmark) as (H1 & H2 & H3).
  pose proof (strip_no_space (render p)) as [Hsp Htab].
  unfold parse_line. unfold render in *.
  rewrite strip_prop in * by done.
  rewrite H1, H2, H3, Hin, Hsp, Htab.
  change (":" +:+ rstrip p.2) with (String ":" (rstrip p.2)).
  rewrite contains_at. cbn [andb orb]. unfold split1.
  rewrite cut_at; [done|].
  eapply all_chars_impl; [|exact Hname]. by intros c [_ ->]%andb_true_iff.
Qed.

Lemma fold_prop_lines (l : list (string * string)) (st : ParserState) :
  in_item st = true -> Forall (fun p => prop_ok p = true) l ->
  fold_left parse_line (map render l) st
  = {| items := items st;
       current_item := fold_left store_prop l (current_item st);
       in_item := true; item_type := item_type st |}.
Proof.
  revert st. induction l as [|p l IH]; intros st Hin Hl.
  - destruct st. simpl in *. by subst.
  - apply Forall_cons in Hl as [Hp Hl]. cbn [map fold_left].
    rewrite (parse_prop_line st p Hin Hp). by rewrite IH.
Qed.

Lemma lookup_fold_store (key : string) (l : list (string * string))
    (m : gmap string string) :
  fold_left store_prop l m !! key
  = match last_value key l with
    | Some v => Some v
    | None => m !! key
    end.
Proof.
  revert m. induction l as [|p l IH]; intros m; [done|].
  cbn [fold_left last_value]. rewrite IH.
  destruct (last_value key l); [done|].
  unfold store_prop. destruct (String.eqb_spec (base_key p.1) key) as [->|Hne].
  - by rewrite lookup_insert_eq.
  - by rewrite lookup_insert_ne.
Qed.

Lemma last_value_app (key : string) (l1 l2 : list (string * string)) :
  last_value key (l1 ++ l2)
  = match last_value key l2 with
    | Some v => Some v
    | None => last_value key l1
    end.
Proof.
  induction l1 as [|p l1 IH]; simpl.
  - by destruct (last_value key l2).
  - rewrite IH. by destruct (last_value key l2).
Qed.

Lemma last_value_absent (key : string) (l : list (string * string)) :
  Forall (fun p => String.eqb (base_key p.1) key = false) l ->
  last_value key l = None.
Proof.
  induction l as [|p l IH]; [done|]. intros [Hp Hl]%Forall_cons.
  simpl. by rewrite IH, Hp.
Qed.

(** ** Texts of one line *)

Lemma one_line_app (a b : string) :
  one_line (a +:+ b) = one_line a && one_line b.
Proof.
  unfold one_line. rewrite !lacks_app.
  destruct (lacks "010" a), (lacks "010" b), (lacks "013" a), (lacks "013" b); done.
Qed.

Lemma one_line_cons (c : ascii) (s : string) :
  one_line (String c s) = one_line (String c "") && one_line s.
Proof. apply (one_line_app (String c "") s). Qed.

Lemma one_line_lacks (s : string) :
  one_line s = true <-> lacks "010" s = true /\ lacks "013" s = true.
Proof. unfold one_line. apply andb_true_iff. Qed.

Lemma one_line_all (p : ascii -> bool) (s : string) :
  p "010"%char = false -> p "013"%char = false ->
  all_chars p s = true -> one_line s = true.
Proof.
  intros H1 H2 Hs. apply one_line_lacks. split.
  - eapply all_chars_impl; [|exact Hs]. intros c Hc.
    destruct (Ascii.eqb_spec c "010") as [->|]; [congruence | done].
  - eapply all_chars_impl; [|exact Hs]. intros c Hc.
    destruct (Ascii.eqb_spec c "013") as [->|]; [congruence | done].
Qed.

Lemma one_line_str (n : Z) : one_line (str n) = true.
Proof. eapply one_line_all; [| |apply str_chars]; done. Qed.

Lemma one_line_zeros (n : nat) (s : string) :
  one_line s = true -> one_line (zeros n s) = true.
Proof. intros H. induction n as [|n IH]; [done|]. simpl. exact IH. Qed.

Lemma one_line_zfill (w : nat) (s : string) :
  one_line s = true -> one_line (zfill w s) = true.
Proof.
  intros H. unfold zfill. destruct s as [|c s]; [by apply one_line_zeros|].
  destruct (_ || _); [|by apply one_line_zeros].
  rewrite one_line_cons in H. apply andb_true_iff in H as [Hc Hs].
  by rewrite one_line_cons, Hc, one_line_zeros.
Qed.

Lemma one_line_replace (old new s : string) :
  one_line s = true -> one_line new = true -> one_line (replace old new s) = true.
Proof.
  intros [H1 H2]%one_line_lacks [N1 N2]%one_line_lacks. apply one_line_lacks.
  split; by apply replace_all_chars.
Qed.

Lemma one_line_stamp (d : datetime) : one_line (strftime_stamp d) = true.
Proof.
  unfold strftime_stamp, ymd_compact.
  rewrite !one_line_app, !one_line_zfill, one_line_str by apply one_line_str. done.
Qed.

Lemma one_line_until (d : datetime) : one_line (strftime_until d) = true.
Proof.
  unfold strftime_until, ymd_compact.
  rewrite !one_line_app, !one_line_zfill, one_line_str by apply one_line_str. done.
Qed.

Lemma one_line_status (s : string) : one_line (get_ics_status s) = true.
Proof.
  unfold get_ics_status, dict_get.
  destruct (status_map !! s) as [v|] eqn:E; [|done].
  apply elem_of_list_to_map_2 in E. simpl.
  repeat (apply elem_of_cons in E as [[= _ ->]|E]; [done|]).
  by apply elem_of_nil in E.
Qed.

Lemma one_line_frequency (f freq : string) :
  frequency_map !! f = Some freq -> one_line freq = true.
Proof.
  intros E. apply elem_of_list_to_map_2 in E.
  repeat (apply elem_of_cons in E as [[= _ ->]|E]; [done|]).
  by apply elem_of_nil in E.
Qed.

Lemma one_line_rrule (rs : option RepeatSettings) (rule : string) :
  generate_rrule rs = Return (Some rule) -> one_line rule = true.
Proof.
  unfold generate_rrule. destruct rs as [rs|]; [|done].
  destruct (_ || _); [done|].
  destruct (frequency rs) as [f|]; [|done]. simpl.
  destruct (frequency_map !! f) as [freq|] eqn:Hf; [|done].
  apply one_line_frequency in Hf.
  intros [= <-]. unfold join.
  destruct (_ && _).
  - simpl. by rewrite !one_line_app, Hf, one_line_str.
  - destruct (_ && _); [|simpl; by rewrite one_line_app, Hf].
    destruct (strptime_ymd _); simpl;
      by rewrite ?one_line_app, ?Hf, ?one_line_until.
Qed.

(** The escaped description is one line when the description holds no
    carriage return. *)
Lemma one_line_description (d : string) :
  lacks "013" d = true ->
  one_line (replace ";" "\;" (replace "," "\," (replace LF "\n" d))) = true.
Proof.
  intros H. apply one_line_lacks. split.
  - do 2 (apply replace_all_chars; [|done]). by apply replace_lacks.
  - do 3 (apply replace_all_chars; [|done]). done.
Qed.

(** ** The lines of a written task *)

Lemma one_line_render (name value : string) :
  one_line name = true -> one_line value = true ->
  one_line (render (name, value)) = true.
Proof. intros Hn Hv. unfold render. simpl. by rewrite !one_line_app, Hn, Hv. Qed.

#[local] Ltac forall_list :=
  repeat (apply Forall_cons; split); try (by apply Forall_nil).

(** The reminder block is made of property lines of one line each, named
    BEGIN, ACTION, DESCRIPTION, TRIGGER, RRULE and END. *)
Lemma reminder_lines_props (t : Task) :
  one_line (subject t) = true ->
  exists rem,
    reminder_lines t = map render rem
    /\ Forall (fun p => prop_ok p = true) rem
    /\ Forall (fun p => one_line (render p) = true) rem
    /\ Forall (fun p => In (base_key p.1)
                          ["BEGIN"; "ACTION"; "DESCRIPTION"; "TRIGGER"; "RRULE"; "END"])
         rem.
Proof.
  intros Hs. unfold reminder_lines.
  destruct (strptime_ymd (reminder_date t)) as [d|];
    [|exists []; repeat split; by apply Forall_nil].
  match goal with
  | |- context [match ?r with Return _ => _ | Raise _ => _ end] =>
      destruct r as [d'|]
  end; [|exists []; repeat split; by apply Forall_nil].
  set (alarm := [("BEGIN", "VALARM"); ("ACTION", "DISPLAY");
                 ("DESCRIPTION", "Reminder: " +:+ subject t);
                 ("TRIGGER;VALUE=DATE-TIME", strftime_stamp d')]).
  assert (Forall (fun p => prop_ok p = true) alarm
          /\ Forall (fun p => one_line (render p) = true) alarm
          /\ Forall (fun p => In (base_key p.1)
                       ["BEGIN"; "ACTION"; "DESCRIPTION"; "TRIGGER"; "RRULE"; "END"])
               alarm) as (A1 & A2 & A3).
  { split; [|split]; subst alarm; forall_list; try reflexivity.
    - apply one_line_render; [done | by rewrite one_line_app, Hs].
    - apply one_line_render; [done | apply one_line_stamp].
    - vm_compute; tauto.
    - vm_compute; tauto.
    - vm_compute; tauto.
    - vm_compute; tauto. }
  destruct (if negb (settings_falsy (repeat_settings t)) then _ else _)
    as [[rule|]|] eqn:Hr.
  - destruct (truthy rule).
    + exists (alarm ++ [("RRULE", rule); ("END", "VALARM")])%list.
      split; [reflexivity|].
      assert (one_line rule = true) as Hrule.
      { destruct (negb _); [by eapply one_line_rrule | done]. }
      rewrite !Forall_app. repeat split; try done; forall_list; try reflexivity.
      * by apply one_line_render.
      * vm_compute; tauto.
      * vm_compute; tauto.
    + exists (alarm ++ [("END", "VALARM")])%list.
      split; [reflexivity|].
      rewrite !Forall_app. repeat split; try done; forall_list; try reflexivity.
      vm_compute; tauto.
  - exists (alarm ++ [("END", "VALARM")])%list.
    split; [reflexivity|].
    rewrite !Forall_app. repeat split; try done; forall_list; try reflexivity.
    vm_compute; tauto.
  - exists alarm. split; [reflexivity|]. done.
Qed.

Lemma last_value_other_keys (key : string) (keys : list string)
    (l : list (string * string)) :
  Forall (fun p => In (base_key p.1) keys) l -> ~ In key keys ->
  last_value key l = None.
Proof.
  intros Hl Hk. apply last_value_absent. eapply Forall_impl; [exact Hl|].
  intros p Hp. simpl. apply String.eqb_neq. by intros <-.
Qed.

Lemma rstrip_str (n : Z) : rstrip (str n) = str n.
Proof.
  apply rstrip_nonspace. eapply all_chars_impl; [|apply (str_chars n)].
  intros c Hc. destruct (is_space c) eqn:E; [|done].
  destruct c as [[] [] [] [] [] [] [] []]; discriminate.
Qed.

(** The lines that [task_lines] writes for a task with the five given
    fields: property lines of one line each between [BEGIN:VTODO] and
    [END:VTODO], the last values of SUMMARY, PRIORITY, DUE and
    PERCENT-COMPLETE being those of the task. *)
Lemma task_lines_props (uid stamp : string) (t : Task) :
  subject t = "Pay invoice" -> default "" (project t) = "" ->
  category t = "Business" -> due_date t = "2024-03-01" -> priority t = "High" ->
  one_line uid = true -> one_line stamp = true ->
  one_line (start_date t) = true -> one_line (location t) = true ->
  lacks "013" (description t) = true ->
  exists props,
    task_lines uid stamp t = ("BEGIN:VTODO" :: map render props ++ ["END:VTODO"])%list
    /\ Forall (fun p => prop_ok p = true) props
    /\ Forall (fun p => one_line (render p) = true) props
    /\ last_value "SUMMARY" props = Some "Pay invoice"
    /\ last_value "PRIORITY" props = Some "1"
    /\ last_value "DUE" props = Some "20240301"
    /\ last_value "PERCENT-COMPLETE" props = Some (str (progress t))
    /\ last_value "type" props = None.
Proof.
  intros Hsub Hproj Hcat Hdue Hprio Huid Hstamp Hstart Hloc Hdesc.
  destruct (reminder_lines_props t) as (rem0 & Hrem & R1 & R2 & R3).
  { by rewrite Hsub. }
  set (head := [("UID", uid); ("SUMMARY", "Pay invoice"); ("PRIORITY", "1");
                ("STATUS", get_ics_status (status t));
                ("PERCENT-COMPLETE", str (progress t)); ("DTSTAMP", stamp)]).
  set (start := if truthy (start_date t)
                then [("DTSTART;VALUE=DATE", replace "-" "" (start_date t))] else []).
  set (rem := if reminder t && truthy (reminder_date t) then rem0 else []).
  set (tail := ((if truthy (location t) then [("LOCATION", location t)] else [])
                ++ (if truthy (description t)
                    then [("DESCRIPTION",
                           replace ";" "\;" (replace "," "\,"
                             (replace LF "\n" (description t))))]
                    else []))%list).
  exists (head ++ start ++ [("DUE;VALUE=DATE", "20240301")] ++ rem
          ++ [("CATEGORIES", "Business")] ++ tail)%list.
  assert (Forall (fun p => In (base_key p.1)
                    ["BEGIN"; "ACTION"; "DESCRIPTION"; "TRIGGER"; "RRULE"; "END"]) rem
          /\ Forall (fun p => prop_ok p = true) rem
          /\ Forall (fun p => one_line (render p) = true) rem) as (Q3 & Q1 & Q2).
  { subst rem. destruct (_ && _); [done|]. repeat split; by apply Forall_nil. }
  assert (Forall (fun p => In (base_key p.1) ["LOCATION"; "DESCRIPTION"]) tail
          /\ Forall (fun p => prop_ok p = true) tail
          /\ Forall (fun p => one_line (render p) = true) tail) as (T3 & T1 & T2).
  { subst tail. destruct (truthy (location t)), (truthy (description t));
      repeat split; cbn [app]; forall_list; try reflexivity;
      try (vm_compute; tauto);
      try (by apply one_line_render);
      apply one_line_render; try done; by apply one_line_description. }
  assert (Forall (fun p => In (base_key p.1) ["DTSTART"]) start
          /\ Forall (fun p => prop_ok p = true) start
          /\ Forall (fun p => one_line (render p) = true) start) as (S3 & S1 & S2).
  { subst start. destruct (truthy (start_date t));
      repeat split; forall_list; try reflexivity; try (vm_compute; tauto).
    apply one_line_render; [done|]. by apply one_line_replace. }
  split; [|split; [|split]].
  - unfold task_lines. rewrite Hsub, Hproj, Hcat, Hdue, Hprio, Hrem.
    subst head start rem tail. rewrite !map_app.
    destruct (truthy (start_date t)), (reminder t && truthy (reminder_date t)),
      (truthy (location t)), (truthy (description t));
      cbn [map app]; rewrite <- ?List.app_assoc; reflexivity.
  - rewrite !Forall_app. repeat split; try done; subst head; forall_list;
      reflexivity.
  - rewrite !Forall_app. repeat split; try done; subst head; forall_list;
      apply one_line_render; try done.
    + apply one_line_status.
    + apply one_line_str.
  - assert (forall key, ~ In key ["BEGIN"; "ACTION"; "DESCRIPTION"; "TRIGGER";
                                   "RRULE"; "END"; "LOCATION"; "DTSTART"] ->
              last_value key rem = None /\ last_value key tail = None
              /\ last_value key start = None) as Hother.
    { intros key Hk. repeat split.
      - eapply last_value_other_keys; [exact Q3|]. simpl in *. tauto.
      - eapply last_value_other_keys; [exact T3|]. simpl in *. tauto.
      - eapply last_value_other_keys; [exact S3|]. simpl in *. tauto. }
    repeat split.
    + destruct (Hother "SUMMARY") as (E1 & E2 & E3);
        [simpl; intros H; repeat destruct H as [H|H]; done|].
      rewrite !last_value_app, E1, E2, E3. reflexivity.
    + destruct (Hother "PRIORITY") as (E1 & E2 & E3);
        [simpl; intros H; repeat destruct H as [H|H]; done|].
      rewrite !last_value_app, E1, E2, E3. reflexivity.
    + destruct (Hother "DUE") as (E1 & E2 & E3);
        [simpl; intros H; repeat destruct H as [H|H]; done|].
      rewrite !last_value_app, E1, E2, E3. reflexivity.
    + destruct (Hother "PERCENT-COMPLETE") as (E1 & E2 & E3);
        [simpl; intros H; repeat destruct H as [H|H]; done|].
      rewrite !last_value_app, E1, E2, E3.
      transitivity (Some (rstrip (str (progress t)))); [reflexivity|].
      by rewrite rstrip_str.
    + destruct (Hother "type") as (E1 & E2 & E3);
        [simpl; intros H; repeat destruct H as [H|H]; done|].
      rewrite !last_value_app, E1, E2, E3. reflexivity.
Qed.

(** ** Round trip through the writer and the importer *)

Lemma parse_end_vtodo (st : ParserState) :
  parse_line st "END:VTODO"
  = {| items := if bool_decide (current_item st = ∅) then items st
                else items st ++ [current_item st];
       current_item := current_item st; in_item := false; item_type := None |}.
Proof. reflexivity. Qed.

Lemma parse_end_vcalendar (st : ParserState) :
  in_item st = false -> parse_line st "END:VCALENDAR" = st.
Proof.
  intros H. unfold parse_line.
  change (strip "END:VCALENDAR") with "END:VCALENDAR".
  change (String.eqb "END:VCALENDAR" "BEGIN:VTODO") with false.
  change (String.eqb "END:VCALENDAR" "BEGIN:VEVENT") with false.
  change (String.eqb "END:VCALENDAR" "END:VTODO") with false.
  change (String.eqb "END:VCALENDAR" "END:VEVENT") with false.
  cbn [orb]. by rewrite H.
Qed.

(** What a block with the values of the scenario is converted to. *)
Lemma task_of_item_scenario (n : nat) (now : string) (m : gmap string string) (z : Z) :
  m !! "type" = Some "VTODO" -> m !! "SUMMARY" = Some "Pay invoice" ->
  m !! "PRIORITY" = Some "1" -> m !! "DUE" = Some "20240301" ->
  m !! "PERCENT-COMPLETE" = Some (str z) -> within_digit_limit z = true ->
  exists task,
    task_of_item n now m = Return task
    /\ id task = Z.of_nat n + 1
    /\ subject task = "Pay invoice" /\ priority task = "High"
    /\ due_date task = "2024-03-01" /\ progress task = z.
Proof.
  intros Ht Hs Hp Hd Hz Hlim. unfold task_of_item, dict_get.
  rewrite Ht, Hs, Hp, Hd, Hz. cbn [default from_option]. unfold Datatypes.id.
  assert (int (str z) = Return z) as -> by (unfold int; by rewrite int_str).
  cbn [mbind result_bind bind mret result_ret].
  eexists. split; [reflexivity|]. cbn [id subject priority due_date progress].
  repeat split; reflexivity.
Qed.

(** C4.  A task with subject "Pay invoice", no project, category "Business",
    due date "2024-03-01" and priority "High" is written by
    [generate_ics_file] and read back by [import_from_ics] as one task with
    subject "Pay invoice", priority "High" and due date "2024-03-01": one
    new task object comes behind the objects of the store, [self.tasks]
    gets the reference to it behind those it had, and the import reports
    success.  The other fields of the task are arbitrary; the identifier
    and the time stamp drawn by the writer, the start date and the location
    hold no line break, the description no carriage return, and the
    progress is within the limit of digits. *)
Theorem ics_round_trip (uid stamp now : nat -> string) (t : Task) (s : Store) :
  subject t = "Pay invoice" -> default "" (project t) = "" ->
  category t = "Business" -> due_date t = "2024-03-01" -> priority t = "High" ->
  one_line (uid 0%nat) = true -> one_line (stamp 0%nat) = true ->
  one_line (start_date t) = true -> one_line (location t) = true ->
  lacks "013" (description t) = true ->
  within_digit_limit (progress t) = true ->
  exists task,
    heap (import_from_ics now (generate_ics_file uid stamp [t]) s).1
    = (heap s ++ [task])%list
    /\ tasks (import_from_ics now (generate_ics_file uid stamp [t]) s).1
       = (tasks s ++ [length (heap s)])%list
    /\ (import_from_ics now (generate_ics_file uid stamp [t]) s).2 = true
    /\ id task = Z.of_nat (length (tasks s)) + 1
    /\ subject task = "Pay invoice"
    /\ contains "Pay invoice" (subject task) = true
    /\ priority task = "High"
    /\ due_date task = "2024-03-01".
Proof.
  intros Hsub Hproj Hcat Hdue Hprio Huid Hstamp Hstart Hloc Hdesc Hlim.
  destruct (task_lines_props (uid 0%nat) (stamp 0%nat) t)
    as (props & Hlines & P1 & P2 & Vs & Vp & Vd & Vz & Vt); try done.
  set (header := ["BEGIN:VCALENDAR"; "VERSION:2.0";
                  "PRODID:-//Exchange Task Creator//Enhanced//EN"]).
  set (lines := (header ++ ("BEGIN:VTODO" :: map render props ++ ["END:VTODO"])
                 ++ ["END:VCALENDAR"])%list).
  assert (generate_ics_file uid stamp [t] = join LF lines) as Hfile.
  { unfold generate_ics_file. cbn [tasks_lines]. rewrite Hlines.
    by rewrite List.app_nil_r. }
  assert (Forall (fun l => one_line l = true) lines) as Hone.
  { subst lines header. rewrite !Forall_app. repeat split.
    - forall_list; reflexivity.
    - apply Forall_cons. split; [reflexivity|]. rewrite Forall_app. split.
      + by apply Forall_map.
      + forall_list; reflexivity.
    - forall_list; reflexivity. }
  assert (read_text (join LF lines) = join LF lines) as Hread.
  { apply read_text_one_line. apply all_chars_join; [done|].
    eapply Forall_impl; [exact Hone|]. by intros l [_ ?]%one_line_lacks. }
  assert (split LF (join LF lines) = lines) as Hsplit.
  { apply split_join; [|by subst lines].
    eapply Forall_impl; [exact Hone|]. by intros l [? _]%one_line_lacks. }
  set (m := fold_left store_prop props ({["type" := "VTODO"]} : gmap string string)).
  assert (forall key, m !! key
            = match last_value key props with
              | Some v => Some v
              | None => ({["type" := "VTODO"]} : gmap string string) !! key
              end) as Hm by (intros key; apply lookup_fold_store).
  assert (m !! "type" = Some "VTODO") as Htype by (by rewrite Hm, Vt).
  assert (parse_blocks (join LF lines) = [m]) as Hparse.
  { unfold parse_blocks. rewrite Hsplit. subst lines.
    rewrite !fold_left_app.
    change (fold_left parse_line header parser_init) with parser_init.
    cbn [fold_left].
    change (parse_line parser_init "BEGIN:VTODO")
      with {| items := []; current_item := ({["type" := "VTODO"]} : gmap string string);
              in_item := true; item_type := Some "VTODO" |}.
    rewrite fold_left_app, fold_prop_lines by done.
    cbn [fold_left items current_item item_type].
    rewrite parse_end_vtodo. cbn [items current_item].
    rewrite parse_end_vcalendar by done. cbn [items].
    fold m. rewrite bool_decide_eq_false_2; [done|].
    intros E. by rewrite E in Htype. }
  destruct (task_of_item_scenario (length (tasks s)) (now 0%nat) m (progress t))
    as (task & Htask & Ti & Ts & Tp & Td & _).
  { done. }
  { by rewrite Hm, Vs. }
  { by rewrite Hm, Vp. }
  { by rewrite Hm, Vd. }
  { by rewrite Hm, Vz. }
  { done. }
  exists task.
  unfold import_from_ics. rewrite Hfile, Hread, Hparse.
  cbn [convert_items]. rewrite Htask. unfold append_task. cbn [fst snd heap tasks].
  repeat split; try done. by rewrite Ts.
Qed.

Example generate_ics_file_example :
  generate_ics_file sample_uid sample_stamp [invoice_task_with_reminder]
  = join LF
      ["BEGIN:VCALENDAR"; "VERSION:2.0";
       "PRODID:-//Exchange Task Creator//Enhanced//EN";
       "BEGIN:VTODO";
       "UID:8c1f3a52-4c0e-4d7b-9f3e-5a1d2b6c7e90";
       "SUMMARY:Pay invoice"; "PRIORITY:1"; "STATUS:NEEDS-ACTION";
       "PERCENT-COMPLETE:25"; "DTSTAMP:20240201T090000Z";
       "DTSTART;VALUE=DATE:20240220"; "DUE;VALUE=DATE:20240301";
       "BEGIN:VALARM"; "ACTION:DISPLAY"; "DESCRIPTION:Reminder: Pay invoice";
       "TRIGGER;VALUE=DATE-TIME:20240228T093000Z";
       "RRULE:FREQ=WEEKLY;COUNT=5"; "END:VALARM";
       "CATEGORIES:Business"; "LOCATION:Office";
       "DESCRIPTION:Transfer by bank\;\nkeep the receipt";
       "END:VTODO"; "END:VCALENDAR"].
Proof. vm_compute. reflexivity. Qed.

Lemma ics_round_trip_witness :
  exists task,
    heap (import_from_ics sample_now
            (generate_ics_file sample_uid sample_stamp [invoice_task_with_reminder])
            {| heap := []; tasks := [] |}).1
    = ([] ++ [task])%list
    /\ tasks (import_from_ics sample_now
                (generate_ics_file sample_uid sample_stamp [invoice_task_with_reminder])
                {| heap := []; tasks := [] |}).1
       = ([] ++ [0%nat])%list
    /\ (import_from_ics sample_now
          (generate_ics_file sample_uid sample_stamp [invoice_task_with_reminder])
          {| heap := []; tasks := [] |}).2 = true
    /\ id task = 1
    /\ subject task = "Pay invoice"
    /\ contains "Pay invoice" (subject task) = true
    /\ priority task = "High"
    /\ due_date task = "2024-03-01".
Proof.
  apply (ics_round_trip sample_uid sample_stamp sample_now
           invoice_task_with_reminder {| heap := []; tasks := [] |});
    reflexivity.
Defined.

(** ** Creating and updating a task *)

Section FormFacts.

Variable strptime_display : string -> option datetime.

Lemma truthy_false (s : string) : truthy s = false <-> s = "".
Proof. by destruct s. Qed.

Lemma rejected_create (now today : string) (a : App) :
  rejected (form a) ->
  exists d, create_task strptime_display now today a = (show d a, Return tt).
Proof.
  intros [H|[H|H]]; unfold create_task.
  - rewrite H. simpl. eauto.
  - destruct (truthy (strip (subject_var (form a)))); simpl; [|eauto].
    rewrite H. simpl. eauto.
  - destruct (truthy (strip (subject_var (form a)))); simpl; [|eauto].
    rewrite H. simpl. eauto.
Qed.

Lemma rejected_update (today : string) (a : App) :
  rejected (form a) ->
  exists d, update_task strptime_display today a = (show d a, Return tt).
Proof.
  intros [H|[H|H]]; unfold update_task.
  - rewrite H. simpl. eauto.
  - destruct (truthy (strip (subject_var (form a)))); simpl; [|eauto].
    rewrite H. simpl. eauto.
  - destruct (truthy (strip (subject_var (form a)))); simpl; [|eauto].
    rewrite H. simpl. eauto.
Qed.

(** C8.  When the subject is empty after stripping, or the category is empty
    or the placeholder, [create_task] and [update_task] only show an error:
    the task objects and the task list, the reference to the task being
    edited, the managed lists, the form and the four files are as
    before. *)
Theorem invalid_form_changes_nothing (now today : string) (a : App) :
  strip (subject_var (form a)) = "" \/ category_var (form a) = ""
  \/ category_var (form a) = placeholder ->
  forall a', a' = (create_task strptime_display now today a).1 \/ a' = (update_task strptime_display today a).1 ->
  store a' = store a /\ editing_task a' = editing_task a /\ disk a' = disk a
  /\ categories a' = categories a /\ projects a' = projects a
  /\ locations a' = locations a /\ form a' = form a.
Proof.
  intros H a' Ha'.
  assert (rejected (form a)) as Hr.
  { destruct H as [H|[H|H]]; [by left | right; left | right; right];
      by rewrite H. }
  destruct Ha' as [-> | ->].
  - destruct (rejected_create now today a Hr) as [d ->]. done.
  - destruct (rejected_update today a Hr) as [d ->]. done.
Qed.

(** Adding a category, a project or a location touches neither the tasks
    nor what the form yields. *)
Lemma handle_new_frame (category project location : string) (a : App) :
  let a' := handle_new_location location
              (handle_new_project project (handle_new_category category a)) in
  store a' = store a /\ editing_task a' = editing_task a /\ form a' = form a
  /\ start_options a' = start_options a /\ due_options a' = due_options a.
Proof.
  unfold handle_new_location, handle_new_project, handle_new_category.
  repeat case_match; done.
Qed.

Lemma form_entries_frame (a a' : App) (category project location : string) :
  form a' = form a -> start_options a' = start_options a ->
  due_options a' = due_options a ->
  form_entries strptime_display a' category project location
  = form_entries strptime_display a category project location.
Proof.
  intros Hf Hs Hd. unfold form_entries, get_actual_start_date, get_actual_due_date.
  by rewrite Hf, Hs, Hd.
Qed.



End FormFacts.

(** ** The form on a concrete state *)

Lemma invalid_form_changes_nothing_witness :
  store (update_task no_display_date "Feb 01, 2024" editing_app).1 = store editing_app
  /\ disk (update_task no_display_date "Feb 01, 2024" editing_app).1 = disk editing_app.
Proof.
  pose proof (invalid_form_changes_nothing no_display_date "2024-02-01 09:00:00"
                "Feb 01, 2024" editing_app (or_introl eq_refl)
                (update_task no_display_date "Feb 01, 2024" editing_app).1
                (or_intror eq_refl)) as H.
  split; [apply H | apply H].
Defined.

Example update_task_example :
  (update_task no_display_date "Feb 01, 2024" filled_app).2 = Return tt
  /\ heap (store (update_task no_display_date "Feb 01, 2024" filled_app).1)
     = [ {| id := 1; subject := "Pay invoice today"; project := Some "";
            priority := "Low"; status := "In Progress"; progress := 40;
            start_date := ""; due_date := ""; due_date_type := "None";
            reminder := false; reminder_date := ""; reminder_time := "";
            repeat_settings := None; category := "Work"; owner := "";
            location := "Office"; description := "";
            created_date := "2024-02-01 09:00:00" |} ].
Proof. split; reflexivity. Qed.


(** ** Written tasks in general *)

Lemma reminder_lines_render (t : Task) :
  reminder_lines t = map render (reminder_props t).
Proof.
  unfold reminder_lines, reminder_props.
  destruct (strptime_ymd (reminder_date t)); [|done].
  match goal with
  | |- context [match ?r with Return _ => _ | Raise _ => _ end] => destruct r
  end; [|done].
  match goal with
  | |- context [match ?r with Return _ => _ | Raise _ => _ end] =>
      destruct r as [[rule|]|]
  end; [destruct (truthy rule)| |]; reflexivity.
Qed.

Lemma task_lines_render (uid stamp : string) (t : Task) :
  task_lines uid stamp t
  = ("BEGIN:VTODO" :: map render (task_props uid stamp t) ++ ["END:VTODO"])%list.
Proof.
  unfold task_lines, task_props, escape_description.
  rewrite reminder_lines_render, !map_app.
  destruct (truthy (start_date t)), (truthy (due_date t)),
    (reminder t && truthy (reminder_date t)), (truthy (category t)),
    (truthy (location t)), (truthy (description t));
    cbn [map app]; rewrite <- ?List.app_assoc; reflexivity.
Qed.

(** The names of the lines of a reminder. *)
Lemma reminder_props_names (t : Task) :
  Forall (fun p => In p.1 ["BEGIN"; "ACTION"; "DESCRIPTION";
                           "TRIGGER;VALUE=DATE-TIME"; "RRULE"; "END"]
                   /\ prop_ok p = true)
    (reminder_props t).
Proof.
  unfold reminder_props.
  destruct (strptime_ymd (reminder_date t)); [|by apply Forall_nil].
  match goal with
  | |- context [match ?r with Return _ => _ | Raise _ => _ end] => destruct r
  end; [|by apply Forall_nil].
  match goal with
  | |- context [match ?r with Return _ => _ | Raise _ => _ end] =>
      destruct r as [[rule|]|]
  end; [destruct (truthy rule)| |];
    cbn [app]; forall_list; (split; [simpl; tauto | reflexivity]).
Qed.

Lemma task_props_ok (uid stamp : string) (t : Task) :
  Forall (fun p => prop_ok p = true) (task_props uid stamp t).
Proof.
  unfold task_props. rewrite !Forall_app. repeat split.
  - forall_list; reflexivity.
  - destruct (truthy _); forall_list; reflexivity.
  - destruct (truthy _); forall_list; reflexivity.
  - destruct (_ && _); [|by apply Forall_nil].
    eapply Forall_impl; [apply reminder_props_names|]. by intros p [_ ?].
  - destruct (truthy _); forall_list; reflexivity.
  - destruct (truthy _); forall_list; reflexivity.
  - destruct (truthy _); forall_list; reflexivity.
Qed.

Lemma one_line_priority (p : string) : one_line (get_ics_priority p) = true.
Proof.
  unfold get_ics_priority, dict_get.
  destruct (priority_map !! p) as [v|] eqn:E; [|done].
  apply elem_of_list_to_map_2 in E. simpl.
  repeat (apply elem_of_cons in E as [[= _ ->]|E]; [done|]).
  by apply elem_of_nil in E.
Qed.

Lemma one_line_task_name (subject project : string) :
  one_line subject = true -> one_line project = true ->
  one_line (format_task_name_with_project subject project) = true.
Proof.
  intros Hs Hp. unfold format_task_name_with_project.
  destruct (_ && _); [|done]. by rewrite !one_line_app, Hs, Hp.
Qed.

Lemma reminder_props_one_line (t : Task) :
  one_line (subject t) = true ->
  Forall (fun p => one_line (render p) = true) (reminder_props t).
Proof.
  intros Hs. unfold reminder_props.
  destruct (strptime_ymd (reminder_date t)); [|by apply Forall_nil].
  match goal with
  | |- context [match ?r with Return _ => _ | Raise _ => _ end] => destruct r
  end; [|by apply Forall_nil].
  destruct (if negb (settings_falsy (repeat_settings t)) then _ else _)
    as [[rule|]|] eqn:Hr; [destruct (truthy rule)| |];
    cbn [app]; forall_list; apply one_line_render; try done;
    try (by rewrite one_line_app, Hs); try apply one_line_stamp.
  destruct (negb _); [by eapply one_line_rrule | done].
Qed.

Lemma task_props_one_line (uid stamp : string) (t : Task) :
  exportable uid stamp t = true ->
  Forall (fun p => one_line (render p) = true) (task_props uid stamp t).
Proof.
  unfold exportable. intros H.
  do 8 (apply andb_true_iff in H as [H ?]).
  unfold task_props. rewrite !Forall_app. repeat split.
  - forall_list; apply one_line_render; try done.
    + by apply one_line_task_name.
    + apply one_line_priority.
    + apply one_line_status.
    + apply one_line_str.
  - destruct (truthy _); forall_list. apply one_line_render; [done|].
    by apply one_line_replace.
  - destruct (truthy _); forall_list. apply one_line_render; [done|].
    by apply one_line_replace.
  - destruct (_ && _); [|by apply Forall_nil]. by apply reminder_props_one_line.
  - destruct (truthy _); forall_list. by apply one_line_render.
  - destruct (truthy _); forall_list. by apply one_line_render.
  - destruct (truthy _); forall_list. apply one_line_render; [done|].
    by apply one_line_description.
Qed.

Lemma reminder_props_other (key : string) (c : bool) (t : Task) :
  In key ["type"; "SUMMARY"; "PRIORITY"; "STATUS"; "PERCENT-COMPLETE"; "DTSTART";
          "DUE"; "DTEND"; "CATEGORIES"; "ORGANIZER"; "LOCATION"] ->
  last_value key (if c then reminder_props t else []) = None.
Proof.
  intros Hkey. destruct c; [|done]. apply last_value_absent.
  eapply Forall_impl; [apply reminder_props_names|].
  intros [name value] [Hin _]. cbn [fst] in *.
  simpl in Hin, Hkey.
  repeat (destruct Hin as [<-|Hin]);
    try (repeat (destruct Hkey as [<-|Hkey]); (reflexivity || done)).
Qed.

Lemma reminder_props_description (t : Task) :
  last_value "DESCRIPTION" (reminder_props t)
  = match reminder_props t with
    | [] => None
    | _ :: _ => Some (rstrip ("Reminder: " +:+ subject t))
    end.
Proof.
  unfold reminder_props.
  destruct (strptime_ymd (reminder_date t)); [|done].
  match goal with
  | |- context [match ?r with Return _ => _ | Raise _ => _ end] => destruct r
  end; [|done].
  match goal with
  | |- context [match ?r with Return _ => _ | Raise _ => _ end] =>
      destruct r as [[rule|]|]
  end; [destruct (truthy rule)| |]; reflexivity.
Qed.

Lemma rstrip_priority (p : string) :
  rstrip (get_ics_priority p) = get_ics_priority p.
Proof.
  unfold get_ics_priority, dict_get.
  destruct (priority_map !! p) as [v|] eqn:E; [|done].
  apply elem_of_list_to_map_2 in E. simpl.
  repeat (apply elem_of_cons in E as [[= _ ->]|E]; [done|]).
  by apply elem_of_nil in E.
Qed.

Lemma rstrip_status (s : string) :
  rstrip (get_ics_status s) = get_ics_status s.
Proof.
  unfold get_ics_status, dict_get.
  destruct (status_map !! s) as [v|] eqn:E; [|done].
  apply elem_of_list_to_map_2 in E. simpl.
  repeat (apply elem_of_cons in E as [[= _ ->]|E]; [done|]).
  by apply elem_of_nil in E.
Qed.

#[local] Ltac block_key :=
  unfold dict_get, task_block; rewrite lookup_fold_store;
  unfold task_props; rewrite !last_value_app;
  rewrite ?reminder_props_other by (simpl; tauto).

(** What the parser has stored for the keys that the importer reads. *)
Lemma task_block_lookup (uid stamp : string) (t : Task) :
  task_block uid stamp t !! "type" = Some "VTODO"
  /\ dict_get (task_block uid stamp t) "SUMMARY" "Imported Task"
     = rstrip (format_task_name_with_project (subject t) (default "" (project t)))
  /\ dict_get (task_block uid stamp t) "PRIORITY" "0" = get_ics_priority (priority t)
  /\ dict_get (task_block uid stamp t) "STATUS" "NEEDS-ACTION"
     = get_ics_status (status t)
  /\ dict_get (task_block uid stamp t) "PERCENT-COMPLETE" "0" = str (progress t)
  /\ dict_get (task_block uid stamp t) "DTSTART" ""
     = rstrip (replace "-" "" (start_date t))
  /\ dict_get (task_block uid stamp t) "DUE" "" = rstrip (replace "-" "" (due_date t))
  /\ dict_get (task_block uid stamp t) "DTEND" "" = ""
  /\ dict_get (task_block uid stamp t) "CATEGORIES" "" = rstrip (category t)
  /\ dict_get (task_block uid stamp t) "ORGANIZER" "" = ""
  /\ dict_get (task_block uid stamp t) "LOCATION" "" = rstrip (location t)
  /\ dict_get (task_block uid stamp t) "DESCRIPTION" ""
     = rstrip (description_value t).
Proof.
  repeat split.
  - block_key.
    destruct (truthy (start_date t)), (truthy (due_date t)), (truthy (category t)),
      (truthy (location t)), (truthy (description t)); reflexivity.
  - block_key.
    destruct (truthy (start_date t)), (truthy (due_date t)), (truthy (category t)),
      (truthy (location t)), (truthy (description t)); reflexivity.
  - transitivity (rstrip (get_ics_priority (priority t)));
      [|apply rstrip_priority]. block_key.
    destruct (truthy (start_date t)), (truthy (due_date t)), (truthy (category t)),
      (truthy (location t)), (truthy (description t)); reflexivity.
  - transitivity (rstrip (get_ics_status (status t)));
      [|apply rstrip_status]. block_key.
    destruct (truthy (start_date t)), (truthy (due_date t)), (truthy (category t)),
      (truthy (location t)), (truthy (description t)); reflexivity.
  - transitivity (rstrip (str (progress t))); [|apply rstrip_str]. block_key.
    destruct (truthy (start_date t)), (truthy (due_date t)), (truthy (category t)),
      (truthy (location t)), (truthy (description t)); reflexivity.
  - block_key.
    destruct (start_date t), (truthy (due_date t)), (truthy (category t)),
      (truthy (location t)), (truthy (description t)); reflexivity.
  - block_key.
    destruct (truthy (start_date t)), (due_date t), (truthy (category t)),
      (truthy (location t)), (truthy (description t)); reflexivity.
  - block_key.
    destruct (truthy (start_date t)), (truthy (due_date t)), (truthy (category t)),
      (truthy (location t)), (truthy (description t)); reflexivity.
  - block_key.
    destruct (truthy (start_date t)), (truthy (due_date t)), (category t),
      (truthy (location t)), (truthy (description t)); reflexivity.
  - block_key.
    destruct (truthy (start_date t)), (truthy (due_date t)), (truthy (category t)),
      (truthy (location t)), (truthy (description t)); reflexivity.
  - block_key.
    destruct (truthy (start_date t)), (truthy (due_date t)), (truthy (category t)),
      (location t), (truthy (description t)); reflexivity.
  - block_key. unfold description_value.
    destruct (truthy (description t)).
    + destruct (truthy (start_date t)), (truthy (due_date t)),
        (truthy (category t)), (truthy (location t)); reflexivity.
    + destruct (reminder t && truthy (reminder_date t)).
      * rewrite reminder_props_description.
        destruct (reminder_props t);
          destruct (truthy (start_date t)), (truthy (due_date t)),
            (truthy (category t)), (truthy (location t)); reflexivity.
      * destruct (truthy (start_date t)), (truthy (due_date t)),
          (truthy (category t)), (truthy (location t)); reflexivity.
Qed.

Lemma convert_ics_date_or_empty (v : string) :
  convert_ics_date (if truthy v then v else "") = convert_ics_date v.
Proof. by destruct v. Qed.

(** The importer makes of the block of a written task the task
    [reimported]. *)
Lemma task_of_item_block (n : nat) (now uid stamp : string) (t : Task) :
  within_digit_limit (progress t) = true ->
  task_of_item n now (task_block uid stamp t) = Return (reimported n now t).
Proof.
  intros Hlim.
  destruct (task_block_lookup uid stamp t)
    as (Htype & Hsum & Hprio & Hstat & Hperc & Hstart & Hdue & Hend & Hcat
        & Horg & Hloc & Hdesc).
  unfold task_of_item.
  rewrite Htype, Hsum, Hprio, Hstat, Hperc, Hstart, Hdue, Hend, Hcat, Horg, Hloc, Hdesc.
  assert (int (str (progress t)) = Return (progress t)) as ->
    by (unfold int; by rewrite int_str).
  rewrite convert_ics_date_or_empty.
  reflexivity.
Qed.

Lemma parse_begin_vtodo (st : ParserState) :
  parse_line st "BEGIN:VTODO"
  = {| items := items st; current_item := {["type" := "VTODO"]};
       in_item := true; item_type := Some "VTODO" |}.
Proof. reflexivity. Qed.

(** Outside a block, the lines of one task add its block. *)
Lemma parse_task_lines (st : ParserState) (uid stamp : string) (t : Task) :
  fold_left parse_line (task_lines uid stamp t) st
  = {| items := (items st ++ [task_block uid stamp t])%list;
       current_item := task_block uid stamp t;
       in_item := false; item_type := None |}.
Proof.
  rewrite task_lines_render. cbn [fold_left]. rewrite parse_begin_vtodo.
  rewrite fold_left_app, fold_prop_lines by (done || apply task_props_ok).
  cbn [fold_left items current_item]. rewrite parse_end_vtodo.
  cbn [items current_item]. fold (task_block uid stamp t).
  rewrite bool_decide_eq_false_2; [done|].
  intros E. pose proof (task_block_lookup uid stamp t) as [H _].
  by rewrite E in H.
Qed.

Lemma parse_tasks_lines (uid stamp : nat -> string) (l : list Task) (k : nat)
    (st : ParserState) :
  exists st',
    fold_left parse_line (tasks_lines uid stamp k l) st = st'
    /\ items st' = (items st ++ task_blocks uid stamp k l)%list
    /\ (in_item st = false -> in_item st' = false).
Proof.
  revert k st. induction l as [|t l IH]; intros k st.
  - exists st. by rewrite List.app_nil_r.
  - cbn [tasks_lines task_blocks]. rewrite fold_left_app, parse_task_lines.
    destruct (IH (S k) {| items := (items st ++ [task_block (uid k) (stamp k) t])%list;
                          current_item := task_block (uid k) (stamp k) t;
                          in_item := false; item_type := None |})
      as (st' & -> & Hi & Hin).
    exists st'. split; [done|]. split; [|by intros _; apply Hin].
    rewrite Hi. cbn [items]. by rewrite <- List.app_assoc.
Qed.

Lemma tasks_lines_one_line (uid stamp : nat -> string) (l : list Task) (k : nat) :
  all_exportable uid stamp k l = true ->
  Forall (fun line => one_line line = true) (tasks_lines uid stamp k l).
Proof.
  revert k. induction l as [|t l IH]; intros k; [by intros _; apply Forall_nil|].
  cbn [all_exportable tasks_lines]. intros [Ht Hl]%andb_true_iff.
  rewrite Forall_app. split; [|by apply IH].
  rewrite task_lines_render. apply Forall_cons. split; [reflexivity|].
  rewrite Forall_app. split.
  - apply Forall_map. by apply task_props_one_line.
  - forall_list. reflexivity.
Qed.

(** The blocks that the parser finds in a written file. *)
Lemma parse_generated (uid stamp : nat -> string) (l : list Task) :
  all_exportable uid stamp 0 l = true ->
  parse_blocks (read_text (generate_ics_file uid stamp l)) = task_blocks uid stamp 0 l.
Proof.
  intros Hl. unfold generate_ics_file.
  set (header := ["BEGIN:VCALENDAR"; "VERSION:2.0";
                  "PRODID:-//Exchange Task Creator//Enhanced//EN"]).
  set (lines := (header ++ tasks_lines uid stamp 0 l ++ ["END:VCALENDAR"])%list).
  assert (Forall (fun line => one_line line = true) lines) as Hone.
  { subst lines header. rewrite !Forall_app. repeat split.
    - forall_list; reflexivity.
    - by apply tasks_lines_one_line.
    - forall_list; reflexivity. }
  rewrite read_text_one_line.
  2:{ apply all_chars_join; [done|].
      eapply Forall_impl; [exact Hone|]. by intros ? [_ ?]%one_line_lacks. }
  unfold parse_blocks. rewrite split_join.
  2:{ eapply Forall_impl; [exact Hone|]. by intros ? [? _]%one_line_lacks. }
  2:{ by subst lines. }
  subst lines. rewrite !fold_left_app.
  change (fold_left parse_line header parser_init) with parser_init.
  destruct (parse_tasks_lines uid stamp l 0 parser_init) as (st' & -> & Hi & Hin).
  cbn [fold_left]. rewrite parse_end_vcalendar by (by apply Hin). by rewrite Hi.
Qed.

Lemma convert_task_blocks (uid stamp now : nat -> string) (l : list Task) :
  Forall (fun t => within_digit_limit (progress t) = true) l ->
  forall (k : nat) (s : Store) (imported_count : nat),
  heap (convert_items now k (task_blocks uid stamp k l) s imported_count).1
  = (heap s ++ reimported_from now (length (tasks s)) k l)%list
  /\ tasks (convert_items now k (task_blocks uid stamp k l) s imported_count).1
     = (tasks s ++ seq (length (heap s)) (length l))%list
  /\ (convert_items now k (task_blocks uid stamp k l) s imported_count).2
     = Return (imported_count + length l)%nat.
Proof.
  induction l as [|t l IH]; intros Hl k s c.
  - cbn. by rewrite !List.app_nil_r, Nat.add_0_r.
  - apply Forall_cons in Hl as [Ht Hl].
    cbn [task_blocks convert_items reimported_from length].
    rewrite task_of_item_block by done.
    destruct (IH Hl (S k) (append_task (reimported (length (tasks s)) (now k) t) s) (S c))
      as (Hh & Hts & Hr).
    rewrite Hh, Hts, Hr. unfold append_task. cbn [heap tasks].
    rewrite !List.length_app. cbn [length]. rewrite !Nat.add_1_r.
    rewrite <- !List.app_assoc. cbn [app seq].
    repeat split. f_equal. lia.
Qed.


(** ** Replacing, piece by piece *)

Lemma replace_cut (old new s a b : string) :
  old <> "" -> cut old s = Some (a, b) ->
  replace old new s = a +:+ new +:+ replace old new b.
Proof.
  intros Hold Hc. unfold replace. rewrite (split_cut _ _ _ _ Hold Hc).
  destruct (split_nonempty old b) as (x & l & ->). apply join_cons.
Qed.

Lemma replace_none (old new s : string) :
  cut old s = None -> replace old new s = s.
Proof. intros Hc. unfold replace. by rewrite split_none. Qed.

(** A character at which the old piece does not begin is kept. *)
Lemma replace_skip (old new : string) (c : ascii) (s : string) :
  old <> "" -> String.prefix old (String c s) = false ->
  replace old new (String c s) = String c (replace old new s).
Proof.
  intros Hold Hp. destruct (cut old s) as [[a b]|] eqn:Hc.
  - rewrite (replace_cut old new (String c s) (String c a) b),
      (replace_cut old new s a b); try done.
    cbn [cut]. by rewrite Hp, Hc.
  - rewrite !replace_none; try done. cbn [cut]. by rewrite Hp, Hc.
Qed.

Lemma prefix_app (a b : string) : String.prefix a (a +:+ b) = true.
Proof.
  induction a as [|x a IH]; [apply prefix_nil|].
  by rewrite append_cons, prefix_cons, Ascii.eqb_refl.
Qed.

(** The old piece at the head of the text gives the new piece. *)
Lemma replace_here (old new s : string) :
  old <> "" -> replace old new (old +:+ s) = new +:+ replace old new s.
Proof.
  intros Hold. rewrite (replace_cut old new (old +:+ s) "" s); [done|done|].
  pose proof (prefix_app old s) as Hp. pose proof (drop_app old s) as Hd.
  destruct (old +:+ s); cbn [cut]; by rewrite Hp, Hd.
Qed.

(** ** Escaping a description *)

#[local] Ltac skip_char :=
  rewrite replace_skip by (done || (rewrite !prefix_cons; done)).

#[local] Ltac skip_at old :=
  rewrite (replace_skip old) by (done || (rewrite !prefix_cons; done)).

Lemma escape_cons (c : ascii) (s : string) :
  escape_description (String c s) = escape_char c +:+ escape_description s.
Proof.
  unfold escape_description, escape_char, LF.
  destruct (Ascii.eqb c "010") eqn:E1.
  { apply Ascii.eqb_eq in E1 as ->.
    change (String "010" s) with (String "010" "" +:+ s).
    rewrite replace_here by done.
    rewrite !append_cons, append_nil_l. by do 4 skip_char. }
  rewrite (replace_skip (String "010" "") "\n" c s)
    by (done || (rewrite prefix_cons, Ascii.eqb_sym, E1; done)).
  destruct (Ascii.eqb c ",") eqn:E2.
  { apply Ascii.eqb_eq in E2 as ->.
    change (String "," ?x) with ("," +:+ x).
    rewrite replace_here by done.
    rewrite !append_cons, append_nil_l. by do 2 skip_char. }
  rewrite (replace_skip "," "\," c)
    by (done || (rewrite prefix_cons, Ascii.eqb_sym, E2; done)).
  destruct (Ascii.eqb c ";") eqn:E3.
  { apply Ascii.eqb_eq in E3 as ->.
    change (String ";" ?x) with (";" +:+ x).
    by rewrite replace_here by done. }
  rewrite (replace_skip ";" "\;" c)
    by (done || (rewrite prefix_cons, Ascii.eqb_sym, E3; done)).
  by rewrite append_cons, append_nil_l.
Qed.

Lemma escape_nil : escape_description "" = "".
Proof. reflexivity. Qed.

(** Unescaping undoes escaping where the text holds no backslash. *)
Lemma unescape_escape (d : string) :
  lacks "\" d = true -> unescape_description (escape_description d) = d.
Proof.
  induction d as [|c s IH]; [done|].
  rewrite lacks_cons. intros [Hc Hs]%andb_true_iff. specialize (IH Hs).
  apply negb_true_iff in Hc.
  rewrite escape_cons. set (e := escape_description s) in *.
  unfold unescape_description, escape_char, LF in *.
  destruct (Ascii.eqb c "010") eqn:E1.
  { apply Ascii.eqb_eq in E1 as ->.
    rewrite replace_here by done. rewrite append_cons, append_nil_l.
    do 2 skip_char. by rewrite IH. }
  destruct (Ascii.eqb c ",") eqn:E2.
  { apply Ascii.eqb_eq in E2 as ->.
    rewrite !append_cons, append_nil_l. do 2 skip_at "\n".
    change (String "\" (String "," ?x)) with ("\," +:+ x).
    rewrite replace_here by done. rewrite append_cons, append_nil_l.
    skip_char. by rewrite IH. }
  destruct (Ascii.eqb c ";") eqn:E3.
  { apply Ascii.eqb_eq in E3 as ->.
    rewrite !append_cons, append_nil_l.
    do 2 skip_at "\n". do 2 skip_at "\,".
    change (String "\" (String ";" ?x)) with ("\;" +:+ x).
    rewrite replace_here by done. rewrite append_cons, append_nil_l.
    by rewrite IH. }
  rewrite append_cons, append_nil_l.
  do 3 (rewrite replace_skip
          by (done || (rewrite prefix_cons, Ascii.eqb_sym, Hc; done))).
  by rewrite IH.
Qed.

Lemma rstrip_app_keep (a b : string) :
  rstrip b <> "" -> rstrip (a +:+ b) = a +:+ rstrip b.
Proof.
  intros Hb. induction a as [|x a IH]; [by rewrite !append_nil_l|].
  rewrite !append_cons. cbn [rstrip]. rewrite IH.
  destruct (a +:+ rstrip b) eqn:E; [|done].
  destruct a; [by rewrite append_nil_l in E | by rewrite append_cons in E].
Qed.

Lemma escape_char_rstrip (c : ascii) :
  is_space c = false -> rstrip (escape_char c) = escape_char c.
Proof.
  intros Hc. unfold escape_char.
  destruct (Ascii.eqb c "010") eqn:E1.
  { apply Ascii.eqb_eq in E1 as ->. done. }
  destruct (Ascii.eqb c ","); [done|]. destruct (Ascii.eqb c ";"); [done|].
  cbn [rstrip]. by rewrite Hc.
Qed.

Lemma escape_char_nonempty (c : ascii) (s : string) : escape_char c +:+ s <> "".
Proof.
  unfold escape_char.
  destruct (Ascii.eqb c "010"); [done|].
  destruct (Ascii.eqb c ","); [done|]. by destruct (Ascii.eqb c ";").
Qed.

(** A description without white space at its end has none after escaping. *)
Lemma rstrip_escape (d : string) :
  rstrip d = d -> rstrip (escape_description d) = escape_description d.
Proof.
  induction d as [|c s IH]; [done|]. intros H. rewrite escape_cons.
  cbn [rstrip] in H. destruct (rstrip s) as [|x r] eqn:E.
  - destruct (is_space c) eqn:Hc; [done|]. injection H as <-.
    rewrite escape_nil, append_nil_r. by apply escape_char_rstrip.
  - injection H as H. subst s. specialize (IH eq_refl).
    rewrite rstrip_app_keep; [by rewrite IH|].
    rewrite IH, escape_cons. apply escape_char_nonempty.
Qed.

(** ** What survives writing and reading *)

Lemma import_generated_one (uid stamp now : nat -> string) (t : Task) (s : Store) :
  exportable (uid 0%nat) (stamp 0%nat) t = true ->
  within_digit_limit (progress t) = true ->
  heap (import_from_ics now (generate_ics_file uid stamp [t]) s).1
  = (heap s ++ [reimported (length (tasks s)) (now 0%nat) t])%list
  /\ tasks (import_from_ics now (generate_ics_file uid stamp [t]) s).1
     = (tasks s ++ [length (heap s)])%list
  /\ (import_from_ics now (generate_ics_file uid stamp [t]) s).2 = true.
Proof.
  intros H Hlim. unfold import_from_ics.
  rewrite parse_generated by (cbn [all_exportable]; by rewrite H).
  destruct (convert_task_blocks uid stamp now [t]) with (k := 0%nat) (s := s)
    (imported_count := 0%nat) as (Hh & Hts & Hr).
  { by apply Forall_singleton. }
  destruct (convert_items now 0 (task_blocks uid stamp 0 [t]) s 0) as [s' r].
  cbn [fst snd] in *. subst r. by rewrite Hh, Hts.
Qed.

(** A date in the form that the importer gives is written without its
    dashes and read back as it was. *)
Lemma date_write_read (token : string) :
  digits 8 token = true ->
  convert_ics_date (rstrip (replace "-" "" (dashed token))) = dashed token.
Proof.
  intros H8. destruct (digits_split token H8) as (y & m & d & -> & Hy & Hm & Hd).
  destruct (dashed_digits y m d Hy Hm Hd) as [_ ->].
  apply digits_length in Hy as [Ly Hy], Hm as [Lm Hm], Hd as [Ld Hd].
  assert (replace "-" "" (y +:+ "-" +:+ m +:+ "-" +:+ d) = y +:+ m +:+ d) as ->.
  { unfold replace, split.
    change (y +:+ "-" +:+ m +:+ "-" +:+ d) with (join "-" [y; m; d]).
    rewrite split_fuel_join.
    - rewrite !join_cons. cbn [join String.concat]. by rewrite !append_nil_l.
    - forall_list; by apply digit_lacks.
    - done.
    - rewrite !join_cons, !append_length. simpl. lia. }
  assert (all_chars is_digit (y +:+ m +:+ d) = true) as Hall
    by (by rewrite !all_chars_app, Hy, Hm, Hd).
  rewrite rstrip_nonspace.
  2:{ eapply all_chars_impl; [|exact Hall].
      intros c Hc. destruct (is_space c) eqn:E; [|done].
      destruct c as [[] [] [] [] [] [] [] []]; discriminate. }
  destruct (dashed_digits y m d) as [H8' <-].
  1-3: unfold digits; by rewrite ?Ly, ?Lm, ?Ld, ?Hy, ?Hm, ?Hd.
  apply (convert_ics_date_token _ _ (y +:+ m +:+ d)); [| | |done].
  - destruct y; [done|done].
  - rewrite (contains_lacks "V") by (by apply digit_lacks).
    by rewrite (contains_lacks ":") by (by apply digit_lacks).
  - by rewrite (contains_lacks "T") by (by apply digit_lacks).
Qed.

Lemma date_or_none_write_read (d : string) :
  d = "" \/ (exists token, digits 8 token = true /\ d = dashed token) ->
  convert_ics_date (rstrip (replace "-" "" d)) = d.
Proof. intros [->|(token & H8 & ->)]; [done | by apply date_write_read]. Qed.

(** X2.  A plain task survives writing and reading.  The task can be
    written as modelled (the identifier and time stamp drawn and its
    subject, project, dates, category and location hold no line break, its
    description no carriage return, these texts are ASCII, the progress is
    within the limit of digits) and is plain: no project (or the project
    "None"), a priority among High, Medium and Low, a status among Not
    Started, In Progress, Completed and Deferred, dates absent or as
    YYYY-MM-DD, no white space at the end of subject, category and
    location.  Then the import puts one new task object behind the objects
    of the store and the reference to it behind those of [self.tasks], and
    reports success; the object has the next free id and the subject,
    priority, status, progress, dates, category and location of the written
    task. *)
Theorem plain_task_round_trip (uid stamp now : nat -> string) (t : Task) (s : Store) :
  exportable (uid 0%nat) (stamp 0%nat) t = true ->
  ascii_task t = true -> within_digit_limit (progress t) = true ->
  default "" (project t) = "" \/ default "" (project t) = "None" ->
  rstrip (subject t) = subject t ->
  In (priority t) ["High"; "Medium"; "Low"] ->
  In (status t) ["Not Started"; "In Progress"; "Completed"; "Deferred"] ->
  start_date t = "" \/ (exists token, digits 8 token = true /\ start_date t = dashed token) ->
  due_date t = "" \/ (exists token, digits 8 token = true /\ due_date t = dashed token) ->
  rstrip (category t) = category t -> rstrip (location t) = location t ->
  exists task,
    heap (import_from_ics now (generate_ics_file uid stamp [t]) s).1
    = (heap s ++ [task])%list
    /\ tasks (import_from_ics now (generate_ics_file uid stamp [t]) s).1
       = (tasks s ++ [length (heap s)])%list
    /\ (import_from_ics now (generate_ics_file uid stamp [t]) s).2 = true
    /\ id task = Z.of_nat (length (tasks s)) + 1
    /\ subject task = subject t /\ priority task = priority t
    /\ status task = status t /\ progress task = progress t
    /\ start_date task = start_date t /\ due_date task = due_date t
    /\ category task = category t /\ location task = location t.
Proof.
  intros Hex _ Hlim Hproj Hsub Hprio Hstat Hstart Hdue Hcat Hloc.
  destruct (import_generated_one uid stamp now t s Hex Hlim) as (Hh & Hts & Hr).
  eexists. split; [exact Hh|]. split; [exact Hts|]. split; [exact Hr|].
  cbn [reimported id subject priority status progress start_date due_date
       category location].
  repeat split; try done.
  - assert (format_task_name_with_project (subject t) (default "" (project t))
            = subject t) as ->; [|done].
    unfold format_task_name_with_project. by destruct Hproj as [->| ->].
  - simpl in Hprio. destruct Hprio as [<-|[<-|[<-|[]]]]; reflexivity.
  - simpl in Hstat. destruct Hstat as [<-|[<-|[<-|[<-|[]]]]]; reflexivity.
  - by apply date_or_none_write_read.
  - by apply date_or_none_write_read.
Qed.

Lemma plain_task_round_trip_witness :
  exists task,
    heap (import_from_ics sample_now
            (generate_ics_file sample_uid sample_stamp [invoice_task])
            {| heap := []; tasks := [] |}).1
    = ([] ++ [task])%list
    /\ tasks (import_from_ics sample_now
                (generate_ics_file sample_uid sample_stamp [invoice_task])
                {| heap := []; tasks := [] |}).1
       = ([] ++ [0%nat])%list
    /\ (import_from_ics sample_now
          (generate_ics_file sample_uid sample_stamp [invoice_task])
          {| heap := []; tasks := [] |}).2 = true
    /\ id task = 1
    /\ subject task = "Pay invoice" /\ priority task = "High"
    /\ status task = "Not Started" /\ progress task = 0
    /\ start_date task = "" /\ due_date task = "2024-03-01"
    /\ category task = "Business" /\ location task = "".
Proof.
  apply (plain_task_round_trip sample_uid sample_stamp sample_now invoice_task
           {| heap := []; tasks := [] |}); try reflexivity.
  - left. reflexivity.
  - simpl. tauto.
  - simpl. tauto.
  - left. reflexivity.
  - right. exists "20240301". split; reflexivity.
Defined.

(** X3.  What writing and reading loses.  For a task that can be written
    as modelled (no line break in the identifier and time stamp drawn and
    in its subject, project, dates, category and location, no carriage
    return in its description, these texts ASCII, the progress within the
    limit of digits), the import puts one new task object behind the
    objects of the store and the reference to it behind those of
    [self.tasks]; that object has no project, owner, reminder or repetition
    and the due date type Custom, whatever the written task had; a project
    that was set is left in front of the subject, in brackets. *)
Theorem export_import_loses (uid stamp now : nat -> string) (t : Task) (s : Store) :
  exportable (uid 0%nat) (stamp 0%nat) t = true ->
  ascii_task t = true -> within_digit_limit (progress t) = true ->
  exists task,
    heap (import_from_ics now (generate_ics_file uid stamp [t]) s).1
    = (heap s ++ [task])%list
    /\ tasks (import_from_ics now (generate_ics_file uid stamp [t]) s).1
       = (tasks s ++ [length (heap s)])%list
    /\ (import_from_ics now (generate_ics_file uid stamp [t]) s).2 = true
    /\ project task = None /\ owner task = ""
    /\ reminder task = false /\ reminder_date task = "" /\ reminder_time task = ""
    /\ repeat_settings task = None /\ due_date_type task = "Custom"
    /\ (forall p, project t = Some p -> p <> "" -> p <> "None" ->
        subject task = rstrip ("[" +:+ p +:+ "] " +:+ subject t)).
Proof.
  intros Hex _ Hlim.
  destruct (import_generated_one uid stamp now t s Hex Hlim) as (Hh & Hts & Hr).
  eexists. split; [exact Hh|]. split; [exact Hts|]. split; [exact Hr|].
  cbn [reimported project owner reminder reminder_date reminder_time
       repeat_settings due_date_type subject].
  repeat split. intros p -> Hp Hn. cbn [default]. unfold Datatypes.id.
  unfold format_task_name_with_project.
  destruct p as [|c p]; [done|]. cbn [truthy andb].
  by rewrite (proj2 (String.eqb_neq _ _) Hn).
Qed.

Lemma export_import_loses_witness :
  exists task,
    heap (import_from_ics sample_now
            (generate_ics_file sample_uid sample_stamp [invoice_task_with_reminder])
            {| heap := []; tasks := [] |}).1
    = ([] ++ [task])%list
    /\ tasks (import_from_ics sample_now
                (generate_ics_file sample_uid sample_stamp [invoice_task_with_reminder])
                {| heap := []; tasks := [] |}).1
       = ([] ++ [0%nat])%list
    /\ (import_from_ics sample_now
          (generate_ics_file sample_uid sample_stamp [invoice_task_with_reminder])
          {| heap := []; tasks := [] |}).2 = true
    /\ project task = None /\ owner task = ""
    /\ reminder task = false /\ reminder_date task = "" /\ reminder_time task = ""
    /\ repeat_settings task = None /\ due_date_type task = "Custom"
    /\ (forall p, project invoice_task_with_reminder = Some p -> p <> "" ->
        p <> "None" ->
        subject task = rstrip ("[" +:+ p +:+ "] " +:+ subject invoice_task_with_reminder)).
Proof.
  apply (export_import_loses sample_uid sample_stamp sample_now
           invoice_task_with_reminder {| heap := []; tasks := [] |});
    reflexivity.
Defined.

(** X4.  Every priority other than Medium and Low, None among them, is read
    back as High: the writer puts 0 for None and for a priority it does not
    know, and the importer takes everything up to 3 for High. *)
Theorem priority_write_read (p : string) :
  convert_ics_priority (get_ics_priority p)
  = if String.eqb p "Medium" then "Medium"
    else if String.eqb p "Low" then "Low" else "High".
Proof.
  unfold get_ics_priority, dict_get.
  destruct (priority_map !! p) as [v|] eqn:E.
  - apply elem_of_list_to_map_2 in E.
    repeat (apply elem_of_cons in E as [[= -> ->]|E]; [reflexivity|]).
    by apply elem_of_nil in E.
  - destruct (String.eqb_spec p "Medium") as [->|_]; [discriminate|].
    destruct (String.eqb_spec p "Low") as [->|_]; [discriminate|].
    reflexivity.
Qed.

(** X5.  The description survives writing and reading.  For a task that
    can be written as modelled (no line break in the identifier and time
    stamp drawn and in its subject, project, dates, category and location,
    no carriage return in its description, these texts ASCII, the progress
    within the limit of digits) and whose description is not empty, holds
    no backslash and does not end in white space, the import puts one new
    task object behind the objects of the store and the reference to it
    behind those of [self.tasks], and the object has the description of the
    written task. *)
Theorem description_round_trip (uid stamp now : nat -> string) (t : Task) (s : Store) :
  exportable (uid 0%nat) (stamp 0%nat) t = true ->
  ascii_task t = true -> within_digit_limit (progress t) = true ->
  description t <> "" -> lacks "\" (description t) = true ->
  rstrip (description t) = description t ->
  exists task,
    heap (import_from_ics now (generate_ics_file uid stamp [t]) s).1
    = (heap s ++ [task])%list
    /\ tasks (import_from_ics now (generate_ics_file uid stamp [t]) s).1
       = (tasks s ++ [length (heap s)])%list
    /\ (import_from_ics now (generate_ics_file uid stamp [t]) s).2 = true
    /\ description task = description t.
Proof.
  intros Hex _ Hlim Hne Hb Hrs.
  destruct (import_generated_one uid stamp now t s Hex Hlim) as (Hh & Hts & Hr).
  eexists. split; [exact Hh|]. split; [exact Hts|]. split; [exact Hr|].
  cbn [reimported description]. unfold description_value.
  destruct (description t) as [|c d] eqn:E; [done|]. cbn [truthy].
  by rewrite rstrip_escape, unescape_escape.
Qed.

Lemma description_round_trip_witness :
  exists task,
    heap (import_from_ics sample_now
            (generate_ics_file sample_uid sample_stamp [invoice_task_with_reminder])
            {| heap := []; tasks := [] |}).1
    = ([] ++ [task])%list
    /\ tasks (import_from_ics sample_now
                (generate_ics_file sample_uid sample_stamp [invoice_task_with_reminder])
                {| heap := []; tasks := [] |}).1
       = ([] ++ [0%nat])%list
    /\ (import_from_ics sample_now
          (generate_ics_file sample_uid sample_stamp [invoice_task_with_reminder])
          {| heap := []; tasks := [] |}).2 = true
    /\ description task = "Transfer by bank;" +:+ LF +:+ "keep the receipt".
Proof.
  apply (description_round_trip sample_uid sample_stamp sample_now
           invoice_task_with_reminder {| heap := []; tasks := [] |});
    [reflexivity | reflexivity | reflexivity | discriminate | reflexivity | reflexivity].
Defined.

Lemma reminder_props_written (t : Task) (dt : datetime) (h m : string)
    (rest : list string) (hv mv : Z) :
  strptime_ymd (reminder_date t) = Some dt ->
  split ":" (reminder_time t) = h :: m :: rest ->
  int h = Return hv -> int m = Return mv ->
  0 <= hv <= 23 -> 0 <= mv <= 59 ->
  reminder_props t <> [].
Proof.
  intros Hd Hs Hh Hm Hhv Hmv. unfold reminder_props. rewrite Hd, Hs.
  destruct (truthy (reminder_time t)).
  - unfold index. cbn [lookup list_lookup of_option mbind result_bind bind].
    rewrite Hh, Hm. cbn [mbind result_bind bind]. unfold replace_time.
    assert ((0 <=? hv) && (hv <=? 23) && (0 <=? mv) && (mv <=? 59) = true) as ->.
    { rewrite !andb_true_iff, !Z.leb_le. lia. }
    by destruct (if negb (settings_falsy (repeat_settings t))
                 then generate_rrule (repeat_settings t) else Return None).
  - by destruct (if negb (settings_falsy (repeat_settings t))
                 then generate_rrule (repeat_settings t) else Return None).
Qed.

(** Text without a backslash is left as it is by the unescaping. *)
Lemma unescape_plain (d : string) :
  lacks "\" d = true -> unescape_description d = d.
Proof.
  intros H. unfold unescape_description.
  by rewrite (replace_absent "\" "n" LF d H), (replace_absent "\" "," "," d H),
    (replace_absent "\" ";" ";" d H).
Qed.

(** X6.  The alarm text becomes the description.  For a task that can be
    written as modelled (no line break in the identifier and time stamp
    drawn and in its subject, project, dates, category and location, these
    texts ASCII, the progress within the limit of digits), whose
    description is empty, whose subject is not empty, holds no backslash
    and does not end in white space, and whose reminder is written
    (reminder set, a reminder date that parses, a reminder time whose hour
    and minute [int] reads within range), the import puts one new task
    object behind the objects of the store and the reference to it behind
    those of [self.tasks], and the object has the description
    "Reminder: " followed by the subject. *)
Theorem reminder_becomes_description (uid stamp now : nat -> string) (t : Task)
    (s : Store) (dt : datetime) (h m : string) (rest : list string) (hv mv : Z) :
  exportable (uid 0%nat) (stamp 0%nat) t = true ->
  ascii_task t = true -> within_digit_limit (progress t) = true ->
  description t = "" ->
  subject t <> "" -> lacks "\" (subject t) = true -> rstrip (subject t) = subject t ->
  reminder t = true ->
  strptime_ymd (reminder_date t) = Some dt ->
  split ":" (reminder_time t) = h :: m :: rest ->
  int h = Return hv -> int m = Return mv ->
  0 <= hv <= 23 -> 0 <= mv <= 59 ->
  exists task,
    heap (import_from_ics now (generate_ics_file uid stamp [t]) s).1
    = (heap s ++ [task])%list
    /\ tasks (import_from_ics now (generate_ics_file uid stamp [t]) s).1
       = (tasks s ++ [length (heap s)])%list
    /\ (import_from_ics now (generate_ics_file uid stamp [t]) s).2 = true
    /\ description task = "Reminder: " +:+ subject t.
Proof.
  intros Hex _ Hlim Hdesc Hne Hback Hrs Hrem Hd Hs Hh Hm Hhv Hmv.
  destruct (import_generated_one uid stamp now t s Hex Hlim) as (Hh' & Hts & Hr).
  eexists. split; [exact Hh'|]. split; [exact Hts|]. split; [exact Hr|].
  cbn [reimported description]. unfold description_value.
  rewrite Hdesc, Hrem. cbn [truthy andb].
  destruct (reminder_date t) as [|c r] eqn:E; [done|]. cbn [truthy].
  pose proof (reminder_props_written t dt h m rest hv mv) as Hprops.
  rewrite E in Hprops. specialize (Hprops Hd Hs Hh Hm Hhv Hmv).
  destruct (reminder_props t); [done|].
  rewrite rstrip_app_keep by (rewrite Hrs; exact Hne).
  rewrite Hrs. apply unescape_plain. by rewrite lacks_app, Hback.
Qed.

(** ** Import in general *)

Lemma task_of_item_cases (n : nat) (now : string) (item : gmap string string) :
  match int_opt (dict_get item "PERCENT-COMPLETE" "0") with
  | Some p =>
      exists t, task_of_item n now item = Return t
        /\ id t = Z.of_nat n + 1 /\ created_date t = now /\ progress t = p
        /\ project t = None /\ reminder t = false /\ repeat_settings t = None
        /\ due_date_type t = "Custom"
  | None => task_of_item n now item = Raise ValueError
  end.
Proof.
  unfold task_of_item, int.
  destruct (int_opt (dict_get item "PERCENT-COMPLETE" "0")) as [p|]; [|done].
  cbn [of_option mbind result_bind bind mret result_ret].
  eexists. split; [reflexivity|]. done.
Qed.

(** The loop over the blocks: the tasks made are put behind those of the
    store, numbered on from its length, until a block whose
    PERCENT-COMPLETE is no integer ends the loop. *)
Lemma convert_items_spec (now : nat -> string) (l : list (gmap string string)) :
  forall (k : nat) (s : Store) (c : nat),
  exists new,
    heap (convert_items now k l s c).1 = (heap s ++ new)%list
    /\ tasks (convert_items now k l s c).1
       = (tasks s ++ seq (length (heap s)) (length new))%list
    /\ ((convert_items now k l s c).2 = Return (c + length l)%nat
        /\ length new = length l
        /\ Forall (fun item => int_opt (dict_get item "PERCENT-COMPLETE" "0") <> None) l
        \/ (convert_items now k l s c).2 = Raise ValueError
           /\ (length new < length l)%nat
           /\ ~ Forall (fun item => int_opt (dict_get item "PERCENT-COMPLETE" "0") <> None) l)
    /\ forall i t, new !! i = Some t ->
         id t = Z.of_nat (length (tasks s) + i) + 1 /\ created_date t = now (k + i)%nat
         /\ project t = None /\ reminder t = false /\ repeat_settings t = None
         /\ due_date_type t = "Custom".
Proof.
  induction l as [|item l IH]; intros k s c.
  - exists []. cbn. rewrite !List.app_nil_r, Nat.add_0_r.
    repeat split; [by left|done..].
  - cbn [convert_items].
    pose proof (task_of_item_cases (length (tasks s)) (now k) item) as Hc.
    destruct (int_opt (dict_get item "PERCENT-COMPLETE" "0")) as [p|] eqn:Ep.
    + destruct Hc as (t & -> & Hid & Hcr & _ & Hrest).
      destruct (IH (S k) (append_task t s) (S c)) as (new & Hh & Ht & Hr & Hf).
      exists (t :: new). unfold append_task in *.
      cbn [heap tasks] in Hh, Ht, Hf.
      rewrite List.length_app in Ht. setoid_rewrite List.length_app in Hf.
      cbn [length] in *.
      split; [by rewrite Hh, <- List.app_assoc|].
      split. { rewrite Ht, <- List.app_assoc; cbn [seq app].
              by rewrite Nat.add_1_r. }
      split.
      * destruct Hr as [(-> & Hl & Hall)|(-> & Hl & Hall)].
        -- left. repeat split; [f_equal; lia | lia |].
           apply Forall_cons. split; [by rewrite Ep | done].
        -- right. repeat split; [lia|]. intros H. apply Hall.
           by apply Forall_cons in H as [_ H].
      * intros [|i] t' Hi.
        -- injection Hi as <-. rewrite !Nat.add_0_r. by rewrite Hid, Hcr.
        -- destruct (Hf i t' Hi) as (Hid' & Hcr' & Hrest').
           rewrite Hid', Hcr'. repeat split; try apply Hrest'.
           ++ do 2 f_equal. lia.
           ++ f_equal. lia.
    + rewrite Hc. exists []. cbn [fst snd length seq]. rewrite !List.app_nil_r.
      split; [done|]. split; [done|]. split; [|done].
      right. split; [done|]. split; [lia|]. intros H.
      apply Forall_cons in H as [H _]. by apply H.
Qed.

(** X7.  Whatever the file holds, importing only appends: the tasks the
    store had stay where they were, the new ones are numbered on from the
    number of tasks, stamped with the clock and without project, reminder
    or repetition; the import reports success exactly when it made a task
    of every block and there was one. *)
Theorem import_appends (now : nat -> string) (file : string) (s : Store) :
  exists new,
    heap (import_from_ics now file s).1 = (heap s ++ new)%list
    /\ tasks (import_from_ics now file s).1
       = (tasks s ++ seq (length (heap s)) (length new))%list
    /\ (length new <= length (parse_blocks (read_text file)))%nat
    /\ ((import_from_ics now file s).2 = true
        <-> new <> [] /\ length new = length (parse_blocks (read_text file)))
    /\ forall i t, new !! i = Some t ->
         id t = Z.of_nat (length (tasks s) + i) + 1 /\ created_date t = now i
         /\ project t = None /\ reminder t = false /\ repeat_settings t = None
         /\ due_date_type t = "Custom".
Proof.
  unfold import_from_ics.
  destruct (convert_items_spec now (parse_blocks (read_text file)) 0 s 0)
    as (new & Hh & Ht & Hr & Hf).
  destruct (convert_items now 0 (parse_blocks (read_text file)) s 0) as [s' r].
  cbn [fst snd] in *. exists new. repeat split; try done.
  - destruct Hr as [(_ & Hl & _)|(_ & Hl & _)]; lia.
  - destruct Hr as [(-> & Hl & _)|(-> & Hl & _)]; [|done].
    cbn [try_except mbind result_bind bind mret result_ret Nat.add] in H.
    apply Nat.ltb_lt in H. destruct new; [simpl in *; lia | done].
  - destruct Hr as [(-> & Hl & _)|(-> & Hl & _)]; [done|].
    cbn in H. discriminate.
  - intros [Hne Hl]. destruct Hr as [(-> & _ & _)|(_ & Hl' & _)]; [|lia].
    cbn [try_except mbind result_bind bind mret result_ret Nat.add].
    apply Nat.ltb_lt. rewrite <- Hl. destruct new; [done | simpl; lia].
  - by destruct (Hf i t H) as (? & _).
  - by destruct (Hf i t H) as (_ & ? & _).
  - by destruct (Hf i t H) as (_ & _ & ? & _).
  - by destruct (Hf i t H) as (_ & _ & _ & ? & _).
  - by destruct (Hf i t H) as (_ & _ & _ & _ & ? & _).
  - by destruct (Hf i t H) as (_ & _ & _ & _ & _ & ?).
Qed.

(** X8.  On an ASCII file the import reports success exactly when the file
    holds a block and the PERCENT-COMPLETE of every block, 0 where it is
    absent, is an integer for [int]: a number in decimal digits, with the
    sign, the underscores and the white space around it that [int] allows,
    of no more than 4300 digits. *)
Theorem import_succeeds_iff (now : nat -> string) (file : string) (s : Store) :
  ascii_text file = true ->
  ((import_from_ics now file s).2 = true
   <-> parse_blocks (read_text file) <> []
       /\ Forall (fun item => int_opt (dict_get item "PERCENT-COMPLETE" "0") <> None)
            (parse_blocks (read_text file))).
Proof.
  intros _. unfold import_from_ics.
  destruct (convert_items_spec now (parse_blocks (read_text file)) 0 s 0)
    as (new & _ & _ & Hr & _).
  destruct (convert_items now 0 (parse_blocks (read_text file)) s 0) as [s' r].
  cbn [fst snd] in *.
  destruct Hr as [(-> & Hl & Hall)|(-> & Hl & Hall)];
    cbn [try_except mbind result_bind bind mret result_ret Nat.add].
  - rewrite Nat.ltb_lt. split.
    + intros H. split; [|done]. intros E. rewrite E in H. simpl in H. lia.
    + intros [H _]. destruct (parse_blocks (read_text file)); [done | simpl; lia].
  - split; [done | by intros [_ H]].
Qed.

Lemma import_succeeds_iff_witness :
  (import_from_ics sample_now bad_percent_file {| heap := []; tasks := [] |}).2 = true
  <-> parse_blocks (read_text bad_percent_file) <> []
      /\ Forall (fun item => int_opt (dict_get item "PERCENT-COMPLETE" "0") <> None)
           (parse_blocks (read_text bad_percent_file)).
Proof.
  apply (import_succeeds_iff sample_now bad_percent_file {| heap := []; tasks := [] |}).
  reflexivity.
Defined.

Lemma parse_no_begin (lines : list string) (st : ParserState) :
  Forall (fun line => strip line <> "BEGIN:VTODO" /\ strip line <> "BEGIN:VEVENT") lines ->
  in_item st = false -> current_item st = ∅ ->
  items (fold_left parse_line lines st) = items st.
Proof.
  revert st. induction lines as [|line lines IH]; intros st Hl Hin Hcur; [done|].
  apply Forall_cons in Hl as [[H1 H2] Hl]. cbn [fold_left].
  assert (parse_line st line = st
          \/ parse_line st line
             = {| items := items st; current_item := current_item st;
                  in_item := false; item_type := None |}) as Hst.
  { unfold parse_line.
    rewrite (proj2 (String.eqb_neq _ _) H1), (proj2 (String.eqb_neq _ _) H2).
    rewrite Hin, Hcur. cbn [andb].
    destruct (String.eqb (strip line) "END:VTODO" || String.eqb (strip line) "END:VEVENT");
      [right | left]; [|done].
    by rewrite bool_decide_eq_true_2. }
  destruct Hst as [-> | ->]; [by apply IH|].
  by rewrite IH.
Qed.

(** X9.  An ASCII file in which no line is BEGIN:VTODO or BEGIN:VEVENT,
    white space around it apart, gives no task: the store is left as it was
    and the import reports failure. *)
Theorem import_without_blocks (now : nat -> string) (file : string) (s : Store) :
  ascii_text file = true ->
  Forall (fun line => strip line <> "BEGIN:VTODO" /\ strip line <> "BEGIN:VEVENT")
    (split LF (read_text file)) ->
  import_from_ics now file s = (s, false).
Proof.
  intros _ H. unfold import_from_ics, parse_blocks.
  by rewrite (parse_no_begin _ parser_init H).
Qed.

Lemma import_without_blocks_witness :
  import_from_ics sample_now ("VERSION:2.0" +:+ LF +:+ "SUMMARY:Report" +:+ LF +:+ "END:VTODO")
    {| heap := [invoice_task]; tasks := [0%nat] |}
  = ({| heap := [invoice_task]; tasks := [0%nat] |}, false).
Proof.
  apply (import_without_blocks sample_now
           ("VERSION:2.0" +:+ LF +:+ "SUMMARY:Report" +:+ LF +:+ "END:VTODO")
           {| heap := [invoice_task]; tasks := [0%nat] |}); [reflexivity|].
  change (Forall (fun line => strip line <> "BEGIN:VTODO" /\ strip line <> "BEGIN:VEVENT")
            ["VERSION:2.0"; "SUMMARY:Report"; "END:VTODO"]).
  repeat (apply List.Forall_cons; [split; vm_compute; discriminate|]).
  apply List.Forall_nil.
Defined.

(** ** Import from a text file *)

Lemma rstrip_idem (s : string) : rstrip (rstrip s) = rstrip s.
Proof.
  induction s as [|c s IH]; [done|]. cbn [rstrip].
  destruct (rstrip s) as [|x r] eqn:E.
  - destruct (is_space c) eqn:Hc; [done|]. cbn [rstrip]. by rewrite Hc.
  - cbn [rstrip] in *. rewrite IH. by destruct (rstrip r).
Qed.

Lemma strip_idem (s : string) : strip (strip s) = strip s.
Proof.
  unfold strip.
  assert (lstrip (rstrip (lstrip s)) = rstrip (lstrip s)) as ->; [|apply rstrip_idem].
  destruct (rstrip_head (lstrip s)) as [->|(c & r & E & r' & ->)]; [done|].
  assert (is_space c = false) as Hc.
  { clear r'. induction s as [|x s IH]; [done|]. cbn [lstrip] in E.
    destruct (is_space x) eqn:Hx; [by apply IH|]. by injection E as <- _. }
  cbn [lstrip]. by rewrite Hc.
Qed.

Lemma import_text_lines_spec (now : nat -> string) (lines : list string) :
  forall (k : nat) (s : Store),
  exists new,
    heap (import_text_lines now k lines s) = (heap s ++ new)%list
    /\ tasks (import_text_lines now k lines s)
       = (tasks s ++ seq (length (heap s)) (length new))%list
    /\ map subject new = filter (fun l => truthy l && negb (startswith "#" l) = true)
                           (map strip lines)
    /\ length new = length (filter (fun l => text_line_kept l = true) lines)
    /\ forall i t, new !! i = Some t ->
         id t = Z.of_nat (length (tasks s) + i) + 1 /\ created_date t = now (k + i)%nat
         /\ priority t = "None" /\ status t = "Not Started" /\ progress t = 0
         /\ category t = "" /\ due_date t = "".
Proof.
  induction lines as [|line lines IH]; intros k s.
  - exists []. cbn. by rewrite !List.app_nil_r.
  - cbn [import_text_lines map].
    assert (text_line_kept line
            = truthy (strip line) && negb (startswith "#" (strip line))) as Hk by done.
    destruct (text_line_kept line) eqn:E; symmetry in Hk; rewrite Hk.
    + rewrite (filter_cons_True _ (strip line)) by done.
      rewrite (filter_cons_True _ line) by done.
      destruct (IH (S k) (append_task (text_task (length (tasks s)) (now k) (strip line)) s))
        as (new & Hh & Ht & Hs & Hl & Hf).
      exists (text_task (length (tasks s)) (now k) (strip line) :: new).
      unfold append_task in *. cbn [heap tasks] in Hh, Ht, Hf.
      rewrite List.length_app in Ht. setoid_rewrite List.length_app in Hf.
      cbn [length] in *.
      split; [by rewrite Hh, <- List.app_assoc|].
      split. { rewrite Ht, <- List.app_assoc. cbn [seq app]. by rewrite Nat.add_1_r. }
      split; [cbn [map subject text_task]; by rewrite Hs|].
      split; [cbn [length]; by rewrite Hl|].
      intros [|i] t Hi.
      * injection Hi as <-. by rewrite !Nat.add_0_r.
      * destruct (Hf i t Hi) as (Hid & Hcr & Hrest).
        rewrite Hid, Hcr. repeat split; try apply Hrest.
        -- do 2 f_equal. lia.
        -- f_equal. lia.
    + rewrite (filter_cons_False _ (strip line)) by (by rewrite Hk).
      rewrite (filter_cons_False _ line) by (by rewrite E).
      apply IH.
Qed.

(** X10.  On an ASCII file the text import makes one task of every line
    that, stripped, is neither empty nor a comment: the stripped line is
    the subject, the tasks come behind those of the store in the order of
    the lines and are numbered on from their number; the import reports
    success exactly when it made a task. *)
Theorem import_from_text_tasks (now : nat -> string) (file : string) (s : Store) :
  ascii_text file = true ->
  exists new,
    heap (import_from_text now file s).1 = (heap s ++ new)%list
    /\ tasks (import_from_text now file s).1
       = (tasks s ++ seq (length (heap s)) (length new))%list
    /\ map subject new
       = filter (fun l => truthy l && negb (startswith "#" l) = true)
           (map strip (readlines (read_text file)))
    /\ ((import_from_text now file s).2 = true <-> new <> [])
    /\ forall i t, new !! i = Some t ->
         id t = Z.of_nat (length (tasks s) + i) + 1 /\ created_date t = now i
         /\ subject t <> "" /\ strip (subject t) = subject t
         /\ startswith "#" (subject t) = false
         /\ priority t = "None" /\ status t = "Not Started".
Proof.
  intros _. unfold import_from_text. cbn [fst snd].
  destruct (import_text_lines_spec now (readlines (read_text file)) 0 s)
    as (new & Hh & Ht & Hs & Hl & Hf).
  exists new. split; [done|]. split; [done|]. split; [done|]. split.
  - rewrite <- Hl, Nat.ltb_lt. destruct new; simpl; [split; [lia|done]|].
    split; [done|lia].
  - intros i t Hi. destruct (Hf i t Hi) as (Hid & Hcr & Hp & Hst & _).
    split; [done|]. split; [done|].
    assert (In (subject t) (map subject new)) as Hin.
    { apply in_map. apply list_elem_of_In. by eapply list_elem_of_lookup_2. }
    rewrite Hs in Hin. apply list_elem_of_In, list_elem_of_filter in Hin as [Hk Hm].
    apply list_elem_of_In, in_map_iff in Hm as (line & Hline & _).
    apply andb_true_iff in Hk as [Hk1 Hk2]. apply negb_true_iff in Hk2.
    split; [by destruct (subject t)|]. split; [|done].
    rewrite <- Hline. apply strip_idem.
Qed.

Lemma import_from_text_tasks_witness :
  exists new,
    heap (import_from_text sample_now
            ("Buy milk" +:+ LF +:+ "# later" +:+ LF +:+ "  Call Ann  ")
            {| heap := []; tasks := [] |}).1
    = ([] ++ new)%list
    /\ tasks (import_from_text sample_now
                ("Buy milk" +:+ LF +:+ "# later" +:+ LF +:+ "  Call Ann  ")
                {| heap := []; tasks := [] |}).1
       = ([] ++ seq 0 (length new))%list
    /\ map subject new
       = filter (fun l => truthy l && negb (startswith "#" l) = true)
           (map strip (readlines (read_text
              ("Buy milk" +:+ LF +:+ "# later" +:+ LF +:+ "  Call Ann  "))))
    /\ ((import_from_text sample_now
           ("Buy milk" +:+ LF +:+ "# later" +:+ LF +:+ "  Call Ann  ")
           {| heap := []; tasks := [] |}).2 = true <-> new <> [])
    /\ forall i t, new !! i = Some t ->
         id t = Z.of_nat (0 + i) + 1 /\ created_date t = sample_now i
         /\ subject t <> "" /\ strip (subject t) = subject t
         /\ startswith "#" (subject t) = false
         /\ priority t = "None" /\ status t = "Not Started".
Proof.
  apply (import_from_text_tasks sample_now
           ("Buy milk" +:+ LF +:+ "# later" +:+ LF +:+ "  Call Ann  ")
           {| heap := []; tasks := [] |}).
  reflexivity.
Defined.

(** The lines that [readlines] gives make up the text. *)
Lemma readlines_concat (s : string) : String.concat "" (readlines s) = s.
Proof.
  induction s as [|c s IH]; [done|]. cbn [readlines].
  destruct (Ascii.eqb c "010") eqn:E.
  - apply Ascii.eqb_eq in E as ->. destruct (readlines s) as [|l ls] eqn:El.
    + cbn in *. by rewrite <- IH.
    + cbn [String.concat] in *. rewrite <- IH.
      destruct ls; unfold LF; by rewrite ?append_cons, ?append_nil_l.
  - destruct (readlines s) as [|l ls] eqn:El.
    + cbn in *. by rewrite <- IH.
    + rewrite <- IH. cbn [String.concat]. destruct ls; [done|].
      by rewrite append_cons.
Qed.

(** ** Managed lists *)

Lemma member_In (x : string) (l : list string) : member x l = true <-> In x l.
Proof.
  unfold member. rewrite existsb_exists. split.
  - intros (y & Hy & E). by apply String.eqb_eq in E as ->.
  - intros H. exists x. split; [done | apply String.eqb_refl].
Qed.

Lemma sort_insert_In (x y : string) (l : list string) :
  In y (sort_insert x l) <-> y = x \/ In y l.
Proof.
  induction l as [|z l IH]; cbn [sort_insert].
  - simpl. split; [intros [->|[]]; by left | intros [->|[]]; by left].
  - destruct (String.leb x z).
    + simpl. split; [intros [->|H]; [by left|by right]|intros [->|H]; [by left|by right]].
    + simpl. rewrite IH. split.
      * intros [->|[->|H]]; [right; by left | by left | right; by right].
      * intros [->|[->|H]]; [right; by left | by left | right; by right].
Qed.

Lemma sort_In (y : string) (l : list string) : In y (sort l) <-> In y l.
Proof.
  induction l as [|x l IH]; [done|]. cbn [sort foldr]. fold (sort l).
  rewrite sort_insert_In, IH. simpl. split; intros [H|H]; auto.
Qed.

Lemma sort_insert_length (x : string) (l : list string) :
  length (sort_insert x l) = S (length l).
Proof.
  induction l as [|z l IH]; [done|]. cbn [sort_insert].
  destruct (String.leb x z); [done|]. simpl. by rewrite IH.
Qed.

Lemma sort_length (l : list string) : length (sort l) = length l.
Proof.
  induction l as [|x l IH]; [done|]. cbn [sort foldr]. fold (sort l).
  by rewrite sort_insert_length, IH.
Qed.

Lemma is_sorted_cons (x : string) (l : list string) :
  is_sorted (x :: l) = true
  <-> is_sorted l = true /\ match l with y :: _ => String.leb x y = true | [] => True end.
Proof.
  destruct l as [|y l]; [done|]. cbn [is_sorted]. rewrite andb_true_iff. tauto.
Qed.

Lemma sort_insert_sorted (x : string) (l : list string) :
  is_sorted l = true -> is_sorted (sort_insert x l) = true.
Proof.
  induction l as [|z l IH]; [done|]. intros Hl. cbn [sort_insert].
  destruct (String.leb x z) eqn:E.
  - apply is_sorted_cons. by split.
  - apply is_sorted_cons in Hl as [Hl Hz]. apply is_sorted_cons.
    split; [by apply IH|].
    destruct l as [|w l]; cbn [sort_insert].
    + destruct (String.leb_total x z) as [H|H]; [congruence | done].
    + destruct (String.leb x w); [|done].
      destruct (String.leb_total x z) as [H|H]; [congruence | done].
Qed.

Lemma sort_sorted (l : list string) : is_sorted (sort l) = true.
Proof.
  induction l as [|x l IH]; [done|]. cbn [sort foldr]. fold (sort l).
  by apply sort_insert_sorted.
Qed.

(** A list in order is left as it is. *)
Lemma sort_insert_least (x : string) (l : list string) :
  is_sorted (x :: l) = true -> sort_insert x l = x :: l.
Proof.
  destruct l as [|y l]; [done|]. cbn [is_sorted sort_insert].
  by intros [-> _]%andb_true_iff.
Qed.

Lemma sort_of_sorted (l : list string) : is_sorted l = true -> sort l = l.
Proof.
  induction l as [|x l IH]; [done|]. intros Hl. cbn [sort foldr]. fold (sort l).
  pose proof Hl as [Hl' _]%is_sorted_cons. rewrite IH by done.
  by apply sort_insert_least.
Qed.

(** X11.  A category that is entered is in the list afterwards: a new one
    is put in and the list is sorted and saved, one that the list has
    changes nothing. *)
Theorem new_category_listed (category : string) (a : App) :
  category <> "" ->
  member category (categories (handle_new_category category a)) = true
  /\ (forall x, In x (categories (handle_new_category category a))
                <-> x = category \/ In x (categories a))
  /\ (member category (categories a) = false ->
      is_sorted (categories (handle_new_category category a)) = true
      /\ length (categories (handle_new_category category a))
         = S (length (categories a))
      /\ categories_json (disk (handle_new_category category a))
         = Some (categories (handle_new_category category a)))
  /\ (member category (categories a) = true -> handle_new_category category a = a).
Proof.
  intros Hne. unfold handle_new_category.
  destruct category as [|c r]; [done|]. cbn [truthy andb].
  destruct (member (String c r) (categories a)) eqn:E; cbn [negb].
  - split; [done|]. split; [|done]. intros x. split; [by right|].
    intros [->|H]; [by apply member_In | done].
  - cbn [save_categories set_categories set_disk categories disk categories_json].
    assert (forall x, In x (sort (categories a ++ [String c r]))
                      <-> x = String c r \/ In x (categories a)) as Hin.
    { intros x. rewrite sort_In, in_app_iff. simpl.
      split; [intros [H|[<-|[]]]; auto | intros [->|H]; auto]. }
    split; [apply member_In, Hin; by left|]. split; [done|].
    split; [|done]. intros _. split; [apply sort_sorted|]. split; [|done].
    rewrite sort_length, List.length_app. simpl. lia.
Qed.

Lemma new_category_listed_witness :
  member "Home" (categories (handle_new_category "Home" editing_app)) = true
  /\ (forall x, In x (categories (handle_new_category "Home" editing_app))
                <-> x = "Home" \/ In x (categories editing_app))
  /\ (member "Home" (categories editing_app) = false ->
      is_sorted (categories (handle_new_category "Home" editing_app)) = true
      /\ length (categories (handle_new_category "Home" editing_app))
         = S (length (categories editing_app))
      /\ categories_json (disk (handle_new_category "Home" editing_app))
         = Some (categories (handle_new_category "Home" editing_app)))
  /\ (member "Home" (categories editing_app) = true ->
      handle_new_category "Home" editing_app = editing_app).
Proof. apply (new_category_listed "Home" editing_app). discriminate. Defined.

Lemma remove_dups_twice (l : list string) : NoDup l -> remove_dups (l ++ l) = l.
Proof.
  intros Hl.
  assert (forall k, (forall x, x ∈ k -> x ∈ l) -> remove_dups (k ++ l) = l) as H.
  { induction k as [|x k IH]; intros Hk.
    - simpl. clear -Hl. induction Hl as [|x l Hx Hl IH]; [done|].
      cbn [remove_dups]. case_decide; [contradiction|]. by rewrite IH.
    - cbn [app remove_dups]. case_decide as Hx.
      + apply IH. intros y Hy. apply Hk. by right.
      + exfalso. apply Hx. apply elem_of_app. right. apply Hk. by left. }
  by apply H.
Qed.

Lemma sort_NoDup (l : list string) : NoDup l -> NoDup (sort l).
Proof.
  induction l as [|x l IH]; [done|]. intros [Hx Hl]%NoDup_cons.
  cbn [sort foldr]. fold (sort l). specialize (IH Hl).
  assert (x ∉ sort l) as Hx'.
  { intros H. apply Hx. by apply list_elem_of_In, sort_In, list_elem_of_In. }
  clear Hx Hl. induction (sort l) as [|y k IHk]; cbn [sort_insert].
  - apply NoDup_singleton.
  - destruct (String.leb x y); [by apply NoDup_cons|].
    apply NoDup_cons in IH as [Hy Hk]. apply NoDup_cons. split.
    + intros H. apply list_elem_of_In, sort_insert_In in H as [->|H].
      * apply Hx'. by left.
      * by apply Hy, list_elem_of_In.
    + apply IHk; [done|]. intros H. apply Hx'. by right.
Qed.

(** X12.  Loading the categories gives a sorted list without duplicates of
    the names the list had and the names of the file. *)
Theorem load_categories_merges (a : App) (loaded : list string) :
  categories_json (disk a) = Some loaded ->
  is_sorted (categories (load_categories a)) = true
  /\ NoDup (categories (load_categories a))
  /\ (forall x, In x (categories (load_categories a))
                <-> In x (categories a) \/ In x loaded).
Proof.
  intros Hd. unfold load_categories. rewrite Hd.
  cbn [set_categories categories].
  split; [apply sort_sorted|]. split.
  - apply sort_NoDup, NoDup_remove_dups.
  - intros x. rewrite sort_In, <- list_elem_of_In, elem_of_remove_dups, list_elem_of_In.
    apply in_app_iff.
Qed.

Lemma load_categories_merges_witness :
  is_sorted (categories (load_categories (save_categories editing_app))) = true
  /\ NoDup (categories (load_categories (save_categories editing_app)))
  /\ (forall x, In x (categories (load_categories (save_categories editing_app)))
                <-> In x (categories (save_categories editing_app))
                    \/ In x ["Business"; "Work"]).
Proof.
  apply (load_categories_merges (save_categories editing_app) ["Business"; "Work"]).
  reflexivity.
Defined.

(** X13.  A list of categories in order and without duplicates that is
    saved and loaded again is the list it was. *)
Theorem save_load_categories (a : App) :
  is_sorted (categories a) = true -> NoDup (categories a) ->
  categories (load_categories (save_categories a)) = categories a.
Proof.
  intros Hsorted Hnd. unfold load_categories.
  cbn [save_categories set_disk disk categories_json categories set_categories].
  by rewrite remove_dups_twice, sort_of_sorted.
Qed.

Lemma save_load_categories_witness :
  categories (load_categories (save_categories editing_app)) = categories editing_app.
Proof.
  apply (save_load_categories editing_app); [reflexivity|].
  apply (bool_decide_unpack (NoDup (categories editing_app))). vm_compute. exact I.
Defined.

(** ** The form and the recurrence rule *)

Lemma join_head (sep x : string) (l : list string) :
  exists rest, join sep (x :: l) = x +:+ rest.
Proof.
  destruct l as [|y l]; [exists ""; by rewrite append_nil_r|].
  rewrite join_cons. eauto.
Qed.

Lemma generate_rrule_returns (rs : RepeatSettings) (f : string) :
  frequency rs = Some f -> f <> "None" ->
  exists rule,
    generate_rrule (Some rs) = Return rule
    /\ forall r, rule = Some r ->
         is_Some (frequency_map !! f) /\ String.prefix "FREQ=" r = true.
Proof.
  intros Hf Hn. unfold generate_rrule, settings_empty. rewrite Hf.
  rewrite bool_decide_eq_false_2 by congruence.
  cbn [orb of_option mbind result_bind bind].
  destruct (frequency_map !! f) as [freq|]; [|by exists None].
  eexists. split; [reflexivity|]. intros r [= <-]. split; [done|].
  match goal with
  | |- String.prefix _ (join ";" ?parts) = true =>
      assert (exists l, parts = ("FREQ=" +:+ freq) :: l) as (l & ->)
  end.
  { repeat case_match; eauto. }
  destruct (join_head ";" ("FREQ=" +:+ freq) l) as (rest & ->).
  rewrite append_assoc. apply prefix_app.
Qed.

Section FormMore.

Variable strptime_display : string -> option datetime.

(** X14.  The repeat settings that the form gives never make
    [generate_rrule] fail, and give a rule only for a reminder that is
    switched on and a frequency among the four names; the rule begins with
    FREQ=. *)
Theorem form_repeat_rule (f : Form) (rs : option RepeatSettings) :
  get_repeat_settings strptime_display f = Return rs ->
  exists rule,
    generate_rrule rs = Return rule
    /\ forall r, rule = Some r ->
         reminder_var f = true
         /\ is_Some (frequency_map !! repeat_frequency_var f)
         /\ String.prefix "FREQ=" r = true.
Proof.
  unfold get_repeat_settings.
  destruct (negb (reminder_var f) || String.eqb (repeat_frequency_var f) "None") eqn:E.
  { intros [= <-]. exists None. split; [done|]. by intros r [=]. }
  apply orb_false_iff in E as [Hr Hn]. apply negb_false_iff in Hr.
  apply String.eqb_neq in Hn.
  intros H.
  assert (exists s, rs = Some s /\ frequency s = Some (repeat_frequency_var f))
    as (s & -> & Hf).
  { destruct (String.eqb (repeat_end_var f) "After X occurrences").
    - destruct (int (repeat_count_var f)) as [n|e];
        cbn [mbind result_bind bind mret result_ret] in H; [|discriminate].
      injection H as <-. eauto.
    - destruct (String.eqb (repeat_end_var f) "Until date");
        cbn [mbind result_bind bind mret result_ret] in H;
        injection H as <-; eauto. }
  destruct (generate_rrule_returns s _ Hf Hn) as (rule & Hg & Hrule).
  exists rule. split; [done|]. intros r Hr'. split; [done|]. by apply Hrule.
Qed.
(** [create_task] on an accepted form: what it does after the three lists
    have been looked after. *)
Lemma create_task_accepted (now today : string) (a : App) :
  ~ rejected (form a) ->
  let category := strip (category_var (form a)) in
  let project := strip (project_var (form a)) in
  let location := strip (location_var (form a)) in
  let a1 := handle_new_location location
              (handle_new_project project (handle_new_category category a)) in
  create_task strptime_display now today a
  = match form_entries strptime_display a category project location with
    | Raise e => (a1, Raise e)
    | Return entries =>
        let task := new_task (Z.of_nat (length (tasks (store a))) + 1) entries now in
        let a2 := auto_save_tasks (set_store (append_task task (store a)) a1) in
        let a3 := if negb (task_list_visible a2) then toggle_task_list a2 else a2 in
        (clear_form today
           (show (showinfo "Success"
                    ("Task '" +:+ subject task +:+ "' created and saved successfully!")) a3),
         Return tt)
    end.
Proof.
  intros Hrej category project location a1.
  assert (truthy (strip (subject_var (form a))) = true) as Hs.
  { destruct (truthy _) eqn:E; [done|]. apply truthy_false in E.
    exfalso. apply Hrej. by left. }
  assert (truthy category = true) as Hc.
  { destruct (truthy category) eqn:E; [done|]. apply truthy_false in E.
    exfalso. apply Hrej. right. by left. }
  assert (String.eqb category placeholder = false) as Hp.
  { apply String.eqb_neq. intros E. apply Hrej. right. by right. }
  destruct (handle_new_frame category project location a)
    as (Hst & Hed & Hfo & Hso & Hdo). fold a1 in Hst, Hed, Hfo, Hso, Hdo.
  assert (form (handle_new_category category a) = form a) as Hf1
    by (unfold handle_new_category; by case_match).
  assert (form (handle_new_project project (handle_new_category category a)) = form a)
    as Hf2 by (unfold handle_new_project; case_match; by rewrite ?Hf1).
  unfold create_task. rewrite Hs. cbn [negb]. fold category.
  rewrite Hc, Hp. cbn [negb orb]. rewrite Hf1. fold project.
  rewrite Hf2. fold location. fold a1.
  rewrite (form_entries_frame strptime_display a a1) by done.
  destruct (form_entries strptime_display a category project location); [|done].
  by rewrite Hst.
Qed.

Lemma handle_new_category_member (category project location : string) (a : App) :
  category <> "" ->
  member category
    (categories (handle_new_location location
                   (handle_new_project project (handle_new_category category a))))
  = true.
Proof.
  intros Hne.
  assert (categories (handle_new_location location
                        (handle_new_project project (handle_new_category category a)))
          = categories (handle_new_category category a)) as ->.
  { unfold handle_new_location, handle_new_project. by repeat case_match. }
  unfold handle_new_category. destruct category as [|c r]; [done|].
  cbn [truthy andb]. destruct (member (String c r) (categories a)) eqn:E; [done|].
  cbn [negb save_categories set_categories set_disk categories].
  apply member_In, sort_In, in_app_iff. right. by left.
Qed.

(** The end of [create_task]: the task list is shown, the dialog recorded
    and the form cleared. *)
Lemma finish_create (today : string) (d : dialog) (a : App) :
  let a' := clear_form today
              (show d (if negb (task_list_visible a) then toggle_task_list a else a)) in
  store a' = store a /\ disk a' = disk a /\ categories a' = categories a
  /\ task_list_visible a' = true /\ editing_task a' = None
  /\ form a' = cleared_form today /\ dialogs a' = (dialogs a ++ [d])%list.
Proof.
  destruct a as [st ca lo pr vis ed so do fo di dl].
  unfold clear_form, exit_edit_mode, show, toggle_task_list,
    set_form, set_editing_task, set_task_list_visible.
  by destruct vis, ed.
Qed.


(** X15.  On a form whose subject and category are ASCII text and, once
    stripped, not empty, the category not being the placeholder, and whose
    repeat settings can be read, [create_task] puts one new task object
    behind the objects of the store and the reference to it behind those of
    [self.tasks]; the task is made of the entries of the form under the
    next free id and the clock reading; the tasks are written to
    tasks.json, the category is in the list, the task list is shown,
    success is reported in a dialog and the form is left empty in create
    mode. *)
Theorem create_task_adds (now today : string) (a : App) (rs : option RepeatSettings) :
  ascii_text (subject_var (form a)) = true ->
  ascii_text (category_var (form a)) = true ->
  ~ rejected (form a) ->
  get_repeat_settings strptime_display (form a) = Return rs ->
  exists t a',
    create_task strptime_display now today a = (a', Return tt)
    /\ heap (store a') = (heap (store a) ++ [t])%list
    /\ tasks (store a') = (tasks (store a) ++ [length (heap (store a))])%list
    /\ id t = Z.of_nat (length (tasks (store a))) + 1
    /\ subject t = strip (subject_var (form a))
    /\ category t = strip (category_var (form a))
    /\ priority t = priority_var (form a) /\ status t = status_var (form a)
    /\ repeat_settings t = rs /\ created_date t = now
    /\ tasks_json (disk a') = Some (task_values (store a'))
    /\ member (category t) (categories a') = true
    /\ task_list_visible a' = true /\ editing_task a' = None
    /\ form a' = cleared_form today
    /\ dialogs a'
       = (dialogs a
          ++ [showinfo "Success"
                ("Task '" +:+ subject t +:+ "' created and saved successfully!")])%list.
Proof.
  intros _ _ Hrej Hrs. rewrite (create_task_accepted now today a Hrej).
  set (category := strip (category_var (form a))).
  set (project := strip (project_var (form a))).
  set (location := strip (location_var (form a))).
  set (a1 := handle_new_location location
               (handle_new_project project (handle_new_category category a))).
  destruct (handle_new_frame category project location a)
    as (Hst & Hed & Hfo & Hso & Hdo). fold a1 in Hst, Hed, Hfo, Hso, Hdo.
  assert (dialogs a1 = dialogs a) as Hdi.
  { unfold a1, handle_new_location, handle_new_project, handle_new_category.
    by repeat case_match. }
  assert (member category (categories a1) = true) as Hmem.
  { apply handle_new_category_member. intros E. apply Hrej. right. by left. }
  clearbody a1.
  unfold form_entries. rewrite Hrs. cbn [mbind result_bind bind mret result_ret].
  eexists. eexists. split; [reflexivity|].
  match goal with
  | |- context [clear_form today (show ?d ?x)] =>
      destruct (finish_create today d
                  (auto_save_tasks (set_store (append_task
                     (new_task (Z.of_nat (length (tasks (store a))) + 1)
                        {| e_subject := strip (subject_var (form a));
                           e_project := if String.eqb project "None" then "" else project;
                           e_priority := priority_var (form a);
                           e_status := status_var (form a);
                           e_progress := progress_var (form a);
                           e_start_date := get_actual_start_date strptime_display a;
                           e_due_date := get_actual_due_date strptime_display a;
                           e_due_date_type := due_date_var (form a);
                           e_reminder := reminder_var (form a);
                           e_reminder_date :=
                             if reminder_var (form a)
                             then convert_display_to_iso strptime_display
                                    (reminder_date_var (form a))
                             else "";
                           e_reminder_time := get_reminder_time_string (form a);
                           e_repeat_settings := rs;
                           e_category := category;
                           e_owner := strip (owner_var (form a));
                           e_location := location;
                           e_description := strip (description_text (form a)) |}
                        now) (store a)) a1)))
        as (H1 & H2 & H3 & H4 & H5 & H6 & H7)
  end.
  rewrite H1, H2, H3, H4, H5, H6, H7. unfold append_task.
  cbn [auto_save_tasks set_store set_disk store disk categories dialogs tasks_json
       heap tasks
       new_task id subject category priority status repeat_settings created_date
       e_subject e_category e_priority e_status e_repeat_settings].
  by rewrite Hdi.
Qed.


End FormMore.

(** ** The alarm of a written task *)

(** The clock reading of the alarm: the reminder date at the hour and the
    minute of the reminder time. *)
Lemma reminder_moment (t : Task) (dt : datetime) (h m : string)
    (rest : list string) (hv mv : Z) :
  split ":" (reminder_time t) = h :: m :: rest ->
  int h = Return hv -> int m = Return mv ->
  0 <= hv <= 23 -> 0 <= mv <= 59 ->
  (if truthy (reminder_time t)
   then
     h ← index (split ":" (reminder_time t)) 0 ≫= int;
     m ← index (split ":" (reminder_time t)) 1 ≫= int;
     replace_time dt h m
   else Return dt)
  = Return {| year := year dt; month := month dt; day := day dt;
              hour := hv; minute := mv |}.
Proof.
  intros Hs Hh Hm Hhv Hmv.
  destruct (reminder_time t) as [|c r] eqn:E; [discriminate|].
  cbn [truthy]. rewrite Hs. unfold index.
  cbn [lookup list_lookup of_option mbind result_bind bind].
  rewrite Hh, Hm. cbn [mbind result_bind bind]. unfold replace_time.
  assert ((0 <=? hv) && (hv <=? 23) && (0 <=? mv) && (mv <=? 59) = true) as ->; [|done].
  rewrite !andb_true_iff, !Z.leb_le. lia.
Qed.

(** The lines of the reminder are among the lines of the task when the
    reminder is set and has a date. *)
Lemma reminder_lines_written (uid stamp : string) (t : Task) (line : string) :
  reminder t = true -> truthy (reminder_date t) = true ->
  In line (reminder_lines t) -> In line (task_lines uid stamp t).
Proof.
  intros Hrem Hdate Hin. unfold task_lines. rewrite Hrem, Hdate. cbn [andb].
  rewrite !in_app_iff. tauto.
Qed.

Lemma strptime_ymd_truthy (s : string) (dt : datetime) :
  strptime_ymd s = Some dt -> truthy s = true.
Proof. by destruct s. Qed.

(** The alarm block when [generate_rrule] fails. *)
Lemma reminder_lines_open (t : Task) (rs : RepeatSettings) (dt : datetime)
    (h m : string) (rest : list string) (hv mv : Z) :
  strptime_ymd (reminder_date t) = Some dt ->
  split ":" (reminder_time t) = h :: m :: rest ->
  int h = Return hv -> int m = Return mv ->
  0 <= hv <= 23 -> 0 <= mv <= 59 ->
  repeat_settings t = Some rs -> frequency rs = None -> settings_empty rs = false ->
  reminder_lines t
  = ["BEGIN:VALARM"; "ACTION:DISPLAY"; "DESCRIPTION:Reminder: " +:+ subject t;
     "TRIGGER;VALUE=DATE-TIME:"
     +:+ strftime_stamp {| year := year dt; month := month dt; day := day dt;
                           hour := hv; minute := mv |}].
Proof.
  intros Hd Hs Hh Hm Hhv Hmv Hrs Hf He. unfold reminder_lines.
  rewrite Hd. cbv beta iota zeta.
  rewrite (reminder_moment t dt h m rest hv mv) by done.
  rewrite Hrs. cbn [settings_falsy]. rewrite He. cbn [negb].
  by rewrite generate_rrule_missing_frequency.
Qed.

Lemma app_middle {A : Type} (a b c d e : list A) :
  (a ++ b ++ c ++ d ++ e = (a ++ b ++ c) ++ d ++ e)%list.
Proof. by rewrite <- !List.app_assoc. Qed.

#[local] Ltac other_line H :=
  rewrite ?append_cons in H; discriminate H.

(** X17.  An alarm block left open in the written task.  When the reminder
    of a task is set, its date parses and its time gives an hour and a
    minute within range, and the repeat settings have keys but no
    frequency, [generate_rrule] fails inside the [try] of the reminder
    after the block has been opened: the lines that [generate_ics_file]
    appends for the task hold BEGIN:VALARM, ACTION, DESCRIPTION and
    TRIGGER one after the other, and no line END:VALARM. *)
Theorem alarm_left_open (uid stamp : string) (t : Task) (rs : RepeatSettings)
    (dt : datetime) (h m : string) (rest : list string) (hv mv : Z) :
  reminder t = true ->
  strptime_ymd (reminder_date t) = Some dt ->
  split ":" (reminder_time t) = h :: m :: rest ->
  int h = Return hv -> int m = Return mv ->
  0 <= hv <= 23 -> 0 <= mv <= 59 ->
  repeat_settings t = Some rs -> frequency rs = None -> settings_empty rs = false ->
  (exists before behind,
     task_lines uid stamp t
     = (before
        ++ ["BEGIN:VALARM"; "ACTION:DISPLAY"; "DESCRIPTION:Reminder: " +:+ subject t;
            "TRIGGER;VALUE=DATE-TIME:"
            +:+ strftime_stamp {| year := year dt; month := month dt; day := day dt;
                                  hour := hv; minute := mv |}]
        ++ behind)%list)
  /\ ~ In "END:VALARM" (task_lines uid stamp t).
Proof.
  intros Hrem Hd Hs Hh Hm Hhv Hmv Hrs Hf He.
  pose proof (reminder_lines_open t rs dt h m rest hv mv Hd Hs Hh Hm Hhv Hmv Hrs Hf He)
    as Hopen.
  pose proof (strptime_ymd_truthy _ _ Hd) as Hdate.
  unfold task_lines. rewrite Hrem, Hdate, Hopen. cbn [andb]. split.
  - do 2 eexists. apply app_middle.
  - intros Hin.
    destruct (truthy (start_date t)), (truthy (due_date t)), (truthy (category t)),
      (truthy (location t)), (truthy (description t));
      cbn [app In] in Hin;
      repeat match type of Hin with
             | _ \/ _ => destruct Hin as [Hin|Hin]; [other_line Hin|]
             end; done.
Qed.

Lemma two_digits_time (n : Z) :
  0 <= n <= 59 ->
  lacks ":" (zfill 2 (str n)) = true
  /\ zfill 2 (zfill 2 (str n)) = zfill 2 (str n)
  /\ int (zfill 2 (str n)) = Return n.
Proof.
  intros Hn.
  assert (exists k, (k < 60)%nat /\ n = Z.of_nat k) as (k & Hk & ->)
    by (exists (Z.to_nat n); lia).
  do 60 (destruct k as [|k]; [by vm_compute|]). lia.
Qed.

(** X18.  The time of the form reaches the written task.  For an hour
    0..23 and a minute 0..59 that the form shows with two digits,
    [get_reminder_time_string] gives HH:MM; and for a task with that
    reminder time whose reminder is set and whose reminder date parses, the
    lines that [generate_ics_file] appends for the task hold the TRIGGER
    line with the date as [strftime] prints it (the year as it is, month
    and day in two digits), the hour, the minute and 00 seconds. *)
Theorem form_time_is_written (uid stamp : string) (f : Form) (t : Task)
    (dt : datetime) (h m : Z) :
  0 <= h <= 23 -> 0 <= m <= 59 ->
  reminder_var f = true ->
  reminder_hour_var f = zfill 2 (str h) -> reminder_minute_var f = zfill 2 (str m) ->
  reminder t = true ->
  reminder_time t = get_reminder_time_string f ->
  strptime_ymd (reminder_date t) = Some dt ->
  get_reminder_time_string f = zfill 2 (str h) +:+ ":" +:+ zfill 2 (str m)
  /\ In ("TRIGGER;VALUE=DATE-TIME:" +:+ str (year dt) +:+ zfill 2 (str (month dt))
         +:+ zfill 2 (str (day dt)) +:+ "T"
         +:+ zfill 2 (str h) +:+ zfill 2 (str m) +:+ "00Z")
       (task_lines uid stamp t).
Proof.
  intros Hh Hm Hrem Hhour Hmin Hset Htime Hd.
  destruct (two_digits_time h) as (Lh & Zh & Ih); [lia|].
  destruct (two_digits_time m) as (Lm & Zm & Im); [lia|].
  assert (get_reminder_time_string f = zfill 2 (str h) +:+ ":" +:+ zfill 2 (str m)) as Hg.
  { unfold get_reminder_time_string. by rewrite Hrem, Hhour, Hmin, Zh, Zm. }
  split; [done|]. rewrite Hg in Htime.
  assert (split ":" (reminder_time t) = [zfill 2 (str h); zfill 2 (str m)]) as Hs.
  { rewrite Htime. apply split_two; [done| |].
    - change (":" +:+ zfill 2 (str m)) with (String ":" (zfill 2 (str m))).
      by apply cut_at.
    - by apply cut_lacks. }
  apply reminder_lines_written; [done | by eapply strptime_ymd_truthy |].
  unfold reminder_lines.
  rewrite Hd. cbv beta iota zeta.
  rewrite (reminder_moment t dt _ _ [] h m) by (done || lia).
  unfold strftime_stamp, ymd_compact. cbn [year month day hour minute].
  destruct (if negb (settings_falsy (repeat_settings t))
            then generate_rrule (repeat_settings t) else Return None) as [rule|e];
    cbn [In app]; rewrite ?append_assoc; tauto.
Qed.

(** ** Contacts *)




(** ** Deleting and numbering *)



Lemma omap_numbered (hp : list Task) (refs : list nat) :
  forall off,
  (forall i r, refs !! i = Some r ->
     exists t, hp !! r = Some t /\ id t = Z.of_nat (off + i) + 1) ->
  length (omap (fun r => hp !! r) refs) = length refs
  /\ forall i t, omap (fun r => hp !! r) refs !! i = Some t ->
       id t = Z.of_nat (off + i) + 1.
Proof.
  induction refs as [|r0 refs IH]; intros off Hoff; [done|].
  cbn [omap list_omap]. destruct (Hoff 0%nat r0 eq_refl) as (t0 & -> & Hid0).
  destruct (IH (S off)) as [Hl Hi].
  { intros i r Hi. destruct (Hoff (S i) r Hi) as (t & Ht & Hidt).
    exists t. split; [done|]. rewrite Hidt. do 2 f_equal. lia. }
  split; [simpl; by rewrite Hl|].
  intros [|i] t Ht.
  - injection Ht as <-. by rewrite Hid0.
  - rewrite (Hi i t Ht). do 2 f_equal. lia.
Qed.

Lemma task_values_numbered (s : Store) :
  numbered s ->
  length (task_values s) = length (tasks s)
  /\ forall i t, task_values s !! i = Some t -> id t = Z.of_nat i + 1.
Proof.
  unfold numbered, task_values. intros Hnum.
  apply (omap_numbered (heap s) (tasks s) 0%nat). intros i r Hi. by apply Hnum.
Qed.




Section Numbering.

Variable strptime_display : string -> option datetime.


End Numbering.

(** ** The added statements on concrete states *)


Lemma reminder_becomes_description_witness :
  exists task,
    heap (import_from_ics sample_now (generate_ics_file sample_uid sample_stamp [call_task])
            {| heap := []; tasks := [] |}).1
    = ([] ++ [task])%list
    /\ tasks (import_from_ics sample_now
                (generate_ics_file sample_uid sample_stamp [call_task])
                {| heap := []; tasks := [] |}).1
       = ([] ++ [length (@nil Task)])%list
    /\ (import_from_ics sample_now (generate_ics_file sample_uid sample_stamp [call_task])
          {| heap := []; tasks := [] |}).2 = true
    /\ description task = "Reminder: " +:+ subject call_task.
Proof.
  apply (reminder_becomes_description sample_uid sample_stamp sample_now call_task
           {| heap := []; tasks := [] |}
           {| year := 2024; month := 2; day := 28; hour := 0; minute := 0 |}
           "09" "30" [] 9 30); try reflexivity; try lia.
  discriminate.
Defined.

Lemma alarm_left_open_witness :
  (exists before behind,
     task_lines (sample_uid 0) (sample_stamp 0) call_task_from_file
     = (before
        ++ ["BEGIN:VALARM"; "ACTION:DISPLAY";
            "DESCRIPTION:Reminder: " +:+ subject call_task_from_file;
            "TRIGGER;VALUE=DATE-TIME:"
            +:+ strftime_stamp {| year := 2024; month := 2; day := 28;
                                  hour := 9; minute := 30 |}]
        ++ behind)%list)
  /\ ~ In "END:VALARM" (task_lines (sample_uid 0) (sample_stamp 0) call_task_from_file).
Proof.
  apply (alarm_left_open (sample_uid 0) (sample_stamp 0) call_task_from_file
           settings_without_frequency
           {| year := 2024; month := 2; day := 28; hour := 0; minute := 0 |}
           "09" "30" [] 9 30); try reflexivity; lia.
Defined.

Lemma form_time_is_written_witness :
  get_reminder_time_string (reminder_form "5")
  = zfill 2 (str 9) +:+ ":" +:+ zfill 2 (str 30)
  /\ In ("TRIGGER;VALUE=DATE-TIME:" +:+ str 2024 +:+ zfill 2 (str 2)
         +:+ zfill 2 (str 28) +:+ "T"
         +:+ zfill 2 (str 9) +:+ zfill 2 (str 30) +:+ "00Z")
       (task_lines (sample_uid 0) (sample_stamp 0) call_task).
Proof.
  apply (form_time_is_written (sample_uid 0) (sample_stamp 0) (reminder_form "5") call_task
           {| year := 2024; month := 2; day := 28; hour := 0; minute := 0 |} 9 30);
    try reflexivity; lia.
Defined.

Lemma form_repeat_rule_witness :
  exists rule,
    generate_rrule (Some weekly_five) = Return rule
    /\ forall r, rule = Some r ->
         reminder_var (reminder_form "5") = true
         /\ is_Some (frequency_map !! repeat_frequency_var (reminder_form "5"))
         /\ String.prefix "FREQ=" r = true.
Proof.
  apply (form_repeat_rule no_display_date (reminder_form "5") (Some weekly_five)).
  reflexivity.
Defined.

Lemma create_task_adds_witness :
  exists t a',
    create_task no_display_date "2024-02-02 10:00:00" "Feb 02, 2024" two_tasks_app
    = (a', Return tt)
    /\ heap (store a') = (heap (store two_tasks_app) ++ [t])%list
    /\ tasks (store a')
       = (tasks (store two_tasks_app) ++ [length (heap (store two_tasks_app))])%list
    /\ id t = Z.of_nat (length (tasks (store two_tasks_app))) + 1
    /\ subject t = strip (subject_var (form two_tasks_app))
    /\ category t = strip (category_var (form two_tasks_app))
    /\ priority t = priority_var (form two_tasks_app)
    /\ status t = status_var (form two_tasks_app)
    /\ repeat_settings t = Some weekly_five
    /\ created_date t = "2024-02-02 10:00:00"
    /\ tasks_json (disk a') = Some (task_values (store a'))
    /\ member (category t) (categories a') = true
    /\ task_list_visible a' = true /\ editing_task a' = None
    /\ form a' = cleared_form "Feb 02, 2024"
    /\ dialogs a'
       = (dialogs two_tasks_app
          ++ [showinfo "Success"
                ("Task '" +:+ subject t +:+ "' created and saved successfully!")])%list.
Proof.
  apply (create_task_adds no_display_date "2024-02-02 10:00:00" "Feb 02, 2024"
           two_tasks_app (Some weekly_five)).
  - reflexivity.
  - reflexivity.
  - intros [H|[H|H]]; vm_compute in H; discriminate.
  - reflexivity.
Defined.



(** ** The parser and the dates, once more *)

Lemma parse_line_typed (st : ParserState) (line : string) :
  Forall (fun item => is_Some (item !! "type")) (items st)
  /\ (current_item st = ∅ /\ in_item st = false
      \/ is_Some (current_item st !! "type")) ->
  Forall (fun item => is_Some (item !! "type")) (items (parse_line st line))
  /\ (current_item (parse_line st line) = ∅ /\ in_item (parse_line st line) = false
      \/ is_Some (current_item (parse_line st line) !! "type")).
Proof.
  intros [Hi Hc]. unfold parse_line.
  destruct (String.eqb (strip line) "BEGIN:VTODO").
  { cbn [items current_item in_item]. split; [done|]. right. by eexists. }
  destruct (String.eqb (strip line) "BEGIN:VEVENT").
  { cbn [items current_item in_item]. split; [done|]. right. by eexists. }
  destruct (String.eqb (strip line) "END:VTODO" || String.eqb (strip line) "END:VEVENT").
  { cbn [items current_item in_item]. split.
    - case_bool_decide as E; [done|]. apply Forall_app. split; [done|].
      apply Forall_singleton. by destruct Hc as [[? _]|?].
    - destruct Hc as [[? _]|?]; [by left | by right]. }
  destruct (in_item st && contains ":" (strip line)) eqn:E; [|by split].
  apply andb_true_iff in E as [Hin _].
  destruct (startswith " " (strip line) || startswith TAB (strip line));
    [by split|].
  destruct (split1 ":" (strip line)) as [|key [|value [|? ?]]]; try (by split).
  cbn [items current_item in_item]. split; [done|]. right.
  destruct Hc as [[_ ?]|Hc]; [congruence|].
  apply lookup_insert_is_Some'. by right.
Qed.

(** X21.  Every block that the parser gives has the key [type], which the
    importer asks for. *)
Theorem parse_blocks_typed (content : string) :
  Forall (fun item => is_Some (item !! "type")) (parse_blocks content).
Proof.
  unfold parse_blocks.
  assert (forall lines st,
            Forall (fun item => is_Some (item !! "type")) (items st)
            /\ (current_item st = ∅ /\ in_item st = false
                \/ is_Some (current_item st !! "type")) ->
            Forall (fun item => is_Some (item !! "type"))
              (items (fold_left parse_line lines st))) as H.
  { induction lines as [|line lines IH]; intros st Hst; [apply Hst|].
    cbn [fold_left]. apply IH. by apply parse_line_typed. }
  apply H. split; [apply Forall_nil_2|]. by left.
Qed.

(** X22.  A date that is written with its dashes is not read: the importer
    takes eight digits only, so its own form of a date gives the empty
    string. *)
Theorem convert_ics_date_dashed (token : string) :
  digits 8 token = true -> convert_ics_date (dashed token) = "".
Proof.
  intros H8. destruct (digits_split token H8) as (y & m & d & -> & Hy & Hm & Hd).
  destruct (dashed_digits y m d Hy Hm Hd) as [_ ->].
  apply digits_length in Hy as [Ly Hy], Hm as [Lm Hm], Hd as [Ld Hd].
  set (s := y +:+ "-" +:+ m +:+ "-" +:+ d).
  assert (forall c, is_digit c = false -> Ascii.eqb "-" c = false -> lacks c s = true)
    as Hlacks.
  { intros c Hc Hdash. unfold s.
    rewrite !lacks_app, (digit_lacks c y), (digit_lacks c m), (digit_lacks c d) by done.
    unfold lacks. cbn [all_chars]. by rewrite Hdash. }
  assert (String.length s = 10%nat) as Hlen
    by (unfold s; rewrite !append_length, Ly, Lm, Ld; reflexivity).
  assert (truthy s = true) as Ht.
  { unfold s. destruct y; [discriminate|]. by rewrite append_cons. }
  clearbody s.
  unfold convert_ics_date, convert_ics_date_body. rewrite Ht. cbn [negb].
  rewrite (contains_lacks "V"), (contains_lacks ":") by (by apply Hlacks).
  cbn [mbind result_bind bind mret result_ret].
  rewrite (contains_lacks "T") by (by apply Hlacks).
  cbn [mbind result_bind bind mret result_ret]. by rewrite Hlen.
Qed.

Lemma convert_ics_date_dashed_witness : convert_ics_date (dashed "20240301") = "".
Proof. apply (convert_ics_date_dashed "20240301"). reflexivity. Defined.

